(** * catifacts-bot: the Messenger webhook of [app.js]

    A shallow embedding of the webhook endpoint of [app.js]: the request
    signature check, the dispatch of messaging events to their handlers,
    the keyword switch of the message handler and the builders of the
    payloads handed to the Send API; and, around it, the subscription and
    account-linking routes, the callback of the Send API call and the
    reading of the configuration at start-up.

    Conventions of the embedding.
    - JavaScript values are the values JSON can describe, plus [undefined].
      A number is the rational it denotes; the product of two numbers is
      rounded to binary64 as the [*] of the language does (to nearest, ties
      to even), see [Number_mul].  Strings are byte strings (UTF-8), objects
      are association lists in source order, where the last binding of a key
      wins.
    - A function of [app.js] that logs, draws random numbers, calls the Send
      API or answers the HTTP request is a computation over a [World]; a
      JavaScript exception is the [Throw] completion.  The effects made
      before an exception stay in the world.
    - What [app.js] takes from outside (the configuration, the HMAC of
      [crypto], [JSON.parse] of body-parser, [Math.random], the printing of
      numbers) is a variable of the section [App].
    - A console call is recorded with its format and arguments as given; the
      text the runtime prints for them is no part of the embedding. *)

From Stdlib Require Import String Ascii List ZArith QArith Qround Qpower Bool.
From Stdlib Require Import Lia Lqa.
From Stdlib Require Import DecimalString.
Import ListNotations.

Open Scope string_scope.

Set Warnings "-register-all".

(** ** Values *)

Inductive Value : Type :=
| VUndefined
| VNull
| VBool (b : bool)
| VNum (q : Q)
| VStr (s : string)
| VArr (elems : list Value)
| VObj (props : list (string * Value)).

(** Own property of an object literal or of a parsed JSON object: the last
    binding of the key. *)
Fixpoint own (props : list (string * Value)) (k : string) : option Value :=
  match props with
  | [] => None
  | (k', v) :: rest =>
      match own rest k with
      | Some v' => Some v'
      | None => if String.eqb k k' then Some v else None
      end
  end.

(** ToBoolean. *)
Definition truthy (v : Value) : bool :=
  match v with
  | VUndefined | VNull => false
  | VBool b => b
  | VNum q => negb (Qeq_bool q 0)
  | VStr s => negb (String.eqb s EmptyString)
  | VArr _ | VObj _ => true
  end.

(** Strict equality of a value with a string literal, the comparison a
    [switch] over string cases makes. *)
Definition strictEqStr (v : Value) (s : string) : bool :=
  match v with
  | VStr t => String.eqb t s
  | _ => false
  end.

(** ** Completions and computations *)

Inductive Exn : Type :=
| TypeError
| SyntaxError
| Error (message : string).

Inductive Completion (A : Type) : Type :=
| Normal (a : A)
| Throw (e : Exn).
Arguments Normal {A} a.
Arguments Throw {A} e.

(** One line of the console: the stream and the arguments as passed. *)
Inductive LogArg : Type :=
| LVal (v : Value)
| LJson (v : Value).      (* JSON.stringify(v) *)

Inductive LogEntry : Type :=
| ConsoleLog (args : list LogArg)
| ConsoleError (args : list LogArg).

(** A request handed to the [request] library by [callSendAPI]. *)
Record OutboundCall : Type := mkCall {
  uri : string;
  qs_access_token : string;
  method : string;
  json : Value
}.

Record World : Type := mkWorld {
  sent : list OutboundCall;      (* Send API calls issued, oldest first *)
  console : list LogEntry;       (* console lines, oldest first *)
  draws : nat;                   (* calls of Math.random() made so far *)
  status : option Z              (* status written by res.sendStatus *)
}.

Definition M (A : Type) : Type := World -> Completion A * World.

Definition ret {A} (a : A) : M A := fun w => (Normal a, w).

Definition throw {A} (e : Exn) : M A := fun w => (Throw e, w).

Definition bind {A B} (m : M A) (k : A -> M B) : M B :=
  fun w =>
    match m w with
    | (Normal a, w') => k a w'
    | (Throw e, w') => (Throw e, w')
    end.

Definition lift {A} (c : Completion A) : M A := fun w => (c, w).

Notation "x <- m ;; k" := (bind m (fun x => k))
  (at level 61, m at next level, right associativity).
Notation "m ;;; k" := (bind m (fun _ => k))
  (at level 61, right associativity).

(** ** Primitives of the language and of the runtime *)

(** Property read [o.k], for the property names [app.js] reads; none of them
    is defined on a built-in prototype, so a miss is [undefined].  Reading a
    property of [undefined] or [null] throws. *)
Definition getProp (o : Value) (k : string) : Completion Value :=
  match o with
  | VUndefined | VNull => Throw TypeError
  | VObj props =>
      Normal (match own props k with Some v => v | None => VUndefined end)
  | _ => Normal VUndefined
  end.

Definition get (o : Value) (k : string) : M Value := lift (getProp o k).

Fixpoint forEachList {A} (f : A -> M unit) (l : list A) : M unit :=
  match l with
  | [] => ret tt
  | x :: rest => f x ;;; forEachList f rest
  end.

(** [a.forEach(f)]: only an array has a callable [forEach]. *)
Definition forEach (a : Value) (f : Value -> M unit) : M unit :=
  match a with
  | VArr l => forEachList f l
  | _ => throw TypeError
  end.

Definition console_log (args : list LogArg) : M unit :=
  fun w => (Normal tt,
            mkWorld (sent w) (console w ++ [ConsoleLog args]) (draws w) (status w)).

Definition console_error (args : list LogArg) : M unit :=
  fun w => (Normal tt,
            mkWorld (sent w) (console w ++ [ConsoleError args]) (draws w) (status w)).

Definition res_sendStatus (code : Z) : M unit :=
  fun w => (Normal tt, mkWorld (sent w) (console w) (draws w) (Some code)).

(** [s.split(sep)] for a one-character separator. *)
Fixpoint split (sep : ascii) (s : string) : list string :=
  match s with
  | EmptyString => [EmptyString]
  | String c rest =>
      if Ascii.eqb c sep then EmptyString :: split sep rest
      else match split sep rest with
           | h :: t => String c h :: t
           | [] => [String c EmptyString]
           end
  end.

(** Does the string contain the character? *)
Fixpoint occurs (c : ascii) (s : string) : bool :=
  match s with
  | EmptyString => false
  | String d rest => Ascii.eqb d c || occurs c rest
  end.

(** ** The fact table of [getRandomFact] *)

Definition facts : list string :=
  [ "Every year, nearly four million cats are eaten in Asia";
    "On average, cats spend 2/3 of every day sleeping";
    "Unlike dogs, cats do not have a sweet tooth";
    "When a cat chases its prey, it keeps its head level";
    "The technical term for a cat's hairball is a bezoar";
    "A group of cats is called a clowder";
    "Female cats tend to be right pawed, while male cats are more often left pawed";
    "A cat cannot climb head first down a tree because its claws are curved the wrong way";
    "Cats make about 100 different sounds";
    "A cat's brain is biologically more similar to a human brain than it is to a dog's";
    "There are more than 500 million domestic cats in the world";
    "Approximately 24 cat skins can make a coat";
    "During the Middle Ages, cats were associated with witchcraft";
    "Cats are the most popular pet in North American Cats are North America's most popular pets";
    "Approximately 40,000 people are bitten by cats in the U.S.";
    "A cat's hearing is better than a dog's";
    "A cat can travel at a top speed of approximately 31 mph (49 km) over a short distance";
    "A cat can jump up to five times its own height in a single bound";
    "Some cats have survived falls of over 20 meters";
    "Researchers are unsure exactly how a cat purrs";
    "When a family cat died in ancient Egypt, family members would mourn by shaving off their eyebrows";
    "In 1888, more than 300,000 mummified cats were found an Egyptian cemetery";
    "Most cats give birth to a litter of between one and nine kittens";
    "Smuggling a cat out of ancient Egypt was punishable by death";
    "The earliest ancestor of the modern cat lived about 30 million years ago";
    "The biggest wildcat today is the Siberian Tiger";
    "The smallest wildcat today is the Black-footed cat";
    "Many Egyptians worshipped the goddess Bast, who had a woman's body and a cat's head";
    "Mohammed loved cats and reportedly his favorite cat, Muezza, was a tabby";
    "The smallest pedigreed cat is a Singapura, which can weigh just 4 lbs";
    "Cats hate the water because their fur does not insulate well when it's wet";
    "The Egyptian Mau is probably the oldest breed of cat";
    "A cat usually has about 12 whiskers on each side of its face";
    "A cat's eyesight is both better and worse than humans";
    "A cat's jaw can't move sideways, so a cat can't chew large chunks of food";
    "A cat almost never meows at another cat, mostly just humans";
    "A cat's back is extremely flexible because it has up to 53 loosely fitting vertebrae";
    "Many cat owners think their cats can read their minds";
    "Two members of the cat family are distinct from all others: the clouded leopard and the cheetah";
    "In Japan, cats are thought to have the power to turn into super spirits when they die";
    "Most cats had short hair until about 100 years ago, when it became fashionable to own cats and experiment with breeding";
    "Cats have 32 muscles that control the outer ear";
    "Cats have about 20,155 hairs per square centimeter";
    "The first cat show was organized in 1871 in London";
    "A cat has 230 bones in its body";
    "Foods that should not be given to cats include onions, garlic, green tomatoes, raw potatoes, chocolate, grapes, and raisins";
    "A cat's heart beats nearly twice as fast as a human heart";
    "Cats spend nearly 1/3 of their waking hours cleaning themselves";
    "Grown cats have 30 teeth";
    "The largest cat breed is the Ragdoll";
    "Cats are extremely sensitive to vibrations";
    "The cat who holds the record for the longest non-fatal fall is Andy";
    "The richest cat is Blackie who was left £15 million by his owner, Ben Rea";
    "Around the world, cats take a break to nap —a catnap— 425 million times a day";
    "In homes with more than one cat, it is best to have cats of the opposite sex. They tend to be better housemates.";
    "Cats are unable to detect sweetness in anything they taste";
    "Perhaps the oldest cat breed on record is the Egyptian Mau, which is also the Egyptian language's word for cat";
    "In one litter of kittens, there could be multiple father cats";
    "Teeth of cats are sharper when they're kittens. After six months, they lose their needle-sharp milk teeth";
    "Collectively, kittens yawn about 200 million time per hour";
    "According to the International Species Information Service, there are only three Marbled Cats still in existence worldwide.  One lives in the United States.";
    "Cats show affection and mark their territory by rubbing on people. Glands on their face, tail and paws release a scent to make its mark";
    "Maine Coons are the most massive breed of house cats. They can weigh up to around 24 pounds";
    "If you killed a cat in the ages of Pharaoh, you could've been put to death";
    "Most cats will eat 7 to 20 small meals a day. This interesting fact is brought to you by Nature's Recipe®";
    "Most cats don't have eyelashes";
    "Call them wide-eyes: cats are the mammals with the largest eyes";
    "Cats who eat too much tuna can become addicted, which can actually cause a Vitamin E deficiency";
    "Cats can pick up on your tone of voice, so sweet-talking to your cat has more of an impact than you think";
    "Some cats can survive falls from as high up as 65 feet or more";
    "Genetically, cats' brains are more similar to that of a human than a dog's brain";
    "If your cat's eyes are closed, it's not necessarily because it's tired. A sign of closed eyes means your cat is happy or pleased";
    "Cats CAN be lefties and righties, just like us. More than forty percent of them are, leaving some ambidextrous";
    "Cats have the skillset that makes them able to learn how to use a toilet";
    "Each side of a cat's face has about 12 whiskers";
    "Landing on all fours is something typical to cats thanks to the help of their eyes and special balance organs in their inner ear. These tools help them straighten themselves in the air and land upright on the ground.";
    "Eating grass rids a cats' system of any fur and helps with digestion";
    "Cats have 24 more bones than humans";
    "Black cats aren't an omen of ill fortune in all cultures. In the UK and Australia, spotting a black cat is good luck";
    "The Maine Coon is appropriately the official State cat of its namesake state";
    "The world's most fertile cat, whose name was Dusty, gave birth to 420 kittens in her lifetime";
    "Sometimes called the Canadian Hairless, the Sphynx is the first cat breed that has lasted this long—the breed has been around since 1966";
    "Sir Isaac Newton, among his many achievements, invented the cat flap door";
    "In North America, cats are a more popular pet than dogs. Nearly 73 million cats and 63 million dogs are kept as household pets";
    "Today, cats are living twice as long as they did just 50 years ago";
    "Outdoor cats' lifespan averages at about 3 to 5 years; indoor cats have lives that last 16 years or more";
    "Cats have the cognitive ability to sense a human's feelings and overall mood";
    "Cats prefer their food at room temperature—not too hot, not too cold";
    "Bobtails are known to have notably short tails -- about half or a third the size of the average cat";
    "A fingerprint is to a human as a nose is to a cat";
    "Cats have over 100 sounds in their vocal repertoire, while dogs only have 10";
    "Cats came to the Americas from Europe as pest controllers in the 1750s";
    "According to the Association for Pet Obesity Prevention (APOP), about 50 million of our cats are overweight";
    "Cats use their whiskers to measure openings, indicate mood and general navigation";
    "Blue-eyed cats have a high tendency to be deaf, but not all cats with blue eyes are deaf";
    "Ancient Egyptians first adored cats for their finesse in killing rodents—as far back as 4,000 years ago";
    "The color of York Chocolates becomes richer with age. Kittens are born with a lighter coat than the adults";
    "Because of widespread cat smuggling in ancient Egypt, the exportation of cats was a crime punishable by death";
    "Cats actually have dreams, just like us. They start dreaming when they reach a week old";
    "It is important to include fat in your cat's diet because they're unable to make the nutrient in their bodies on their own";
    "A cat's field of vision does not cover the area right under its nose";
    "Talk about Facetime: Cats greet one another by rubbing their noses together";
    "Cats sleep 16 hours of any given day";
    "Although it is known to be the tailless cat, the Manx can be born with a stub or a short tail";
    "A Selkirk slowly loses its naturally-born curly coat, but it grows again when the cat is around 8 months";
    "A cat's heart beats almost double the rate of a human heart, from 110 to 140 beats per minute";
    "Ragdoll cats live up to their name: they will literally go limp, with relaxed muscles, when lifted by a human";
    "Unlike most other cats, the Turkish Van breed has a water-resistant coat and enjoys being in water";
    "Webbed feet on a cat? The Peterbald's got 'em! They make it easy for the cat to get a good grip on things with skill";
    "Despite appearing like a wild cat, the Ocicat does not have an ounce of wild blood";
    "Cat's back claws aren't as sharp as the claws on their front paws";
    "A group of kittens is called a kindle, and clowder is a term that refers to a group of adult cats";
    "A third of cats' time spent awake is usually spent cleaning themselves";
    "A female cat is also known to be called a queen or a molly";
    "Want to call a hairball by its scientific name? Next time, say the word bezoar";
    "Cats have a 5 toes on their front paws and 4 on each back paw";
    "In multi-pet households, cats are able to get along especially well with dogs if they're introduced when the cat is under 6 months old and the dog is under one year old";
    "Twenty-five percent of cat owners use a blow drier on their cats after bathing";
    "Rather than nine months, cats' pregnancies last about nine weeks";
    "It has been said that the Ukrainian Levkoy has the appearance of a dog, due to the angles of its face";
    "A cat can reach up to five times its own height per jump";
    "Cats have a strong aversion to anything citrus";
    "Cats would rather starve themselves than eat something they don't like. This means they will refuse an unpalatable -- but nutritionally complete -- food for a prolonged period";
    "The Snow Leopard, a variety of the California Spangled Cat, always has blue eyes";
    "The two outer layers of a cat's hair are called, respectively, the guard hair and the awn hair";
    "When a household cat died in ancient Egypt, its owners showed their grief by shaving their eyebrows";
    "Caution during Christmas: poinsettias may be festive, but they’re poisonous to cats";
    "Most kittens are born with blue eyes, which then turn color with age";
    "A cat's meow is usually not directed at another cat, but at a human. To communicate with other cats, they will usually hiss, purr and spit.";
    "According to the Guinness World Records, the largest domestic cat litter totaled at 19 kittens, four of them stillborn";
    "As temperatures rise, so do the number of cats. Cats are known to breed in warm weather, which leads many animal advocates worried about the plight of cats under Global Warming.";
    "Cats' rough tongues enable them to clean themselves efficiently and to lick clean an animal bone";
    "Most cat litters contain four to six kittens"
  ].

(** [a[i]] for an integer-valued index: out of range is [undefined]. *)
Definition elemAt (a : list string) (i : Z) : Value :=
  if (i <? 0)%Z then VUndefined
  else match nth_error a (Z.to_nat i) with
       | Some s => VStr s
       | None => VUndefined
       end.

(** An inbound HTTP request, as the [verify] hook of body-parser sees it:
    the headers (names in lower case) and the raw bytes of the body. *)
Record Request : Type := mkRequest {
  headers : list (string * string);
  rawBody : string
}.

Fixpoint header (hs : list (string * string)) (name : string) : option string :=
  match hs with
  | [] => None
  | (n, v) :: rest => if String.eqb n name then Some v else header rest name
  end.

(** ** Responses, the Send API answer and the start-up

    What the other routes write to [res], what the [request] library hands
    to the callback of [callSendAPI], and the reading of the configuration
    when the process starts. *)

Inductive Response : Type :=
| StatusSend (code : Z) (body : Value)       (* res.status(code).send(body) *)
| SendStatus (code : Z)                      (* res.sendStatus(code) *)
| Render (view : string) (locals : Value).   (* res.render(view, locals) *)

(** The [http.IncomingMessage] of an answered request. *)
Record IncomingMessage : Type := mkIncoming {
  statusCode : Z;
  statusMessage : string
}.

(** [a && b] on values. *)
Definition js_and (a b : Value) : Value := if truthy a then b else a.

(** [process.env.NAME ? process.env.NAME : config.get(key)]; [config.get]
    throws on a key the configuration does not define. *)
Definition configValue (env : string -> option string)
                       (config_get : string -> Completion Value)
                       (name key : string) : Completion Value :=
  match env name with
  | Some s => if truthy (VStr s) then Normal (VStr s) else config_get key
  | None => config_get key
  end.

Record Config : Type := mkConfig {
  appSecret : Value;
  validationToken : Value;
  pageAccessToken : Value;
  serverURL : Value
}.

Inductive Startup : Type :=
| Configured (c : Config)      (* the module goes on to define the routes *)
| Exited (code : Z)            (* process.exit(code) *)
| ConfigThrew (e : Exn).

(** The four constants and the check that follows them, with the console
    lines written. *)
Definition startup (env : string -> option string)
                   (config_get : string -> Completion Value)
    : list LogEntry * Startup :=
  match configValue env config_get "MESSENGER_APP_SECRET" "appSecret" with
  | Throw e => ([], ConfigThrew e)
  | Normal APP_SECRET =>
  match configValue env config_get "MESSENGER_VALIDATION_TOKEN" "validationToken" with
  | Throw e => ([], ConfigThrew e)
  | Normal VALIDATION_TOKEN =>
  match configValue env config_get "MESSENGER_PAGE_ACCESS_TOKEN" "pageAccessToken" with
  | Throw e => ([], ConfigThrew e)
  | Normal PAGE_ACCESS_TOKEN =>
  match configValue env config_get "SERVER_URL" "serverURL" with
  | Throw e => ([], ConfigThrew e)
  | Normal SERVER_URL =>
      if negb (truthy (js_and (js_and (js_and APP_SECRET VALIDATION_TOKEN)
                                      PAGE_ACCESS_TOKEN) SERVER_URL))
      then ([ConsoleError [LVal (VStr "Missing config values")]], Exited 1)
      else ([], Configured (mkConfig APP_SECRET VALIDATION_TOKEN
                                     PAGE_ACCESS_TOKEN SERVER_URL))
  end end end end.

Definition res_status_send (code : Z) (body : Value) : M Response :=
  fun w => (Normal (StatusSend code body),
            mkWorld (sent w) (console w) (draws w) (Some code)).

Definition res_render (view : string) (locals : Value) : M Response :=
  fun w => (Normal (Render view locals), w).

(** The callback [callSendAPI] gives to [request]: [error] of a failed
    transport, the [response] when there is one, the parsed [body]. *)
Definition callSendAPI_callback (error : Value) (response : option IncomingMessage)
                                (body : Value) : M unit :=
  ok <- (if negb (truthy error) then
           match response with
           | Some r => ret (statusCode r =? 200)%Z
           | None => throw TypeError
           end
         else ret false) ;;
  if ok : bool then
    recipientId <- get body "recipient_id" ;;
    messageId <- get body "message_id" ;;
    if truthy messageId then
      console_log
        [LVal (VStr "Successfully sent message with id %s to recipient %s");
         LVal messageId; LVal recipientId]
    else
      console_log
        [LVal (VStr "Successfully called Send API for recipient %s");
         LVal recipientId]
  else
    match response with
    | None => throw TypeError
    | Some r =>
        error_ <- get body "error" ;;
        console_error
          [LVal (VStr "Failed calling Send API");
           LVal (VNum (inject_Z (statusCode r)));
           LVal (VStr (statusMessage r)); LVal error_]
    end.

(** ** Number arithmetic

    [Math.random() * n] is a product of two doubles, and its value is the
    double nearest to the exact product.  The numbers [app.js] multiplies
    are far below the overflow threshold, so infinities are left out. *)

(** The exponent of the leading bit of a positive rational:
    [2 ^ Qlog2 x <= x < 2 ^ (Qlog2 x + 1)]. *)
Definition Qlog2 (x : Q) : Z :=
  let l0 := (Z.log2 (Qnum x) - Z.log2 (Z.pos (Qden x)))%Z in
  if Qle_bool (2 ^ l0) x then l0 else (l0 - 1)%Z.

(** The multiple of [2 ^ e] nearest to [x]; of two nearest ones, the even
    multiple. *)
Definition round_to (e : Z) (x : Q) : Q :=
  let t := x / 2 ^ e in
  let q := Qfloor t in
  let up :=
    match ((t - inject_Z q) ?= (1 # 2))%Q with
    | Gt => true
    | Eq => Z.odd q
    | Lt => false
    end in
  inject_Z (if up then q + 1 else q) * 2 ^ e.

(** The spacing of the doubles around [x]: 53 significant bits, and
    [2 ^ -1074] below the smallest normal number. *)
Definition ulp_exponent (x : Q) : Z := Z.max (Qlog2 x - 52) (-1074).

Definition round_binary64 (x : Q) : Q :=
  match (x ?= 0)%Q with
  | Eq => 0
  | Gt => round_to (ulp_exponent x) x
  | Lt => - round_to (ulp_exponent (- x)) (- x)
  end.

(** Number::multiply. *)
Definition Number_mul (x y : Q) : Q := round_binary64 (x * y).

(** Half the spacing of the doubles of [1/2, 1). *)
Definition unit_roundoff : Q := 2 ^ (-53).

(** ** Sample inputs

    Concrete stand-ins for what the program takes from outside, and the
    events of the scenarios, used where a statement is evaluated. *)

Module Sample.

Definition secret : string := "app-secret".
Definition pageToken : string := "page-access-token".
Definition serverURL : string := "https://bot.example.org".

(** A stand-in for the HMAC: one fixed digest for every body. *)
Definition digest : string := "2fd4e1c67a2d28fced849ee1bb76e7391b93eb12".
Definition hmac (key buf : string) : string := digest.

(** Number::toString on integer-valued numbers. *)
Definition integer_toString (q : Q) : string :=
  NilZero.string_of_int (Z.to_int (Qfloor q)).

Definition constant_draw (q : Q) : nat -> Q := fun _ => q.

Definition alternating_draw : nat -> Q :=
  fun n => if Nat.even n then 0 else 1 # 2.

Definition world0 : World := mkWorld [] [] 0 None.

Definition event (message : Value) : Value :=
  VObj [("sender", VObj [("id", VStr "U")]);
        ("recipient", VObj [("id", VStr "P")]);
        ("message", message)].

Definition envelope (object : Value) (events : list Value) : Value :=
  VObj [("object", object);
        ("entry", VArr [VObj [("id", VStr "1"); ("time", VNum 0);
                              ("messaging", VArr events)]])].

Definition text (s : string) : Value := VObj [("text", VStr s)].

(** A stand-in for the parser: every body is the envelope of the ["button"]
    scenario. *)
Definition parse (raw : string) : option Value :=
  Some (envelope (VStr "page") [event (text "button")]).

Definition request (hs : list (string * string)) : Request :=
  mkRequest hs "raw body".

Definition verifyToken : string := "validation-token".

(** The query of a subscription request. *)
Definition query (mode token challenge : string) : Value :=
  VObj [("hub.mode", VStr mode); ("hub.verify_token", VStr token);
        ("hub.challenge", VStr challenge)].

(** An event of one variant without the [sender] object. *)
Definition senderless (variant : string) : Value :=
  VObj [("recipient", VObj [("id", VStr "P")]); (variant, VObj [])].

Definition delivery (mids : Value) : Value :=
  VObj [("sender", VObj [("id", VStr "U")]);
        ("recipient", VObj [("id", VStr "P")]);
        ("delivery", VObj [("mids", mids); ("watermark", VNum 1458668856253);
                           ("seq", VNum 37)])].

End Sample.

(** ** The program *)

Section App.

(** Configuration read at start-up ([app.js] exits when one is missing). *)
Variable APP_SECRET : string.
Variable PAGE_ACCESS_TOKEN : string.
Variable SERVER_URL : string.

(** [crypto.createHmac('sha1', key).update(buf).digest('hex')]. *)
Variable hmac_sha1_hex : string -> string -> string.

(** [JSON.parse] as body-parser applies it to the raw body. *)
Variable JSON_parse : string -> option Value.

(** The value of the n-th call of [Math.random()], a double of [0, 1). *)
Variable Math_random : nat -> Q.
Hypothesis Math_random_range : forall n, 0 <= Math_random n /\ Math_random n < 1.
Hypothesis Math_random_double :
  forall n, round_binary64 (Math_random n) == Math_random n.

(** Number::toString. *)
Variable Number_toString : Q -> string.

(** The token of the webhook subscription, read at start-up as well. *)
Variable VALIDATION_TOKEN : string.

Definition Math_random_call : M Q :=
  fun w => (Normal (Math_random (draws w)),
            mkWorld (sent w) (console w) (S (draws w)) (status w)).

Definition Math_floor (q : Q) : Z := Qfloor q.

(** *** Loose equality with ['page'] *)

(** ToString, as [Array.prototype.join] and ToPrimitive use it.  An array
    prints as the join of its elements with [","], where [undefined] and
    [null] print as the empty string; an object without an own [toString]
    prints as ["[object Object]"], and one with an own [toString] (a JSON
    value, never callable) has no primitive value. *)
Fixpoint ToString (v : Value) : Completion string :=
  match v with
  | VUndefined => Normal "undefined"
  | VNull => Normal "null"
  | VBool true => Normal "true"
  | VBool false => Normal "false"
  | VNum q => Normal (Number_toString q)
  | VStr s => Normal s
  | VArr l =>
      (fix join (l : list Value) : Completion string :=
         match l with
         | [] => Normal EmptyString
         | x :: rest =>
             let first :=
               match x with
               | VUndefined | VNull => Normal EmptyString
               | _ => ToString x
               end in
             match first with
             | Throw e => Throw e
             | Normal s =>
                 match rest with
                 | [] => Normal s
                 | _ :: _ =>
                     match join rest with
                     | Throw e => Throw e
                     | Normal r => Normal (s ++ "," ++ r)
                     end
                 end
             end
         end) l
  | VObj props =>
      match own props "toString" with
      | Some _ => Throw TypeError
      | None => Normal "[object Object]"
      end
  end.

(** [v == 'page'].  A number or a boolean is compared with the number the
    string converts to, which is NaN; [undefined] and [null] equal no
    string; an array or an object is compared by its primitive value. *)
Definition looseEq_page (v : Value) : Completion bool :=
  match v with
  | VUndefined | VNull | VBool _ | VNum _ => Normal false
  | VStr s => Normal (String.eqb s "page")
  | VArr _ | VObj _ =>
      match ToString v with
      | Normal s => Normal (String.eqb s "page")
      | Throw e => Throw e
      end
  end.

(** *** Send API *)

Definition callSendAPI (messageData : Value) : M unit :=
  fun w =>
    (Normal tt,
     mkWorld (sent w ++ [mkCall "https://graph.facebook.com/v2.6/me/messages"
                                PAGE_ACCESS_TOKEN "POST" messageData])
             (console w) (draws w) (status w)).

Definition sendImageMessage (recipientId : Value) : M unit :=
  let messageData :=
    VObj [("recipient", VObj [("id", recipientId)]);
          ("message",
           VObj [("attachment",
                  VObj [("type", VStr "image");
                        ("payload",
                         VObj [("url", VStr (SERVER_URL ++ "/assets/rift.png"))])])])] in
  callSendAPI messageData.

Definition sendGifMessage (recipientId : Value) : M unit :=
  let messageData :=
    VObj [("recipient", VObj [("id", recipientId)]);
          ("message",
           VObj [("attachment",
                  VObj [("type", VStr "image");
                        ("payload",
                         VObj [("url", VStr (SERVER_URL ++ "/assets/instagram_logo.gif"))])])])] in
  callSendAPI messageData.

Definition sendAudioMessage (recipientId : Value) : M unit :=
  let messageData :=
    VObj [("recipient", VObj [("id", recipientId)]);
          ("message",
           VObj [("attachment",
                  VObj [("type", VStr "audio");
                        ("payload",
                         VObj [("url", VStr (SERVER_URL ++ "/assets/sample.mp3"))])])])] in
  callSendAPI messageData.

Definition sendVideoMessage (recipientId : Value) : M unit :=
  let messageData :=
    VObj [("recipient", VObj [("id", recipientId)]);
          ("message",
           VObj [("attachment",
                  VObj [("type", VStr "video");
                        ("payload",
                         VObj [("url", VStr (SERVER_URL ++ "/assets/allofus480.mov"))])])])] in
  callSendAPI messageData.

Definition sendFileMessage (recipientId : Value) : M unit :=
  let messageData :=
    VObj [("recipient", VObj [("id", recipientId)]);
          ("message",
           VObj [("attachment",
                  VObj [("type", VStr "file");
                        ("payload",
                         VObj [("url", VStr (SERVER_URL ++ "/assets/test.txt"))])])])] in
  callSendAPI messageData.

Definition getRandomFact : M Value :=
  r <- Math_random_call ;;
  let randomnumber :=
    (Math_floor (Number_mul r (inject_Z ((Z.of_nat (length facts) - 1) - 0 + 1)))
     + 0)%Z in
  ret (elemAt facts randomnumber).

(** The argument [messageText] is not used by the body. *)
Definition sendTextMessage (recipientId : Value) (messageText : Value) : M unit :=
  fact <- getRandomFact ;;
  let messageData :=
    VObj [("recipient", VObj [("id", recipientId)]);
          ("message", VObj [("text", fact);
                            ("metadata", VStr "DEVELOPER_DEFINED_METADATA")])] in
  callSendAPI messageData.

Definition sendButtonMessage (recipientId : Value) : M unit :=
  let messageData :=
    VObj [("recipient", VObj [("id", recipientId)]);
          ("message",
           VObj [("attachment",
                  VObj [("type", VStr "template");
                        ("payload",
                         VObj [("template_type", VStr "button");
                               ("text", VStr "This is test text");
                               ("buttons",
                                VArr [VObj [("type", VStr "web_url");
                                            ("url", VStr "https://www.oculus.com/en-us/rift/");
                                            ("title", VStr "Open Web URL")];
                                      VObj [("type", VStr "postback");
                                            ("title", VStr "Trigger Postback");
                                            ("payload", VStr "DEVELOPER_DEFINED_PAYLOAD")];
                                      VObj [("type", VStr "phone_number");
                                            ("title", VStr "Call Phone Number");
                                            ("payload", VStr "+16505551234")]])])])])] in
  callSendAPI messageData.

Definition sendGenericMessage (recipientId : Value) : M unit :=
  let messageData :=
    VObj [("recipient", VObj [("id", recipientId)]);
          ("message",
           VObj [("attachment",
                  VObj [("type", VStr "template");
                        ("payload",
                         VObj [("template_type", VStr "generic");
                               ("elements",
                                VArr [VObj [("title", VStr "rift");
                                            ("subtitle", VStr "Next-generation virtual reality");
                                            ("item_url", VStr "https://www.oculus.com/en-us/rift/");
                                            ("image_url", VStr (SERVER_URL ++ "/assets/rift.png"));
                                            ("buttons",
                                             VArr [VObj [("type", VStr "web_url");
                                                         ("url", VStr "https://www.oculus.com/en-us/rift/");
                                                         ("title", VStr "Open Web URL")];
                                                   VObj [("type", VStr "postback");
                                                         ("title", VStr "Call Postback");
                                                         ("payload", VStr "Payload for first bubble")]])];
                                      VObj [("title", VStr "touch");
                                            ("subtitle", VStr "Your Hands, Now in VR");
                                            ("item_url", VStr "https://www.oculus.com/en-us/touch/");
                                            ("image_url", VStr (SERVER_URL ++ "/assets/touch.png"));
                                            ("buttons",
                                             VArr [VObj [("type", VStr "web_url");
                                                         ("url", VStr "https://www.oculus.com/en-us/touch/");
                                                         ("title", VStr "Open Web URL")];
                                                   VObj [("type", VStr "postback");
                                                         ("title", VStr "Call Postback");
                                                         ("payload", VStr "Payload for second bubble")]])]])])])])] in
  callSendAPI messageData.

Definition sendReceiptMessage (recipientId : Value) : M unit :=
  r <- Math_random_call ;;
  let receiptId :=
    "order" ++ Number_toString (inject_Z (Math_floor (Number_mul r 1000))) in
  let messageData :=
    VObj [("recipient", VObj [("id", recipientId)]);
          ("message",
           VObj [("attachment",
                  VObj [("type", VStr "template");
                        ("payload",
                         VObj [("template_type", VStr "receipt");
                               ("recipient_name", VStr "Peter Chang");
                               ("order_number", VStr receiptId);
                               ("currency", VStr "USD");
                               ("payment_method", VStr "Visa 1234");
                               ("timestamp", VStr "1428444852");
                               ("elements",
                                VArr [VObj [("title", VStr "Oculus Rift");
                                            ("subtitle", VStr "Includes: headset, sensor, remote");
                                            ("quantity", VNum 1);
                                            ("price", VNum 599);
                                            ("currency", VStr "USD");
                                            ("image_url", VStr (SERVER_URL ++ "/assets/riftsq.png"))];
                                      VObj [("title", VStr "Samsung Gear VR");
                                            ("subtitle", VStr "Frost White");
                                            ("quantity", VNum 1);
                                            ("price", VNum (9999 # 100));
                                            ("currency", VStr "USD");
                                            ("image_url", VStr (SERVER_URL ++ "/assets/gearvrsq.png"))]]);
                               ("address",
                                VObj [("street_1", VStr "1 Hacker Way");
                                      ("street_2", VStr EmptyString);
                                      ("city", VStr "Menlo Park");
                                      ("postal_code", VStr "94025");
                                      ("state", VStr "CA");
                                      ("country", VStr "US")]);
                               ("summary",
                                VObj [("subtotal", VNum (69899 # 100));
                                      ("shipping_cost", VNum 20);
                                      ("total_tax", VNum (5767 # 100));
                                      ("total_cost", VNum (62666 # 100))]);
                               ("adjustments",
                                VArr [VObj [("name", VStr "New Customer Discount");
                                            ("amount", VNum (-50))];
                                      VObj [("name", VStr "$100 Off Coupon");
                                            ("amount", VNum (-100))]])])])])] in
  callSendAPI messageData.

Definition sendQuickReply (recipientId : Value) : M unit :=
  let messageData :=
    VObj [("recipient", VObj [("id", recipientId)]);
          ("message",
           VObj [("text", VStr "What's your favorite movie genre?");
                 ("quick_replies",
                  VArr [VObj [("content_type", VStr "text");
                              ("title", VStr "Action");
                              ("payload", VStr "DEVELOPER_DEFINED_PAYLOAD_FOR_PICKING_ACTION")];
                        VObj [("content_type", VStr "text");
                              ("title", VStr "Comedy");
                              ("payload", VStr "DEVELOPER_DEFINED_PAYLOAD_FOR_PICKING_COMEDY")];
                        VObj [("content_type", VStr "text");
                              ("title", VStr "Drama");
                              ("payload", VStr "DEVELOPER_DEFINED_PAYLOAD_FOR_PICKING_DRAMA")]])])] in
  callSendAPI messageData.

Definition sendReadReceipt (recipientId : Value) : M unit :=
  console_log [LVal (VStr "Sending a read receipt to mark message as seen")] ;;;
  let messageData :=
    VObj [("recipient", VObj [("id", recipientId)]);
          ("sender_action", VStr "mark_seen")] in
  callSendAPI messageData.

Definition sendTypingOn (recipientId : Value) : M unit :=
  console_log [LVal (VStr "Turning typing indicator on")] ;;;
  let messageData :=
    VObj [("recipient", VObj [("id", recipientId)]);
          ("sender_action", VStr "typing_on")] in
  callSendAPI messageData.

Definition sendTypingOff (recipientId : Value) : M unit :=
  console_log [LVal (VStr "Turning typing indicator off")] ;;;
  let messageData :=
    VObj [("recipient", VObj [("id", recipientId)]);
          ("sender_action", VStr "typing_off")] in
  callSendAPI messageData.

Definition sendAccountLinking (recipientId : Value) : M unit :=
  let messageData :=
    VObj [("recipient", VObj [("id", recipientId)]);
          ("message",
           VObj [("attachment",
                  VObj [("type", VStr "template");
                        ("payload",
                         VObj [("template_type", VStr "button");
                               ("text", VStr "Welcome. Link your account.");
                               ("buttons",
                                VArr [VObj [("type", VStr "account_link");
                                            ("url", VStr (SERVER_URL ++ "/authorize"))]])])])])] in
  callSendAPI messageData.

(** *** Event handlers *)

Definition receivedAuthentication (event : Value) : M unit :=
  sender <- get event "sender" ;;
  senderID <- get sender "id" ;;
  recipient <- get event "recipient" ;;
  recipientID <- get recipient "id" ;;
  timeOfAuth <- get event "timestamp" ;;
  optin <- get event "optin" ;;
  passThroughParam <- get optin "ref" ;;
  console_log
    [LVal (VStr ("Received authentication for user %d and page %d with pass "
                 ++ "through param '%s' at %d"));
     LVal senderID; LVal recipientID; LVal passThroughParam; LVal timeOfAuth] ;;;
  sendTextMessage senderID (VStr "Authentication successful").

Definition receivedMessage (event : Value) : M unit :=
  sender <- get event "sender" ;;
  senderID <- get sender "id" ;;
  recipient <- get event "recipient" ;;
  recipientID <- get recipient "id" ;;
  timeOfMessage <- get event "timestamp" ;;
  message <- get event "message" ;;
  console_log
    [LVal (VStr "Received message for user %d and page %d at %d with message:");
     LVal senderID; LVal recipientID; LVal timeOfMessage] ;;;
  console_log [LJson message] ;;;
  isEcho <- get message "is_echo" ;;
  messageId <- get message "mid" ;;
  appId <- get message "app_id" ;;
  metadata <- get message "metadata" ;;
  messageText <- get message "text" ;;
  messageAttachments <- get message "attachments" ;;
  quickReply <- get message "quick_reply" ;;
  if truthy isEcho then
    console_log
      [LVal (VStr "Received echo for message %s and app %d with metadata %s");
       LVal messageId; LVal appId; LVal metadata]
  else if truthy quickReply then
    quickReplyPayload <- get quickReply "payload" ;;
    console_log
      [LVal (VStr "Quick reply for message %s with payload %s");
       LVal messageId; LVal quickReplyPayload] ;;;
    sendTextMessage senderID (VStr "Quick reply tapped")
  else if truthy messageText then
    if strictEqStr messageText "image" then sendImageMessage senderID
    else if strictEqStr messageText "gif" then sendGifMessage senderID
    else if strictEqStr messageText "audio" then sendAudioMessage senderID
    else if strictEqStr messageText "video" then sendVideoMessage senderID
    else if strictEqStr messageText "file" then sendFileMessage senderID
    else if strictEqStr messageText "button" then sendButtonMessage senderID
    else if strictEqStr messageText "generic" then sendGenericMessage senderID
    else if strictEqStr messageText "receipt" then sendReceiptMessage senderID
    else if strictEqStr messageText "quick reply" then sendQuickReply senderID
    else if strictEqStr messageText "read receipt" then sendReadReceipt senderID
    else if strictEqStr messageText "typing on" then sendTypingOn senderID
    else if strictEqStr messageText "typing off" then sendTypingOff senderID
    else if strictEqStr messageText "account linking" then sendAccountLinking senderID
    else sendTextMessage senderID messageText
  else if truthy messageAttachments then
    sendTextMessage senderID (VStr "Message with attachment received")
  else ret tt.

Definition receivedDeliveryConfirmation (event : Value) : M unit :=
  sender <- get event "sender" ;;
  senderID <- get sender "id" ;;
  recipient <- get event "recipient" ;;
  recipientID <- get recipient "id" ;;
  delivery <- get event "delivery" ;;
  messageIDs <- get delivery "mids" ;;
  watermark <- get delivery "watermark" ;;
  sequenceNumber <- get delivery "seq" ;;
  (if truthy messageIDs then
     forEach messageIDs (fun messageID =>
       console_log
         [LVal (VStr "Received delivery confirmation for message ID: %s");
          LVal messageID])
   else ret tt) ;;;
  console_log [LVal (VStr "All message before %d were delivered."); LVal watermark].

Definition receivedPostback (event : Value) : M unit :=
  sender <- get event "sender" ;;
  senderID <- get sender "id" ;;
  recipient <- get event "recipient" ;;
  recipientID <- get recipient "id" ;;
  timeOfPostback <- get event "timestamp" ;;
  postback <- get event "postback" ;;
  payload <- get postback "payload" ;;
  console_log
    [LVal (VStr ("Received postback for user %d and page %d with payload '%s' "
                 ++ "at %d"));
     LVal senderID; LVal recipientID; LVal payload; LVal timeOfPostback] ;;;
  sendTextMessage senderID (VStr "Postback called").

Definition receivedMessageRead (event : Value) : M unit :=
  sender <- get event "sender" ;;
  senderID <- get sender "id" ;;
  recipient <- get event "recipient" ;;
  recipientID <- get recipient "id" ;;
  read <- get event "read" ;;
  watermark <- get read "watermark" ;;
  sequenceNumber <- get read "seq" ;;
  console_log
    [LVal (VStr ("Received message read event for watermark %d and sequence "
                 ++ "number %d"));
     LVal watermark; LVal sequenceNumber].

Definition receivedAccountLink (event : Value) : M unit :=
  sender <- get event "sender" ;;
  senderID <- get sender "id" ;;
  recipient <- get event "recipient" ;;
  recipientID <- get recipient "id" ;;
  account_linking <- get event "account_linking" ;;
  status <- get account_linking "status" ;;
  authCode <- get account_linking "authorization_code" ;;
  console_log
    [LVal (VStr ("Received account link event with for user %d with status %s "
                 ++ "and auth code %s "));
     LVal senderID; LVal status; LVal authCode].

(** *** POST /webhook *)

(** The callback of [pageEntry.messaging.forEach]. *)
Definition onMessagingEvent (messagingEvent : Value) : M unit :=
  optin <- get messagingEvent "optin" ;;
  if truthy optin then receivedAuthentication messagingEvent else
  message <- get messagingEvent "message" ;;
  if truthy message then receivedMessage messagingEvent else
  delivery <- get messagingEvent "delivery" ;;
  if truthy delivery then receivedDeliveryConfirmation messagingEvent else
  postback <- get messagingEvent "postback" ;;
  if truthy postback then receivedPostback messagingEvent else
  read <- get messagingEvent "read" ;;
  if truthy read then receivedMessageRead messagingEvent else
  account_linking <- get messagingEvent "account_linking" ;;
  if truthy account_linking then receivedAccountLink messagingEvent else
  console_log [LVal (VStr "Webhook received unknown messagingEvent: ");
               LVal messagingEvent].

(** The callback of [data.entry.forEach]. *)
Definition onPageEntry (pageEntry : Value) : M unit :=
  pageID <- get pageEntry "id" ;;
  timeOfEvent <- get pageEntry "time" ;;
  messaging <- get pageEntry "messaging" ;;
  forEach messaging onMessagingEvent.

(** The handler of [app.post('/webhook', ...)], run on [req.body]. *)
Definition post_webhook (data : Value) : M unit :=
  object <- get data "object" ;;
  isPage <- lift (looseEq_page object) ;;
  if isPage then
    entry <- get data "entry" ;;
    forEach entry onPageEntry ;;;
    res_sendStatus 200
  else ret tt.

(** *** Signature check *)

Definition verifyRequestSignature (req : Request) (buf : string) : M unit :=
  let signature := header (headers req) "x-hub-signature" in
  match signature with
  | None => console_error [LVal (VStr "Couldn't validate the signature.")]
  | Some sig =>
      if String.eqb sig EmptyString then
        console_error [LVal (VStr "Couldn't validate the signature.")]
      else
        let elements := split "=" sig in
        let method := nth_error elements 0 in
        let signatureHash := nth_error elements 1 in
        let expectedHash := hmac_sha1_hex APP_SECRET buf in
        if match signatureHash with
           | Some h => negb (String.eqb h expectedHash)
           | None => true
           end
        then throw (Error "Couldn't validate the request signature.")
        else ret tt
  end.

(** [bodyParser.json({ verify })] on a JSON request: the hook runs on the raw
    body before it is parsed, and an exception of the hook or of the parser
    ends the request before any route handler. *)
Definition bodyParser_json (verify : Request -> string -> M unit)
                           (req : Request) : M Value :=
  verify req (rawBody req) ;;;
  match JSON_parse (rawBody req) with
  | Some body => ret body
  | None => throw SyntaxError
  end.

(** A POST to /webhook through the middleware and the route handler. *)
Definition handle_post_webhook (req : Request) : M unit :=
  body <- bodyParser_json verifyRequestSignature req ;;
  post_webhook body.

(** *** GET /webhook and GET /authorize *)

(** The handler of [app.get('/webhook', ...)], run on [req.query]; its value
    is what it writes to [res]. *)
Definition get_webhook (query : Value) : M Response :=
  mode <- get query "hub.mode" ;;
  valid <- (if strictEqStr mode "subscribe" then
              verify_token <- get query "hub.verify_token" ;;
              ret (strictEqStr verify_token VALIDATION_TOKEN)
            else ret false) ;;
  if valid : bool then
    console_log [LVal (VStr "Validating webhook")] ;;;
    challenge <- get query "hub.challenge" ;;
    res_status_send 200 challenge
  else
    console_error
      [LVal (VStr "Failed validation. Make sure the validation tokens match.")] ;;;
    res_sendStatus 403 ;;;
    ret (SendStatus 403).

(** The handler of [app.get('/authorize', ...)], run on [req.query]. *)
Definition authorize (query : Value) : M Response :=
  accountLinkingToken <- get query "account_linking_token" ;;
  redirectURI <- get query "redirect_uri" ;;
  let authCode := "1234567890" in
  prefix <- lift (ToString redirectURI) ;;
  let redirectURISuccess := (prefix ++ "&authorization_code=") ++ authCode in
  res_render "authorize"
    (VObj [("accountLinkingToken", accountLinkingToken);
           ("redirectURI", redirectURI);
           ("redirectURISuccess", VStr redirectURISuccess)]).

(** ** Auxiliary definitions for the statements *)

Definition nullish (v : Value) : bool :=
  match v with
  | VUndefined | VNull => true
  | _ => false
  end.

(** The value of [o.k] when the read does not throw. *)
Definition field (o : Value) (k : string) : Value :=
  match getProp o k with
  | Normal v => v
  | Throw _ => VUndefined
  end.

(** The world after one more console line. *)
Definition logged (l : LogEntry) (w : World) : World :=
  mkWorld (sent w) (console w ++ [l]) (draws w) (status w).

(** The index [getRandomFact] computes from a draw. *)
Definition factIndex (r : Q) : Z :=
  (Math_floor (Number_mul r (inject_Z ((Z.of_nat (length facts) - 1) - 0 + 1)))
   + 0)%Z.

(** The payload [sendTextMessage] builds in a world, and the world it leaves. *)
Definition textPayload (recipientId : Value) (w : World) : Value :=
  VObj [("recipient", VObj [("id", recipientId)]);
        ("message",
         VObj [("text", elemAt facts (factIndex (Math_random (draws w))));
               ("metadata", VStr "DEVELOPER_DEFINED_METADATA")])].

Definition sendAPI (messageData : Value) : OutboundCall :=
  mkCall "https://graph.facebook.com/v2.6/me/messages" PAGE_ACCESS_TOKEN "POST"
         messageData.

Definition afterText (recipientId : Value) (w : World) : World :=
  mkWorld (sent w ++ [sendAPI (textPayload recipientId w)])
          (console w) (S (draws w)) (status w).

(** The keyword table of the message handler, as the specification lists
    it: each keyword with the builder named after it. *)
Definition keyword_builders : list (string * (Value -> M unit)) :=
  [("image", sendImageMessage);
   ("gif", sendGifMessage);
   ("audio", sendAudioMessage);
   ("video", sendVideoMessage);
   ("file", sendFileMessage);
   ("button", sendButtonMessage);
   ("generic", sendGenericMessage);
   ("receipt", sendReceiptMessage);
   ("quick reply", sendQuickReply);
   ("read receipt", sendReadReceipt);
   ("typing on", sendTypingOn);
   ("typing off", sendTypingOff);
   ("account linking", sendAccountLinking)].

Definition isKeyword (v : Value) : bool :=
  existsb (fun kb => strictEqStr v (fst kb)) keyword_builders.

(** The two console lines every call of [receivedMessage] starts with. *)
Definition messageLogged (event : Value) (w : World) : World :=
  logged (ConsoleLog [LJson (field event "message")])
    (logged (ConsoleLog
       [LVal (VStr "Received message for user %d and page %d at %d with message:");
        LVal (field (field event "sender") "id");
        LVal (field (field event "recipient") "id");
        LVal (field event "timestamp")]) w).

(** The [switch] of [receivedMessage] on a truthy text. *)
Definition replyToText (senderID messageText : Value) : M unit :=
  if strictEqStr messageText "image" then sendImageMessage senderID
  else if strictEqStr messageText "gif" then sendGifMessage senderID
  else if strictEqStr messageText "audio" then sendAudioMessage senderID
  else if strictEqStr messageText "video" then sendVideoMessage senderID
  else if strictEqStr messageText "file" then sendFileMessage senderID
  else if strictEqStr messageText "button" then sendButtonMessage senderID
  else if strictEqStr messageText "generic" then sendGenericMessage senderID
  else if strictEqStr messageText "receipt" then sendReceiptMessage senderID
  else if strictEqStr messageText "quick reply" then sendQuickReply senderID
  else if strictEqStr messageText "read receipt" then sendReadReceipt senderID
  else if strictEqStr messageText "typing on" then sendTypingOn senderID
  else if strictEqStr messageText "typing off" then sendTypingOff senderID
  else if strictEqStr messageText "account linking" then sendAccountLinking senderID
  else sendTextMessage senderID messageText.

(** A computation that neither calls the Send API, nor draws a random
    number, nor answers the request, whatever its completion. *)
Definition quiet {A} (m : M A) : Prop :=
  forall w, sent (snd (m w)) = sent w
            /\ draws (snd (m w)) = draws w
            /\ status (snd (m w)) = status w.

(** The console lines of the [forEach] of [receivedDeliveryConfirmation]. *)
Definition deliveryLogged (messageIDs : list Value) (w : World) : World :=
  fold_left
    (fun w messageID =>
       logged (ConsoleLog
                 [LVal (VStr "Received delivery confirmation for message ID: %s");
                  LVal messageID]) w)
    messageIDs w.

Definition isArray (v : Value) : bool :=
  match v with
  | VArr _ => true
  | _ => false
  end.

Definition elements (v : Value) : list Value :=
  match v with
  | VArr l => l
  | _ => []
  end.

(** [m], run in [w], ends normally having issued exactly one Send API call:
    the text payload [sendTextMessage] builds for [recipientId] from the
    next random draw. *)
Definition repliesWithFact (m : M unit) (recipientId : Value) (w : World) : Prop :=
  exists w1,
    sent w1 = sent w /\ draws w1 = draws w /\ status w1 = status w
    /\ m w = (Normal tt, afterText recipientId w1).

(** Truthiness of the six fields the dispatcher tests. *)
Definition present (event : Value) (k : string) : bool :=
  truthy (field event k).

Definition unknownEventLine (event : Value) : LogEntry :=
  ConsoleLog [LVal (VStr "Webhook received unknown messagingEvent: ");
              LVal event].

(** Events, entries and envelopes shaped as the platform sends them: an
    event that selects a handler names a sender and a recipient, the [mids]
    of a delivery is a list when given, [messaging] and [entry] are lists. *)
Definition wf_event (event : Value) : bool :=
  negb (nullish event)
  && (if present event "optin" || present event "message"
         || present event "delivery" || present event "postback"
         || present event "read" || present event "account_linking"
      then negb (nullish (field event "sender"))
           && negb (nullish (field event "recipient"))
      else true)
  && (if negb (present event "optin") && negb (present event "message")
         && present event "delivery"
      then negb (truthy (field (field event "delivery") "mids"))
           || isArray (field (field event "delivery") "mids")
      else true).

Definition wf_entry (pageEntry : Value) : bool :=
  negb (nullish pageEntry)
  && isArray (field pageEntry "messaging")
  && forallb wf_event (elements (field pageEntry "messaging")).

Definition wf_envelope (data : Value) : bool :=
  isArray (field data "entry")
  && forallb wf_entry (elements (field data "entry")).

(** A Send API call as [callSendAPI] issues it, addressed to [recipientId]. *)
Definition addressed (recipientId : Value) (c : OutboundCall) : Prop :=
  uri c = "https://graph.facebook.com/v2.6/me/messages"
  /\ qs_access_token c = PAGE_ACCESS_TOKEN
  /\ method c = "POST"
  /\ field (field (json c) "recipient") "id" = recipientId.

(** [m] ends normally having issued exactly one call, addressed to
    [recipientId], with at most one random draw and no status written. *)
Definition sendsOne (recipientId : Value) (m : M unit) : Prop :=
  forall w, exists c w',
    m w = (Normal tt, w')
    /\ sent w' = (sent w ++ [c])%list
    /\ addressed recipientId c
    /\ status w' = status w
    /\ (draws w <= draws w' <= S (draws w))%nat.

(** Whatever its completion, [m] issues at most [n] calls, each satisfying
    [ok], and writes no status. *)
Definition repliesWithin (n : nat) (ok : OutboundCall -> Prop) (m : M unit) : Prop :=
  forall w, exists extra,
    sent (snd (m w)) = (sent w ++ extra)%list
    /\ (length extra <= n)%nat
    /\ Forall ok extra
    /\ status (snd (m w)) = status w.

Definition senderOf (event : Value) : Value :=
  field (field event "sender") "id".

(** The messaging events of an envelope, entry after entry. *)
Definition eventsOf (data : Value) : list Value :=
  flat_map (fun pageEntry => elements (field pageEntry "messaging"))
           (elements (field data "entry")).

(** A call addressed to the sender of one of the events. *)
Definition toSenderOf (events : list Value) (c : OutboundCall) : Prop :=
  exists event, In event events /\ addressed (senderOf event) c.

(** The event selects one of the six handlers. *)
Definition handled (event : Value) : bool :=
  present event "optin" || present event "message"
  || present event "delivery" || present event "postback"
  || present event "read" || present event "account_linking".

Definition deliveryLine (messageID : Value) : LogEntry :=
  ConsoleLog [LVal (VStr "Received delivery confirmation for message ID: %s");
              LVal messageID].

(** ** Signature check *)

Lemma split_no_sep (c : ascii) (s : string) :
  occurs c s = false -> split c s = [s].
Proof.
  induction s as [|d s IH]; simpl; [reflexivity|].
  intros H. apply orb_false_iff in H. destruct H as [Hd Hs].
  rewrite Hd, (IH Hs). reflexivity.
Qed.

Lemma split_first (c : ascii) (a b : string) :
  occurs c a = false ->
  split c (a ++ String c b) = a :: split c b.
Proof.
  induction a as [|d a IH]; simpl.
  - intros _. rewrite Ascii.eqb_refl. reflexivity.
  - intros H. apply orb_false_iff in H. destruct H as [Hd Ha].
    rewrite Hd, (IH Ha). reflexivity.
Qed.

Lemma append_sep_nonempty (a b : string) (c : ascii) :
  String.eqb (a ++ String c b) EmptyString = false.
Proof. destruct a; reflexivity. Qed.

Lemma verify_method_digest (req : Request) (meth digest : string) (w : World) :
  header (headers req) "x-hub-signature" = Some (meth ++ "=" ++ digest) ->
  occurs "=" meth = false ->
  occurs "=" digest = false ->
  verifyRequestSignature req (rawBody req) w =
    if String.eqb digest (hmac_sha1_hex APP_SECRET (rawBody req))
    then (Normal tt, w)
    else (Throw (Error "Couldn't validate the request signature."), w).
Proof.
  intros Hh Hm Hd. unfold verifyRequestSignature. rewrite Hh.
  change (meth ++ "=" ++ digest) with (meth ++ String "=" digest).
  rewrite append_sep_nonempty, (split_first _ _ _ Hm), (split_no_sep _ _ Hd).
  simpl. destruct (String.eqb digest _); reflexivity.
Qed.

(** C1. A request whose [x-hub-signature] header has the form
    [method=digest] is rejected exactly when [digest] differs from the hex
    HMAC-SHA1 of the raw body under the app secret: the check throws, the
    request ends before the body is parsed or dispatched and the world (so
    the list of Send API calls) is unchanged.  When the digests are equal
    the check returns and the parsed body reaches the route handler. *)
Theorem verifyRequestSignature_mismatch_aborts
    (req : Request) (meth digest : string) (w : World) :
  header (headers req) "x-hub-signature" = Some (meth ++ "=" ++ digest) ->
  occurs "=" meth = false ->
  occurs "=" digest = false ->
  (digest <> hmac_sha1_hex APP_SECRET (rawBody req) ->
     verifyRequestSignature req (rawBody req) w =
       (Throw (Error "Couldn't validate the request signature."), w)
     /\ handle_post_webhook req w =
       (Throw (Error "Couldn't validate the request signature."), w)
     /\ sent (snd (handle_post_webhook req w)) = sent w)
  /\ (digest = hmac_sha1_hex APP_SECRET (rawBody req) ->
     verifyRequestSignature req (rawBody req) w = (Normal tt, w)
     /\ handle_post_webhook req w =
       match JSON_parse (rawBody req) with
       | Some body => post_webhook body w
       | None => (Throw SyntaxError, w)
       end).
Proof.
  intros Hh Hm Hd.
  pose proof (verify_method_digest req meth digest w Hh Hm Hd) as V.
  split; intros E.
  - apply String.eqb_neq in E. rewrite E in V.
    assert (handle_post_webhook req w =
            (Throw (Error "Couldn't validate the request signature."), w)) as R.
    { unfold handle_post_webhook, bodyParser_json, bind. rewrite V. reflexivity. }
    rewrite R. auto.
  - apply String.eqb_eq in E. rewrite E in V. split; [exact V|].
    unfold handle_post_webhook, bodyParser_json, bind. rewrite V.
    destruct (JSON_parse (rawBody req)); reflexivity.
Qed.

(** C5. Without an [x-hub-signature] header the check writes one line to
    the error console and returns; the body is then parsed and handed to the
    route handler, which runs as it would on any accepted request. *)
Theorem verifyRequestSignature_absent_header_continues
    (req : Request) (w : World) :
  header (headers req) "x-hub-signature" = None ->
  let w1 := logged (ConsoleError [LVal (VStr "Couldn't validate the signature.")]) w in
  verifyRequestSignature req (rawBody req) w = (Normal tt, w1)
  /\ handle_post_webhook req w =
       match JSON_parse (rawBody req) with
       | Some body => post_webhook body w1
       | None => (Throw SyntaxError, w1)
       end.
Proof.
  intros Hh w1.
  assert (verifyRequestSignature req (rawBody req) w = (Normal tt, w1)) as V.
  { unfold verifyRequestSignature. rewrite Hh. reflexivity. }
  split; [exact V|].
  unfold handle_post_webhook, bodyParser_json, bind. rewrite V.
  destruct (JSON_parse (rawBody req)); reflexivity.
Qed.

(** The header at the edges of the form [method=digest]: an empty value is
    treated as a missing header, a value without ['='] has no digest and is
    rejected, and what follows a second ['='] is not compared. *)
Lemma verify_empty_header (req : Request) (w : World) :
  header (headers req) "x-hub-signature" = Some EmptyString ->
  verifyRequestSignature req (rawBody req) w
  = (Normal tt,
     logged (ConsoleError [LVal (VStr "Couldn't validate the signature.")]) w).
Proof. intros Hh. unfold verifyRequestSignature. rewrite Hh. reflexivity. Qed.

Lemma verify_header_without_separator (req : Request) (sig : string) (w : World) :
  header (headers req) "x-hub-signature" = Some sig ->
  sig <> EmptyString ->
  occurs "=" sig = false ->
  verifyRequestSignature req (rawBody req) w
  = (Throw (Error "Couldn't validate the request signature."), w).
Proof.
  intros Hh Hne Hs. unfold verifyRequestSignature. rewrite Hh.
  apply String.eqb_neq in Hne. rewrite Hne, (split_no_sep _ _ Hs). reflexivity.
Qed.

Lemma verify_ignores_third_element
    (req : Request) (meth digest rest : string) (w : World) :
  header (headers req) "x-hub-signature"
  = Some (meth ++ "=" ++ digest ++ "=" ++ rest) ->
  occurs "=" meth = false ->
  occurs "=" digest = false ->
  verifyRequestSignature req (rawBody req) w =
    if String.eqb digest (hmac_sha1_hex APP_SECRET (rawBody req))
    then (Normal tt, w)
    else (Throw (Error "Couldn't validate the request signature."), w).
Proof.
  intros Hh Hm Hd. unfold verifyRequestSignature. rewrite Hh.
  change (meth ++ "=" ++ digest ++ "=" ++ rest)
    with (meth ++ String "=" (digest ++ String "=" rest)).
  rewrite append_sep_nonempty, (split_first _ _ _ Hm), (split_first _ _ _ Hd).
  simpl. destruct (String.eqb digest _); reflexivity.
Qed.

(** ** Running the handlers *)

Lemma getProp_field (o : Value) (k : string) :
  nullish o = false -> getProp o k = Normal (field o k).
Proof. destruct o; simpl; intros H; try discriminate; reflexivity. Qed.

Lemma field_nullish (o : Value) (k : string) :
  nullish (field o k) = false -> nullish o = false.
Proof. destruct o; simpl; intros H; try discriminate; reflexivity. Qed.

Lemma truthy_not_nullish (v : Value) : truthy v = true -> nullish v = false.
Proof. destruct v; simpl; intros H; try discriminate; reflexivity. Qed.

Lemma bind_get {A} (o : Value) (k : string) (K : Value -> M A) (w : World) :
  nullish o = false -> bind (get o k) K w = K (field o k) w.
Proof.
  intros H. unfold bind, get, lift. rewrite (getProp_field o k H). reflexivity.
Qed.

Lemma bind_get_throw {A} (o : Value) (k : string) (K : Value -> M A) (w : World) :
  nullish o = true -> bind (get o k) K w = (Throw TypeError, w).
Proof. destruct o; simpl; intros H; try discriminate; reflexivity. Qed.

Lemma bind_console_log {A} (args : list LogArg) (K : unit -> M A) (w : World) :
  bind (console_log args) K w = K tt (logged (ConsoleLog args) w).
Proof. reflexivity. Qed.

(** Reads along a handler: each [o.k] of a non-nullish [o] yields [field o k]. *)
Ltac reads :=
  repeat (rewrite bind_get by (assumption || (eapply field_nullish; eassumption)
                               || (apply truthy_not_nullish; assumption));
          cbv beta).

Lemma sendTextMessage_run (recipientId messageText : Value) (w : World) :
  sendTextMessage recipientId messageText w = (Normal tt, afterText recipientId w).
Proof. reflexivity. Qed.

Lemma receivedAuthentication_run (event : Value) (w : World) :
  nullish (field event "sender") = false ->
  nullish (field event "recipient") = false ->
  nullish (field event "optin") = false ->
  receivedAuthentication event w =
    (Normal tt,
     afterText (field (field event "sender") "id")
       (logged (ConsoleLog
          [LVal (VStr ("Received authentication for user %d and page %d with pass "
                       ++ "through param '%s' at %d"));
           LVal (field (field event "sender") "id");
           LVal (field (field event "recipient") "id");
           LVal (field (field event "optin") "ref");
           LVal (field event "timestamp")]) w)).
Proof.
  intros Hs Hr Ho. unfold receivedAuthentication. reads.
  rewrite bind_console_log. apply sendTextMessage_run.
Qed.

Lemma receivedPostback_run (event : Value) (w : World) :
  nullish (field event "sender") = false ->
  nullish (field event "recipient") = false ->
  nullish (field event "postback") = false ->
  receivedPostback event w =
    (Normal tt,
     afterText (field (field event "sender") "id")
       (logged (ConsoleLog
          [LVal (VStr ("Received postback for user %d and page %d with payload '%s' "
                       ++ "at %d"));
           LVal (field (field event "sender") "id");
           LVal (field (field event "recipient") "id");
           LVal (field (field event "postback") "payload");
           LVal (field event "timestamp")]) w)).
Proof.
  intros Hs Hr Ho. unfold receivedPostback. reads.
  rewrite bind_console_log. apply sendTextMessage_run.
Qed.

(** [receivedMessage] on an event with a sender, a recipient and a message:
    the two console lines, then the branch the message selects. *)
Lemma receivedMessage_run (event : Value) (w : World) :
  nullish (field event "sender") = false ->
  nullish (field event "recipient") = false ->
  nullish (field event "message") = false ->
  let senderID := field (field event "sender") "id" in
  let message := field event "message" in
  receivedMessage event w =
    (if truthy (field message "is_echo") then
       console_log
         [LVal (VStr "Received echo for message %s and app %d with metadata %s");
          LVal (field message "mid"); LVal (field message "app_id");
          LVal (field message "metadata")]
     else if truthy (field message "quick_reply") then
       console_log
         [LVal (VStr "Quick reply for message %s with payload %s");
          LVal (field message "mid");
          LVal (field (field message "quick_reply") "payload")] ;;;
       sendTextMessage senderID (VStr "Quick reply tapped")
     else if truthy (field message "text") then
       replyToText senderID (field message "text")
     else if truthy (field message "attachments") then
       sendTextMessage senderID (VStr "Message with attachment received")
     else ret tt) (messageLogged event w).
Proof.
  intros Hs Hr Hm senderID message. unfold receivedMessage. reads.
  do 2 rewrite bind_console_log. reads. fold message senderID.
  destruct (truthy (field message "is_echo")); [reflexivity|].
  destruct (truthy (field message "quick_reply")) eqn:Hq.
  - reads. reflexivity.
  - reflexivity.
Qed.

Lemma replyToText_keyword (senderID : Value) (kw : string) (builder : Value -> M unit) :
  In (kw, builder) keyword_builders ->
  replyToText senderID (VStr kw) = builder senderID.
Proof.
  unfold keyword_builders. simpl.
  intros H.
  repeat (destruct H as [H|H]; [injection H as <- <-; reflexivity|]).
  contradiction.
Qed.

Lemma replyToText_default (senderID messageText : Value) :
  isKeyword messageText = false ->
  replyToText senderID messageText = sendTextMessage senderID messageText.
Proof.
  unfold isKeyword, keyword_builders, existsb, fst. intros H.
  repeat (apply orb_false_iff in H; destruct H as [?E H]).
  unfold replyToText.
  repeat match goal with E : strictEqStr _ _ = false |- _ => rewrite E; clear E end.
  reflexivity.
Qed.

(** *** Handlers that only log *)

Lemma quiet_ret {A} (a : A) : quiet (ret a).
Proof. intros w. simpl. auto. Qed.

Lemma quiet_throw {A} (e : Exn) : quiet (@throw A e).
Proof. intros w. simpl. auto. Qed.

Lemma quiet_get (o : Value) (k : string) : quiet (get o k).
Proof. intros w. simpl. auto. Qed.

Lemma quiet_console_log (args : list LogArg) : quiet (console_log args).
Proof. intros w. simpl. auto. Qed.

Lemma quiet_bind {A B} (m : M A) (k : A -> M B) :
  quiet m -> (forall a, quiet (k a)) -> quiet (bind m k).
Proof.
  intros Hm Hk w. unfold bind.
  destruct (Hm w) as (S1 & D1 & T1).
  destruct (m w) as [[a|e] w1]; simpl in *.
  - destruct (Hk a w1) as (S2 & D2 & T2).
    rewrite S2, D2, T2. auto.
  - auto.
Qed.

Lemma quiet_forEach (a : Value) (f : Value -> M unit) :
  (forall x, quiet (f x)) -> quiet (forEach a f).
Proof.
  intros Hf. destruct a; simpl; try apply quiet_throw.
  induction elems as [|x l IH]; simpl.
  - apply quiet_ret.
  - apply quiet_bind; [apply Hf | intros _; exact IH].
Qed.

Ltac quiet_steps :=
  repeat first
    [ apply quiet_get | apply quiet_console_log | apply quiet_ret
    | apply quiet_throw
    | apply quiet_forEach; intros ?
    | apply quiet_bind; [|intros ?]
    | match goal with |- quiet (if ?b then _ else _) => destruct b end ].

Lemma receivedDeliveryConfirmation_quiet (event : Value) :
  quiet (receivedDeliveryConfirmation event).
Proof. unfold receivedDeliveryConfirmation. quiet_steps. Qed.

Lemma receivedMessageRead_quiet (event : Value) :
  quiet (receivedMessageRead event).
Proof. unfold receivedMessageRead. quiet_steps. Qed.

Lemma receivedAccountLink_quiet (event : Value) :
  quiet (receivedAccountLink event).
Proof. unfold receivedAccountLink. quiet_steps. Qed.

Lemma forEach_delivery_log (l : list Value) (w : World) :
  forEachList
    (fun messageID =>
       console_log
         [LVal (VStr "Received delivery confirmation for message ID: %s");
          LVal messageID]) l w
  = (Normal tt, deliveryLogged l w).
Proof.
  revert w. induction l as [|x l IH]; intros w; simpl; [reflexivity|].
  unfold bind. simpl. apply IH.
Qed.

Lemma receivedDeliveryConfirmation_run (event : Value) (w : World) :
  nullish (field event "sender") = false ->
  nullish (field event "recipient") = false ->
  nullish (field event "delivery") = false ->
  let mids := field (field event "delivery") "mids" in
  truthy mids = false \/ isArray mids = true ->
  receivedDeliveryConfirmation event w =
    (Normal tt,
     logged (ConsoleLog [LVal (VStr "All message before %d were delivered.");
                         LVal (field (field event "delivery") "watermark")])
            (deliveryLogged (if truthy mids then elements mids else []) w)).
Proof.
  intros Hs Hr Hd mids Hm. unfold receivedDeliveryConfirmation. reads.
  fold mids. destruct Hm as [Hm|Hm].
  - rewrite Hm. reflexivity.
  - destruct mids; try discriminate. simpl truthy. cbv iota.
    unfold forEach, bind at 1. rewrite forEach_delivery_log. reflexivity.
Qed.

Lemma receivedMessageRead_run (event : Value) (w : World) :
  nullish (field event "sender") = false ->
  nullish (field event "recipient") = false ->
  nullish (field event "read") = false ->
  receivedMessageRead event w =
    (Normal tt,
     logged (ConsoleLog
               [LVal (VStr ("Received message read event for watermark %d and sequence "
                            ++ "number %d"));
                LVal (field (field event "read") "watermark");
                LVal (field (field event "read") "seq")]) w).
Proof.
  intros Hs Hr Hd. unfold receivedMessageRead. reads. reflexivity.
Qed.

Lemma receivedAccountLink_run (event : Value) (w : World) :
  nullish (field event "sender") = false ->
  nullish (field event "recipient") = false ->
  nullish (field event "account_linking") = false ->
  receivedAccountLink event w =
    (Normal tt,
     logged (ConsoleLog
               [LVal (VStr ("Received account link event with for user %d with status %s "
                            ++ "and auth code %s "));
                LVal (field (field event "sender") "id");
                LVal (field (field event "account_linking") "status");
                LVal (field (field event "account_linking") "authorization_code")]) w).
Proof.
  intros Hs Hr Hd. unfold receivedAccountLink. reads. reflexivity.
Qed.

(** *** Rounding to binary64 *)

Lemma pow2_pos (e : Z) : 0 < 2 ^ e.
Proof. apply Qpower_0_lt. reflexivity. Qed.

Lemma two_nonzero : ~ 2 == 0.
Proof. discriminate. Qed.

Lemma pow2_Z (n : Z) : (0 <= n)%Z -> inject_Z (2 ^ n) == 2 ^ n.
Proof. intros H. rewrite (Zpower_Qpower 2 n H). reflexivity. Qed.

Lemma pow2_diff (a b : Z) :
  (0 <= a)%Z -> (0 <= b)%Z -> 2 ^ (a - b) == (2 ^ a)%Z # Z.to_pos (2 ^ b).
Proof.
  intros Ha Hb.
  replace (a - b)%Z with (a + - b)%Z by ring.
  rewrite (Qpower_plus 2 a (- b) two_nonzero), Qpower_opp.
  rewrite <- (pow2_Z a Ha), <- (pow2_Z b Hb).
  rewrite (Qmake_Qdiv (2 ^ a) (Z.to_pos (2 ^ b))).
  rewrite Z2Pos.id by (apply Z.pow_pos_nonneg; lia).
  reflexivity.
Qed.

(** The bounds of [Qlog2]. *)
Section Log2.
Variable x : Q.
Hypothesis x_pos : 0 < x.

Let N := Qnum x.
Let D := Z.pos (Qden x).
Let a := Z.log2 N.
Let b := Z.log2 D.

Lemma Qnum_pos : (0 < N)%Z.
Proof. unfold N. destruct x as [n d]. unfold Qlt in x_pos. simpl in *. lia. Qed.

Lemma log2_facts :
  (0 <= a)%Z /\ (0 <= b)%Z
  /\ (2 ^ a <= N < 2 ^ (a + 1))%Z /\ (2 ^ b <= D < 2 ^ (b + 1))%Z.
Proof.
  pose proof Qnum_pos as HN.
  assert (0 < D)%Z as HD by (unfold D; lia).
  pose proof (Z.log2_spec N HN) as SN. pose proof (Z.log2_spec D HD) as SD.
  pose proof (Z.log2_nonneg N). pose proof (Z.log2_nonneg D).
  unfold a, b. rewrite <- !Z.add_1_r in *. auto.
Qed.

Lemma Qlog2_lower : 2 ^ Qlog2 x <= x.
Proof.
  unfold Qlog2. fold N D a b.
  destruct (Qle_bool (2 ^ (a - b)) x) eqn:E.
  - apply Qle_bool_iff. exact E.
  - destruct log2_facts as (Ha & Hb & [A1 A2] & [B1 B2]).
    replace (a - b - 1)%Z with (a - (b + 1))%Z by ring.
    rewrite (pow2_diff a (b + 1)) by lia.
    assert (0 < 2 ^ (b + 1))%Z as P by (apply Z.pow_pos_nonneg; lia).
    unfold Qle. simpl. rewrite Z2Pos.id by exact P.
    fold N D. nia.
Qed.

Lemma Qlog2_upper : x < 2 ^ (Qlog2 x + 1).
Proof.
  unfold Qlog2. fold N D a b.
  destruct (Qle_bool (2 ^ (a - b)) x) eqn:E.
  - destruct log2_facts as (Ha & Hb & [A1 A2] & [B1 B2]).
    replace (a - b + 1)%Z with ((a + 1) - b)%Z by ring.
    rewrite (pow2_diff (a + 1) b) by lia.
    assert (0 < 2 ^ b)%Z as P by (apply Z.pow_pos_nonneg; lia).
    unfold Qlt. simpl. rewrite Z2Pos.id by exact P.
    fold N D. nia.
  - replace (a - b - 1 + 1)%Z with (a - b)%Z by ring.
    apply Qnot_le_lt. intros H. apply Qle_bool_iff in H. congruence.
Qed.

End Log2.

Lemma Qfloor_unique (y : Q) (i : Z) :
  inject_Z i <= y -> y < inject_Z (i + 1) -> Qfloor y = i.
Proof.
  intros L U.
  pose proof (Qfloor_le y) as F1. pose proof (Qlt_floor y) as F2.
  assert (inject_Z (Qfloor y) < inject_Z (i + 1)) as A by (eapply Qle_lt_trans; eassumption).
  assert (inject_Z i < inject_Z (Qfloor y + 1)) as B by (eapply Qle_lt_trans; eassumption).
  rewrite <- Zlt_Qlt in A, B. lia.
Qed.

(** [round_to]: the result is a multiple of the spacing within half a
    spacing of the argument, and no integer lies between the two. *)
Section Rounding.
Variable e : Z.
Variable x : Q.

Let p := 2 ^ e.
Let t := x / p.

Lemma spacing_pos : 0 < p.
Proof. apply pow2_pos. Qed.

Lemma scaled_back : t * p == x.
Proof.
  unfold t. pose proof spacing_pos. field. intros E. rewrite E in H. discriminate.
Qed.

Lemma round_to_cases :
  exists q' : Z,
    round_to e x == inject_Z q' * p
    /\ (Qfloor t <= q')%Z
    /\ inject_Z q' <= t + (1 # 2).
Proof.
  unfold round_to. fold p t.
  pose proof (Qfloor_le t) as F1.
  destruct ((t - inject_Z (Qfloor t)) ?= (1 # 2))%Q eqn:C.
  - apply Qeq_alt in C.
    destruct (Z.odd (Qfloor t)).
    + exists (Qfloor t + 1)%Z. split; [reflexivity|]. split; [lia|].
      rewrite inject_Z_plus; change (inject_Z 1) with 1; lra.
    + exists (Qfloor t). split; [reflexivity|]. split; [lia|]. lra.
  - exists (Qfloor t). split; [reflexivity|]. split; [lia|]. lra.
  - apply Qgt_alt in C.
    exists (Qfloor t + 1)%Z. split; [reflexivity|]. split; [lia|].
    rewrite inject_Z_plus; change (inject_Z 1) with 1; lra.
Qed.

Lemma round_to_upper : round_to e x <= x + p * (1 # 2).
Proof.
  destruct round_to_cases as (q' & E & _ & U).
  rewrite E. pose proof spacing_pos as P. pose proof scaled_back as T.
  assert (inject_Z q' * p <= (t + (1 # 2)) * p) as A
    by (apply Qmult_le_compat_r; [exact U | lra]).
  lra.
Qed.

Lemma round_to_floor : inject_Z (Qfloor t) * p <= round_to e x.
Proof.
  destruct round_to_cases as (q' & E & L & _).
  rewrite E. pose proof spacing_pos as P.
  apply Qmult_le_compat_r; [|lra].
  rewrite <- Zle_Qle. exact L.
Qed.

Lemma round_to_nonneg : 0 <= x -> 0 <= round_to e x.
Proof.
  intros H. eapply Qle_trans; [|apply round_to_floor].
  pose proof spacing_pos as P.
  assert (0 <= t) as T.
  { unfold t. apply Qle_shift_div_l; [exact P | lra]. }
  apply Qfloor_resp_le in T. change (Qfloor 0) with 0%Z in T.
  rewrite Zle_Qle in T. change (inject_Z 0) with 0 in T.
  apply Qmult_le_0_compat; lra.
Qed.

Lemma round_to_above_integer (i : Z) :
  (e <= 0)%Z -> inject_Z i <= x -> inject_Z i <= round_to e x.
Proof.
  intros He H. eapply Qle_trans; [|apply round_to_floor].
  pose proof spacing_pos as P.
  assert (inject_Z (i * 2 ^ (- e)) * p == inject_Z i) as K.
  { rewrite inject_Z_mult, pow2_Z by lia. unfold p.
    rewrite <- Qmult_assoc, <- Qpower_plus by exact two_nonzero.
    replace (- e + e)%Z with 0%Z by ring. change (2 ^ 0) with 1. ring. }
  rewrite <- K. apply Qmult_le_compat_r; [|lra].
  rewrite <- Zle_Qle. rewrite <- (Qfloor_Z (i * 2 ^ (- e))).
  apply Qfloor_resp_le. unfold t. apply Qle_shift_div_l; [exact P|].
  rewrite K. exact H.
Qed.

End Rounding.

Lemma unit_roundoff_value : unit_roundoff == 1 # 9007199254740992.
Proof. reflexivity. Qed.

Lemma round_binary64_pos (x : Q) :
  0 < x -> round_binary64 x = round_to (ulp_exponent x) x.
Proof.
  intros H. unfold round_binary64.
  apply Qgt_alt in H. rewrite H. reflexivity.
Qed.

Lemma round_binary64_zero (x : Q) : x == 0 -> round_binary64 x = 0.
Proof.
  intros H. unfold round_binary64.
  apply Qeq_alt in H. rewrite H. reflexivity.
Qed.

Lemma round_binary64_nonneg (x : Q) : 0 <= x -> 0 <= round_binary64 x.
Proof.
  intros H. destruct (Qlt_le_dec 0 x) as [P|P].
  - rewrite round_binary64_pos by exact P. apply round_to_nonneg. exact H.
  - rewrite round_binary64_zero by lra. lra.
Qed.

(** Below [c], rounding moves a number by less than [c] times the unit
    roundoff. *)
Lemma round_binary64_upper (x c : Q) :
  0 <= x -> x < c -> 1 <= c -> round_binary64 x < x + c * unit_roundoff.
Proof.
  intros H0 Hc H1. rewrite unit_roundoff_value.
  destruct (Qlt_le_dec 0 x) as [P|P].
  2:{ rewrite round_binary64_zero by lra. lra. }
  rewrite round_binary64_pos by exact P.
  eapply Qle_lt_trans; [apply round_to_upper|].
  pose proof (Qlog2_lower x P) as L.
  assert (2 ^ (-52) == 1 # 4503599627370496) as E52 by reflexivity.
  assert (2 ^ ulp_exponent x < c * (1 # 4503599627370496)) as B.
  { unfold ulp_exponent.
    destruct (Z.max_spec (Qlog2 x - 52) (-1074)) as [[_ ->]|[_ ->]].
    - assert (2 ^ (-1074) < 2 ^ (-52)) as A
        by (apply Qpower_lt_compat_l; [lia | reflexivity]).
      rewrite E52 in A. set (p := 2 ^ (-1074)) in *. lra.
    - replace (Qlog2 x - 52)%Z with (Qlog2 x + -52)%Z by ring.
      rewrite Qpower_plus by exact two_nonzero. rewrite E52.
      set (l := 2 ^ Qlog2 x) in *. lra. }
  set (p := 2 ^ ulp_exponent x) in *. lra.
Qed.

(** Rounding never crosses an integer downwards. *)
Lemma round_binary64_lower (x : Q) (i : Z) :
  0 <= x -> x < 2 ^ 53 -> inject_Z i <= x -> inject_Z i <= round_binary64 x.
Proof.
  intros H0 H53 Hi.
  destruct (Qlt_le_dec 0 x) as [P|P].
  2:{ rewrite round_binary64_zero by lra. lra. }
  rewrite round_binary64_pos by exact P.
  apply round_to_above_integer; [|exact Hi].
  pose proof (Qlog2_lower x P) as L.
  assert (Qlog2 x < 53)%Z as B.
  { apply (Qpower_lt_compat_l_inv 2); [|reflexivity].
    eapply Qle_lt_trans; eassumption. }
  unfold ulp_exponent. lia.
Qed.

(** The largest double below 1 is [1 - 2 ^ -53]. *)
Lemma double_below_one (r : Q) :
  0 <= r -> r < 1 -> round_binary64 r == r -> r <= 1 - unit_roundoff.
Proof.
  intros H0 H1 Hd. rewrite unit_roundoff_value.
  destruct (Qlt_le_dec 0 r) as [P|P]; [|lra].
  rewrite round_binary64_pos in Hd by exact P.
  pose proof (Qlog2_lower r P) as L. pose proof (Qlog2_upper r P) as U.
  assert (Qlog2 r < 0)%Z as B.
  { apply (Qpower_lt_compat_l_inv 2); [|reflexivity].
    change (2 ^ 0) with 1. eapply Qle_lt_trans; eassumption. }
  destruct (Z.eq_dec (Qlog2 r) (-1)) as [E|E].
  - unfold ulp_exponent in Hd. rewrite E in Hd.
    change (Z.max (-1 - 52) (-1074)) with (-53)%Z in Hd.
    destruct (round_to_cases (-53) r) as (q' & Eq' & _ & _).
    rewrite Eq' in Hd.
    change (2 ^ (-53)) with (1 # 9007199254740992) in Hd.
    assert (inject_Z q' < inject_Z 9007199254740992) as A.
    { change (inject_Z 9007199254740992) with 9007199254740992. lra. }
    rewrite <- Zlt_Qlt in A.
    assert (q' <= 9007199254740991)%Z as A' by lia.
    rewrite Zle_Qle in A'.
    change (inject_Z 9007199254740991) with 9007199254740991 in A'. lra.
  - assert (2 ^ (Qlog2 r + 1) <= 2 ^ (-1)) as A
      by (apply Qpower_le_compat_l; [lia | discriminate]).
    change (2 ^ (-1)) with (1 # 2) in A.
    set (u := 2 ^ (Qlog2 r + 1)) in *. lra.
Qed.

(** [Math.floor(r * c)] for a double [r] of [0, 1) and an integer [c]. *)
Lemma floor_product_range (r : Q) (c : Z) :
  (1 <= c)%Z -> 0 <= r -> r < 1 -> round_binary64 r == r ->
  (0 <= Qfloor (Number_mul r (inject_Z c)) < c)%Z.
Proof.
  intros Hc H0 H1 Hd. unfold Number_mul.
  pose proof (double_below_one r H0 H1 Hd) as M.
  assert (1 <= inject_Z c) as C by (rewrite Zle_Qle in Hc; exact Hc).
  assert (0 <= r * inject_Z c) as X0 by (apply Qmult_le_0_compat; lra).
  assert (r * inject_Z c <= (1 - unit_roundoff) * inject_Z c) as X1
    by (apply Qmult_le_compat_r; lra).
  assert (0 < unit_roundoff) as Up by reflexivity.
  assert (0 < unit_roundoff * inject_Z c) as Ucp
    by (apply Qmult_lt_0_compat; lra).
  assert (r * inject_Z c < inject_Z c) as X2 by lra.
  pose proof (round_binary64_upper _ _ X0 X2 C) as U.
  pose proof (round_binary64_nonneg _ X0) as N.
  split.
  - apply Qfloor_resp_le in N. exact N.
  - rewrite Zlt_Qlt. eapply Qle_lt_trans; [apply Qfloor_le|]. lra.
Qed.

Lemma floor_product_interval (r : Q) (c i : Z) :
  (1 <= c <= 2 ^ 53)%Z -> 0 <= r -> r < 1 ->
  inject_Z i <= r * inject_Z c ->
  r * inject_Z c <= inject_Z (i + 1) - inject_Z c * unit_roundoff ->
  Qfloor (Number_mul r (inject_Z c)) = i.
Proof.
  intros [Hc Hc'] H0 H1 Li Ui. unfold Number_mul.
  assert (1 <= inject_Z c) as C by (rewrite Zle_Qle in Hc; exact Hc).
  assert (inject_Z c <= 2 ^ 53) as C'
    by (rewrite Zle_Qle in Hc'; rewrite <- pow2_Z by lia; exact Hc').
  assert (0 <= r * inject_Z c) as X0 by (apply Qmult_le_0_compat; lra).
  assert (r * inject_Z c < 1 * inject_Z c) as X2
    by (apply Qmult_lt_compat_r; lra).
  assert (r * inject_Z c < inject_Z c) as X2' by lra.
  apply Qfloor_unique.
  - apply round_binary64_lower; [exact X0 | lra | exact Li].
  - pose proof (round_binary64_upper _ _ X0 X2' C) as U. lra.
Qed.

Lemma floor_product_inv (r : Q) (c i : Z) :
  (1 <= c <= 2 ^ 53)%Z -> 0 <= r -> r < 1 ->
  Qfloor (Number_mul r (inject_Z c)) = i ->
  inject_Z i - inject_Z c * unit_roundoff < r * inject_Z c
  /\ r * inject_Z c < inject_Z (i + 1).
Proof.
  intros [Hc Hc'] H0 H1 F. unfold Number_mul in F.
  assert (1 <= inject_Z c) as C by (rewrite Zle_Qle in Hc; exact Hc).
  assert (inject_Z c <= 2 ^ 53) as C'
    by (rewrite Zle_Qle in Hc'; rewrite <- pow2_Z by lia; exact Hc').
  assert (0 <= r * inject_Z c) as X0 by (apply Qmult_le_0_compat; lra).
  assert (r * inject_Z c < 1 * inject_Z c) as X2
    by (apply Qmult_lt_compat_r; lra).
  assert (r * inject_Z c < inject_Z c) as X2' by lra.
  pose proof (Qfloor_le (round_binary64 (r * inject_Z c))) as F1.
  pose proof (Qlt_floor (round_binary64 (r * inject_Z c))) as F2.
  rewrite F in F1, F2.
  pose proof (round_binary64_upper _ _ X0 X2' C) as U.
  split; [lra|].
  apply Qnot_le_lt. intros G.
  pose proof (round_binary64_lower _ (i + 1) X0 ltac:(lra) G). lra.
Qed.

(** *** The random fact *)

Lemma facts_length : length facts = 133%nat.
Proof. reflexivity. Qed.

Lemma factIndex_eq (r : Q) :
  factIndex r = Qfloor (Number_mul r (inject_Z 133)).
Proof.
  unfold factIndex, Math_floor. rewrite facts_length.
  change ((Z.of_nat 133 - 1 - 0 + 1)%Z) with 133%Z. apply Z.add_0_r.
Qed.

(** The index stays inside the table, rounding included. *)
Lemma factIndex_range (r : Q) :
  0 <= r /\ r < 1 -> round_binary64 r == r ->
  (0 <= factIndex r < Z.of_nat (length facts))%Z.
Proof.
  intros [H0 H1] Hd. rewrite facts_length, factIndex_eq.
  apply floor_product_range; [lia | assumption ..].
Qed.

(** The draws that select the entry of index [i] are those of the interval
    [i/133, (i+1)/133), up to the rounding of the product: a draw of the
    interval less [2 ^ -53] at its upper end selects [i], and a draw that
    selects [i] lies in the interval extended by [2 ^ -53] at its lower
    end. *)
Lemma factIndex_interval (r : Q) (i : Z) :
  0 <= r /\ r < 1 ->
  ((i # 133) <= r /\ r <= (i + 1 # 133) - unit_roundoff -> factIndex r = i)
  /\ (factIndex r = i -> (i # 133) - unit_roundoff < r /\ r < (i + 1 # 133)).
Proof.
  intros [H0 H1]. rewrite factIndex_eq.
  assert (1 <= 133 <= 2 ^ 53)%Z as C by (split; [lia | discriminate]).
  assert (forall k : Z, inject_Z k == (k # 133) * inject_Z 133) as K.
  { intros k. unfold Qeq, Qmult, inject_Z. simpl. lia. }
  change (inject_Z 133) with 133 in *.
  split.
  - intros [L U]. apply floor_product_interval; try assumption.
    + rewrite (K i). change (inject_Z 133) with 133. lra.
    + rewrite (K (i + 1)%Z). change (inject_Z 133) with 133. lra.
  - intros F.
    destruct (floor_product_inv r 133 i C H0 H1 F) as [L U].
    rewrite (K i) in L. rewrite (K (i + 1)%Z) in U.
    change (inject_Z 133) with 133 in *. split; lra.
Qed.

Lemma elemAt_in_range (a : list string) (i : Z) :
  (0 <= i < Z.of_nat (length a))%Z ->
  exists s, nth_error a (Z.to_nat i) = Some s /\ In s a /\ elemAt a i = VStr s.
Proof.
  intros H. unfold elemAt.
  destruct (Z.ltb_spec i 0); [lia|].
  destruct (nth_error a (Z.to_nat i)) as [s|] eqn:E.
  - exists s. split; [reflexivity|]. split; [|reflexivity].
    eapply nth_error_In; eassumption.
  - apply nth_error_None in E. lia.
Qed.

Lemma textPayload_text (recipientId : Value) (w : World) :
  field (field (textPayload recipientId w) "message") "text"
  = elemAt facts (factIndex (Math_random (draws w))).
Proof. reflexivity. Qed.

Lemma textPayload_recipient (recipientId : Value) (w : World) :
  field (field (textPayload recipientId w) "recipient") "id" = recipientId.
Proof. reflexivity. Qed.

(** The text of the reply is an entry of the table. *)
Lemma textPayload_fact (recipientId : Value) (w : World) :
  exists f, In f facts
    /\ nth_error facts (Z.to_nat (factIndex (Math_random (draws w)))) = Some f
    /\ field (field (textPayload recipientId w) "message") "text" = VStr f.
Proof.
  rewrite textPayload_text.
  destruct (elemAt_in_range facts (factIndex (Math_random (draws w)))
              (factIndex_range _ (Math_random_range (draws w))
                               (Math_random_double (draws w))))
    as (f & N & I & E).
  exists f. auto.
Qed.

Lemma facts_are_not_acknowledgments (f : string) :
  In f facts ->
  f <> "Authentication successful" /\ f <> "Postback called"
  /\ f <> "Quick reply tapped" /\ f <> "Message with attachment received".
Proof.
  intros H.
  assert (forallb (fun f =>
            negb (String.eqb f "Authentication successful")
            && negb (String.eqb f "Postback called")
            && negb (String.eqb f "Quick reply tapped")
            && negb (String.eqb f "Message with attachment received")) facts
          = true) as A by (vm_compute; reflexivity).
  rewrite forallb_forall in A. specialize (A f H).
  repeat (apply andb_true_iff in A; destruct A as [A ?B]).
  repeat match goal with
         | B : negb _ = true |- _ =>
             apply negb_true_iff, String.eqb_neq in B
         end.
  auto.
Qed.

(** *** The message handler *)

Lemma afterText_sent (recipientId : Value) (w1 w : World) :
  sent w1 = sent w -> draws w1 = draws w ->
  sent (afterText recipientId w1) = (sent w ++ [sendAPI (textPayload recipientId w)])%list.
Proof.
  intros S D. unfold afterText, textPayload. simpl. rewrite S, D. reflexivity.
Qed.

Lemma receivedMessage_throws (event : Value) (w : World) :
  nullish (field event "sender") || nullish (field event "recipient") = true ->
  receivedMessage event w = (Throw TypeError, w).
Proof.
  intros H. unfold receivedMessage.
  destruct (nullish event) eqn:He; [apply bind_get_throw; exact He|].
  rewrite bind_get by exact He. cbv beta.
  destruct (nullish (field event "sender")) eqn:Hs;
    [apply bind_get_throw; exact Hs|].
  reads. simpl in H. apply bind_get_throw. exact H.
Qed.

Lemma onMessagingEvent_message (event : Value) (w : World) :
  truthy (field event "optin") = false ->
  truthy (field event "message") = true ->
  onMessagingEvent event w = receivedMessage event w.
Proof.
  intros Ho Hm. unfold onMessagingEvent.
  assert (nullish event = false) as He
    by (eapply field_nullish, truthy_not_nullish; eassumption).
  reads. rewrite Ho. reads. rewrite Hm. reflexivity.
Qed.

Lemma keyword_truthy (kw : string) (builder : Value -> M unit) :
  In (kw, builder) keyword_builders -> truthy (VStr kw) = true.
Proof.
  unfold keyword_builders. simpl. intros H.
  repeat (destruct H as [H|H]; [injection H as <- <-; reflexivity|]).
  contradiction.
Qed.

Lemma default_reply_run (event : Value) (w : World) :
  nullish (field event "sender") = false ->
  nullish (field event "recipient") = false ->
  let message := field event "message" in
  truthy (field message "is_echo") = false ->
  truthy (field message "quick_reply") = false ->
  truthy (field message "text") = true ->
  isKeyword (field message "text") = false ->
  receivedMessage event w
  = (Normal tt, afterText (field (field event "sender") "id") (messageLogged event w)).
Proof.
  intros Hs Hr message He Hq Ht Hk.
  assert (nullish message = false) as Hm
    by (eapply field_nullish, truthy_not_nullish; exact Ht).
  rewrite (receivedMessage_run event w Hs Hr Hm). cbv zeta.
  fold message. rewrite He, Hq, Ht.
  rewrite (replyToText_default _ _ Hk).
  apply sendTextMessage_run.
Qed.

Lemma attachment_reply_run (event : Value) (w : World) :
  nullish (field event "sender") = false ->
  nullish (field event "recipient") = false ->
  let message := field event "message" in
  truthy (field message "is_echo") = false ->
  truthy (field message "quick_reply") = false ->
  truthy (field message "text") = false ->
  truthy (field message "attachments") = true ->
  receivedMessage event w
  = (Normal tt, afterText (field (field event "sender") "id") (messageLogged event w)).
Proof.
  intros Hs Hr message He Hq Ht Ha.
  assert (nullish message = false) as Hm
    by (eapply field_nullish, truthy_not_nullish; exact Ha).
  rewrite (receivedMessage_run event w Hs Hr Hm). cbv zeta.
  fold message. rewrite He, Hq, Ht, Ha. reflexivity.
Qed.

(** C3. A message that is no echo and carries no quick reply, and whose
    text is one of the thirteen keywords, is answered by the builder the
    table names for that keyword, called on the sender id, by the handler
    and by the dispatcher alike.  For ["button"] this is one Send API call
    with [template_type] ["button"]; for ["image"] one call whose attachment
    has type ["image"] and the URL of [/assets/rift.png] under the server
    URL. *)
Theorem keyword_selects_named_builder
    (event : Value) (kw : string) (builder : Value -> M unit) (w : World) :
  In (kw, builder) keyword_builders ->
  nullish (field event "sender") = false ->
  nullish (field event "recipient") = false ->
  let message := field event "message" in
  let senderID := field (field event "sender") "id" in
  truthy (field message "is_echo") = false ->
  truthy (field message "quick_reply") = false ->
  field message "text" = VStr kw ->
  receivedMessage event w = builder senderID (messageLogged event w)
  /\ (truthy (field event "optin") = false ->
      onMessagingEvent event w = builder senderID (messageLogged event w))
  /\ (kw = "button" ->
      exists c,
        receivedMessage event w
        = (Normal tt, mkWorld (sent w ++ [c])%list (console (messageLogged event w))
                              (draws w) (status w))
        /\ field (field (field (field (json c) "message") "attachment") "payload")
                 "template_type" = VStr "button")
  /\ (kw = "image" ->
      exists c,
        receivedMessage event w
        = (Normal tt, mkWorld (sent w ++ [c])%list (console (messageLogged event w))
                              (draws w) (status w))
        /\ field (field (field (json c) "message") "attachment") "type" = VStr "image"
        /\ field (field (field (field (json c) "message") "attachment") "payload")
                 "url" = VStr (SERVER_URL ++ "/assets/rift.png")).
Proof.
  intros Hin Hs Hr message senderID He Hq Ht.
  assert (nullish message = false) as Hm.
  { apply (field_nullish message "text"). rewrite Ht. reflexivity. }
  assert (receivedMessage event w = builder senderID (messageLogged event w)) as R.
  { rewrite (receivedMessage_run event w Hs Hr Hm). cbv zeta.
    fold message senderID. rewrite He, Hq, Ht, (keyword_truthy kw builder Hin).
    rewrite (replyToText_keyword senderID kw builder Hin). reflexivity. }
  split; [exact R|]. split; [|split].
  - intros Ho. rewrite <- R. apply onMessagingEvent_message; [exact Ho|].
    fold message. destruct message; try discriminate; reflexivity.
  - intros ->. eexists. split.
    + rewrite (receivedMessage_run event w Hs Hr Hm). cbv zeta.
      fold message senderID. rewrite He, Hq, Ht. reflexivity.
    + reflexivity.
  - intros ->. eexists. split.
    + rewrite (receivedMessage_run event w Hs Hr Hm). cbv zeta.
      fold message senderID. rewrite He, Hq, Ht. reflexivity.
    + split; reflexivity.
Qed.

(** C2, as the code has it.  A message that is no echo, carries no quick
    reply and whose text is truthy and none of the keywords is answered by
    one Send API call to the sender, a text payload built from the sender id
    and the next random draw alone, so the incoming text plays no part in
    it.  Its text is the entry of the fact table at [factIndex] of the draw,
    an index of the table; every entry is selected by the draws of an
    interval of width 1/133, up to the rounding of the product by at most
    [2 ^ -53].  The reply differs from the incoming text whenever that text
    is not itself an entry of the table. *)
Theorem default_text_reply_is_drawn_fact (event : Value) (w : World) :
  nullish (field event "sender") = false ->
  nullish (field event "recipient") = false ->
  let message := field event "message" in
  let messageText := field message "text" in
  let senderID := field (field event "sender") "id" in
  truthy (field message "is_echo") = false ->
  truthy (field message "quick_reply") = false ->
  truthy messageText = true ->
  isKeyword messageText = false ->
  let r := Math_random (draws w) in
  let reply := field (field (textPayload senderID w) "message") "text" in
  receivedMessage event w = (Normal tt, afterText senderID (messageLogged event w))
  /\ sent (afterText senderID (messageLogged event w))
     = (sent w ++ [sendAPI (textPayload senderID w)])%list
  /\ (exists f, In f facts
        /\ nth_error facts (Z.to_nat (factIndex r)) = Some f
        /\ reply = VStr f)
  /\ (0 <= factIndex r < Z.of_nat (length facts))%Z
  /\ (forall i : Z,
        ((i # 133) <= r /\ r <= (i + 1 # 133) - unit_roundoff -> factIndex r = i)
        /\ (factIndex r = i ->
            (i # 133) - unit_roundoff < r /\ r < (i + 1 # 133)))
  /\ ((forall f, In f facts -> messageText <> VStr f) -> reply <> messageText).
Proof.
  intros Hs Hr message messageText senderID He Hq Ht Hk r reply.
  assert (nullish message = false) as Hm
    by (eapply field_nullish, truthy_not_nullish; exact Ht).
  split; [|split; [|split; [|split; [|split]]]].
  - rewrite (receivedMessage_run event w Hs Hr Hm). cbv zeta.
    fold message senderID messageText. rewrite He, Hq, Ht.
    rewrite (replyToText_default senderID messageText Hk).
    apply sendTextMessage_run.
  - apply afterText_sent; reflexivity.
  - apply textPayload_fact.
  - apply factIndex_range; [apply Math_random_range | apply Math_random_double].
  - intros i. apply factIndex_interval, Math_random_range.
  - intros Hnot E.
    destruct (textPayload_fact senderID w) as (f & I & _ & F).
    fold reply in F. rewrite F in E. exact (Hnot f I (eq_sym E)).
Qed.

(** The attachment branch.  A message that is no echo, carries no quick
    reply, has no text and has attachments makes the handler call
    [sendTextMessage] on the sender id with the fixed argument
    ["Message with attachment received"]; the one Send API call that results
    carries an entry of the fact table chosen by the next random draw, never
    that fixed string. *)
Theorem attachment_reply_is_drawn_fact (event : Value) (w : World) :
  nullish (field event "sender") = false ->
  nullish (field event "recipient") = false ->
  let message := field event "message" in
  let senderID := field (field event "sender") "id" in
  truthy (field message "is_echo") = false ->
  truthy (field message "quick_reply") = false ->
  truthy (field message "text") = false ->
  truthy (field message "attachments") = true ->
  let reply := field (field (textPayload senderID w) "message") "text" in
  receivedMessage event w
  = sendTextMessage senderID (VStr "Message with attachment received")
                    (messageLogged event w)
  /\ receivedMessage event w = (Normal tt, afterText senderID (messageLogged event w))
  /\ sent (afterText senderID (messageLogged event w))
     = (sent w ++ [sendAPI (textPayload senderID w)])%list
  /\ field (field (textPayload senderID w) "recipient") "id" = senderID
  /\ (exists f, In f facts
        /\ nth_error facts (Z.to_nat (factIndex (Math_random (draws w)))) = Some f
        /\ reply = VStr f)
  /\ reply <> VStr "Message with attachment received".
Proof.
  intros Hs Hr message senderID He Hq Ht Ha reply.
  assert (nullish message = false) as Hm
    by (eapply field_nullish, truthy_not_nullish; exact Ha).
  assert (receivedMessage event w
          = sendTextMessage senderID (VStr "Message with attachment received")
                            (messageLogged event w)) as R.
  { rewrite (receivedMessage_run event w Hs Hr Hm). cbv zeta.
    fold message senderID. rewrite He, Hq, Ht, Ha. reflexivity. }
  split; [exact R|]. split; [rewrite R; apply sendTextMessage_run|].
  split; [apply afterText_sent; reflexivity|].
  split; [apply textPayload_recipient|].
  split; [apply textPayload_fact|].
  destruct (textPayload_fact senderID w) as (f & I & _ & F).
  fold reply in F. rewrite F. intros E. injection E as E.
  exact (proj2 (proj2 (proj2 (facts_are_not_acknowledgments f I))) E).
Qed.

(** C8. When the message of an event has a truthy [is_echo], the message
    handler issues no Send API call, whatever else the message carries; on
    an event with a sender and a recipient it writes its console lines and
    returns, and the dispatcher routes an event without [optin] to it. *)
Theorem echo_message_sends_nothing (event : Value) (w : World) :
  let message := field event "message" in
  truthy (field message "is_echo") = true ->
  sent (snd (receivedMessage event w)) = sent w
  /\ draws (snd (receivedMessage event w)) = draws w
  /\ (nullish (field event "sender") = false ->
      nullish (field event "recipient") = false ->
      receivedMessage event w =
        (Normal tt,
         logged (ConsoleLog
                   [LVal (VStr "Received echo for message %s and app %d with metadata %s");
                    LVal (field message "mid"); LVal (field message "app_id");
                    LVal (field message "metadata")])
                (messageLogged event w)))
  /\ (truthy (field event "optin") = false ->
      onMessagingEvent event w = receivedMessage event w).
Proof.
  intros message He.
  assert (nullish message = false) as Hm
    by (eapply field_nullish, truthy_not_nullish; exact He).
  assert (nullish (field event "sender") = false ->
          nullish (field event "recipient") = false ->
          receivedMessage event w =
            (Normal tt,
             logged (ConsoleLog
                       [LVal (VStr "Received echo for message %s and app %d with metadata %s");
                        LVal (field message "mid"); LVal (field message "app_id");
                        LVal (field message "metadata")])
                    (messageLogged event w))) as R.
  { intros Hs Hr. rewrite (receivedMessage_run event w Hs Hr Hm). cbv zeta.
    fold message. rewrite He. reflexivity. }
  assert (sent (snd (receivedMessage event w)) = sent w
          /\ draws (snd (receivedMessage event w)) = draws w) as Z.
  { destruct (nullish (field event "sender")) eqn:Hs;
      [rewrite receivedMessage_throws by (rewrite Hs; reflexivity); auto|].
    destruct (nullish (field event "recipient")) eqn:Hr;
      [rewrite receivedMessage_throws by (rewrite Hs, Hr; reflexivity); auto|].
    rewrite (R eq_refl eq_refl). auto. }
  destruct Z as [Z1 Z2].
  split; [exact Z1|]. split; [exact Z2|]. split; [exact R|].
  intros Ho. apply onMessagingEvent_message; [exact Ho|].
  fold message. destruct message; try discriminate; reflexivity.
Qed.

Lemma receivedMessage_quick_reply_run (event : Value) (w : World) :
  nullish (field event "sender") = false ->
  nullish (field event "recipient") = false ->
  let message := field event "message" in
  truthy (field message "is_echo") = false ->
  truthy (field message "quick_reply") = true ->
  receivedMessage event w =
    (Normal tt,
     afterText (field (field event "sender") "id")
       (logged (ConsoleLog
                  [LVal (VStr "Quick reply for message %s with payload %s");
                   LVal (field message "mid");
                   LVal (field (field message "quick_reply") "payload")])
               (messageLogged event w))).
Proof.
  intros Hs Hr message He Hq.
  assert (nullish message = false) as Hm
    by (eapply field_nullish, truthy_not_nullish; exact Hq).
  rewrite (receivedMessage_run event w Hs Hr Hm). cbv zeta.
  fold message. rewrite He, Hq. reflexivity.
Qed.

(** C9, as the code has it.  The payload of [sendTextMessage] does not
    depend on its text argument: two calls in the same world, with any two
    texts, end in the same world, having sent the recipient id, an entry of
    the fact table chosen by the draw and the metadata
    ["DEVELOPER_DEFINED_METADATA"].  The replies to an authentication, a
    postback, a quick reply, an attachment and an unmatched text are all
    this payload for the sender; its text is none of the four acknowledgment
    strings the handlers pass, and differs from any supplied text that is
    not itself an entry of the table. *)
Theorem sendTextMessage_ignores_messageText
    (recipientId t1 t2 event : Value) (w : World) :
  sendTextMessage recipientId t1 w = sendTextMessage recipientId t2 w
  /\ sendTextMessage recipientId t1 w = (Normal tt, afterText recipientId w)
  /\ (exists f, In f facts
        /\ f <> "Authentication successful" /\ f <> "Postback called"
        /\ f <> "Quick reply tapped" /\ f <> "Message with attachment received"
        /\ textPayload recipientId w
           = VObj [("recipient", VObj [("id", recipientId)]);
                   ("message",
                    VObj [("text", VStr f);
                          ("metadata", VStr "DEVELOPER_DEFINED_METADATA")])])
  /\ ((forall f, In f facts -> t1 <> VStr f) ->
      field (field (textPayload recipientId w) "message") "text" <> t1)
  /\ (nullish (field event "sender") = false ->
      nullish (field event "recipient") = false ->
      let senderID := field (field event "sender") "id" in
      let message := field event "message" in
      (nullish (field event "optin") = false ->
         repliesWithFact (receivedAuthentication event) senderID w)
      /\ (nullish (field event "postback") = false ->
         repliesWithFact (receivedPostback event) senderID w)
      /\ (truthy (field message "is_echo") = false ->
          truthy (field message "quick_reply") = true ->
         repliesWithFact (receivedMessage event) senderID w)
      /\ (truthy (field message "is_echo") = false ->
          truthy (field message "quick_reply") = false ->
          truthy (field message "text") = false ->
          truthy (field message "attachments") = true ->
         repliesWithFact (receivedMessage event) senderID w)
      /\ (truthy (field message "is_echo") = false ->
          truthy (field message "quick_reply") = false ->
          truthy (field message "text") = true ->
          isKeyword (field message "text") = false ->
         repliesWithFact (receivedMessage event) senderID w)).
Proof.
  split; [reflexivity|]. split; [apply sendTextMessage_run|]. split; [|split].
  - destruct (textPayload_fact recipientId w) as (f & I & _ & F).
    rewrite textPayload_text in F.
    destruct (facts_are_not_acknowledgments f I) as (A1 & A2 & A3 & A4).
    exists f. repeat (split; [assumption|]).
    unfold textPayload. rewrite F. reflexivity.
  - intros Hnot E.
    destruct (textPayload_fact recipientId w) as (f & I & _ & F).
    rewrite F in E. exact (Hnot f I (eq_sym E)).
  - intros Hs Hr senderID message.
    split; [|split; [|split; [|split]]].
    + intros Ho. eexists.
      split; [|split; [|split; [|exact (receivedAuthentication_run event w Hs Hr Ho)]]]; reflexivity.
    + intros Ho. eexists.
      split; [|split; [|split; [|exact (receivedPostback_run event w Hs Hr Ho)]]]; reflexivity.
    + intros He Hq. eexists.
      split; [|split; [|split; [|exact (receivedMessage_quick_reply_run event w Hs Hr He Hq)]]]; reflexivity.
    + intros He Hq Ht Ha. eexists.
      split; [|split; [|split; [|exact (attachment_reply_run event w Hs Hr He Hq Ht Ha)]]]; reflexivity.
    + intros He Hq Ht Hk. eexists.
      split; [|split; [|split; [|exact (default_reply_run event w Hs Hr He Hq Ht Hk)]]]; reflexivity.
Qed.

(** C10. The handlers of a delivery, a read and an account link issue no
    Send API call on any event, and on an event shaped as the platform sends
    it they write their console lines and return.  The handlers of an optin
    and of a postback, on an event with a sender and a recipient, write one
    console line and make the one call [sendTextMessage] makes for the
    sender id. *)
Theorem handlers_send_zero_or_one (event : Value) (w : World) :
  let senderID := field (field event "sender") "id" in
  (quiet (receivedDeliveryConfirmation event)
   /\ quiet (receivedMessageRead event)
   /\ quiet (receivedAccountLink event))
  /\ (nullish (field event "sender") = false ->
      nullish (field event "recipient") = false ->
      (nullish (field event "delivery") = false ->
       truthy (field (field event "delivery") "mids") = false
       \/ isArray (field (field event "delivery") "mids") = true ->
       exists w', receivedDeliveryConfirmation event w = (Normal tt, w'))
      /\ (nullish (field event "read") = false ->
          exists w', receivedMessageRead event w = (Normal tt, w'))
      /\ (nullish (field event "account_linking") = false ->
          exists w', receivedAccountLink event w = (Normal tt, w'))
      /\ (nullish (field event "optin") = false ->
          exists line,
            receivedAuthentication event w
            = sendTextMessage senderID (VStr "Authentication successful")
                              (logged line w)
            /\ sent (snd (receivedAuthentication event w))
               = (sent w ++ [sendAPI (textPayload senderID w)])%list
            /\ field (field (textPayload senderID w) "recipient") "id" = senderID)
      /\ (nullish (field event "postback") = false ->
          exists line,
            receivedPostback event w
            = sendTextMessage senderID (VStr "Postback called") (logged line w)
            /\ sent (snd (receivedPostback event w))
               = (sent w ++ [sendAPI (textPayload senderID w)])%list
            /\ field (field (textPayload senderID w) "recipient") "id" = senderID)).
Proof.
  intros senderID. split.
  - split; [apply receivedDeliveryConfirmation_quiet|].
    split; [apply receivedMessageRead_quiet | apply receivedAccountLink_quiet].
  - intros Hs Hr. split; [|split; [|split; [|split]]].
    + intros Hd Hm. eexists.
      apply (receivedDeliveryConfirmation_run event w Hs Hr Hd Hm).
    + intros Hd. eexists. apply (receivedMessageRead_run event w Hs Hr Hd).
    + intros Hd. eexists. apply (receivedAccountLink_run event w Hs Hr Hd).
    + intros Ho. eexists.
      rewrite (receivedAuthentication_run event w Hs Hr Ho), sendTextMessage_run.
      split; [reflexivity|]. split; reflexivity.
    + intros Ho. eexists.
      rewrite (receivedPostback_run event w Hs Hr Ho), sendTextMessage_run.
      split; [reflexivity|]. split; reflexivity.
Qed.

(** *** The dispatcher *)

Lemma bind_ext {A B} (m : M A) (k k' : A -> M B) (w : World) :
  (forall a w', k a w' = k' a w') -> bind m k w = bind m k' w.
Proof.
  intros H. unfold bind. destruct (m w) as [[a|e] w1]; [apply H|reflexivity].
Qed.

Lemma bind_cong {A B} (m m' : M A) (k : A -> M B) (w : World) :
  m w = m' w -> bind m k w = bind m' k w.
Proof. intros H. unfold bind. rewrite H. reflexivity. Qed.

Lemma forEachList_app {A} (f : A -> M unit) (l1 l2 : list A) (w : World) :
  forEachList f (l1 ++ l2) w = (forEachList f l1 ;;; forEachList f l2) w.
Proof.
  revert w. induction l1 as [|x l1 IH]; intros w; simpl; [reflexivity|].
  unfold bind. destruct (f x w) as [[[]|e] w1]; [|reflexivity].
  rewrite IH. reflexivity.
Qed.

Lemma onMessagingEvent_run (event : Value) (w : World) :
  nullish event = false ->
  onMessagingEvent event w =
    (if present event "optin" then receivedAuthentication event
     else if present event "message" then receivedMessage event
     else if present event "delivery" then receivedDeliveryConfirmation event
     else if present event "postback" then receivedPostback event
     else if present event "read" then receivedMessageRead event
     else if present event "account_linking" then receivedAccountLink event
     else console_log [LVal (VStr "Webhook received unknown messagingEvent: ");
                       LVal event]) w.
Proof.
  intros He. unfold onMessagingEvent, present. reads.
  destruct (truthy (field event "optin")); [reflexivity|]. reads.
  destruct (truthy (field event "message")); [reflexivity|]. reads.
  destruct (truthy (field event "delivery")); [reflexivity|]. reads.
  destruct (truthy (field event "postback")); [reflexivity|]. reads.
  destruct (truthy (field event "read")); [reflexivity|]. reads.
  destruct (truthy (field event "account_linking")); reflexivity.
Qed.

Lemma onPageEntry_run (pageEntry : Value) (w : World) :
  nullish pageEntry = false ->
  onPageEntry pageEntry w = forEach (field pageEntry "messaging") onMessagingEvent w.
Proof. intros H. unfold onPageEntry. reads. reflexivity. Qed.

Lemma post_webhook_page (data : Value) (w : World) :
  looseEq_page (field data "object") = Normal true ->
  post_webhook data w =
    (forEach (field data "entry") onPageEntry ;;; res_sendStatus 200) w.
Proof.
  intros H. unfold post_webhook.
  assert (nullish data = false) as Hd.
  { destruct data; try reflexivity; discriminate. }
  reads. unfold bind at 1, lift. rewrite H. reads. reflexivity.
Qed.

(** Entries that are objects with a list of events: iterating the entries
    is iterating their events, entry after entry. *)
Lemma forEachList_entries (entries : list Value) :
  (forall pageEntry, In pageEntry entries ->
     nullish pageEntry = false /\ isArray (field pageEntry "messaging") = true) ->
  forall w,
    forEachList onPageEntry entries w
    = forEachList onMessagingEvent
        (flat_map (fun pageEntry => elements (field pageEntry "messaging")) entries) w.
Proof.
  induction entries as [|pageEntry rest IH]; intros H w; [reflexivity|].
  simpl. rewrite forEachList_app.
  destruct (H pageEntry (or_introl eq_refl)) as [Hn Ha].
  assert (forall w0, onPageEntry pageEntry w0
                     = forEachList onMessagingEvent
                         (elements (field pageEntry "messaging")) w0) as E.
  { intros w0. rewrite (onPageEntry_run pageEntry w0 Hn).
    destruct (field pageEntry "messaging"); try discriminate. reflexivity. }
  unfold bind. rewrite E.
  destruct (forEachList onMessagingEvent (elements (field pageEntry "messaging")) w)
    as [[[]|e] w1]; [|reflexivity].
  apply IH. intros pageEntry' Hin. apply H. right. exact Hin.
Qed.

Lemma post_webhook_events (data : Value) (w : World) :
  field data "object" = VStr "page" ->
  isArray (field data "entry") = true ->
  (forall pageEntry, In pageEntry (elements (field data "entry")) ->
     nullish pageEntry = false /\ isArray (field pageEntry "messaging") = true) ->
  post_webhook data w
  = (forEachList onMessagingEvent (eventsOf data) ;;; res_sendStatus 200) w.
Proof.
  intros Hp Ha He.
  assert (looseEq_page (field data "object") = Normal true) as L
    by (rewrite Hp; reflexivity).
  rewrite (post_webhook_page data w L). unfold eventsOf.
  destruct (field data "entry") as [| | | | |entries|]; try discriminate.
  simpl in *. apply bind_cong. apply forEachList_entries. exact He.
Qed.

(** C7. The dispatcher tests [optin], [message], [delivery], [postback],
    [read] and [account_linking] in this order and calls the handler of the
    first field that is truthy (an object is, a missing field is not).  An
    event with none of them is written to the console and nothing else
    happens: no exception, no call; the events before and after it in the
    same entry, and the entries that follow, are processed as usual, and
    entries are processed in the order of the array.  The handler of POST
    /webhook is where this happens: on a page body it runs [onPageEntry] on
    the entries and then answers 200, [onPageEntry] runs the dispatcher on
    the events of its entry, and so the handler runs the dispatcher on every
    event of every entry, in the order of the arrays. *)
Theorem events_dispatched_in_priority_order
    (event : Value) (before after entries1 entries2 : list Value)
    (pageEntry data : Value) (w : World) :
  nullish event = false ->
  (onMessagingEvent event w =
     (if present event "optin" then receivedAuthentication event
      else if present event "message" then receivedMessage event
      else if present event "delivery" then receivedDeliveryConfirmation event
      else if present event "postback" then receivedPostback event
      else if present event "read" then receivedMessageRead event
      else if present event "account_linking" then receivedAccountLink event
      else console_log [LVal (VStr "Webhook received unknown messagingEvent: ");
                        LVal event]) w)
  /\ (forall k, (forall props, field event k = VObj props -> present event k = true)
                /\ (field event k = VUndefined -> present event k = false))
  /\ (present event "optin" = false -> present event "message" = false ->
      present event "delivery" = false -> present event "postback" = false ->
      present event "read" = false -> present event "account_linking" = false ->
      onMessagingEvent event w = (Normal tt, logged (unknownEventLine event) w)
      /\ forEachList onMessagingEvent (before ++ event :: after) w
         = (forEachList onMessagingEvent before ;;;
            console_log [LVal (VStr "Webhook received unknown messagingEvent: ");
                         LVal event] ;;;
            forEachList onMessagingEvent after) w
      /\ (nullish pageEntry = false ->
          field pageEntry "messaging" = VArr (before ++ event :: after) ->
          forEach (VArr (pageEntry :: entries2)) onPageEntry w
          = ((forEachList onMessagingEvent before ;;;
              console_log [LVal (VStr "Webhook received unknown messagingEvent: ");
                           LVal event] ;;;
              forEachList onMessagingEvent after) ;;;
             forEach (VArr entries2) onPageEntry) w))
  /\ forEach (VArr (entries1 ++ entries2)) onPageEntry w
     = (forEach (VArr entries1) onPageEntry ;;; forEach (VArr entries2) onPageEntry) w
  /\ (nullish pageEntry = false ->
      onPageEntry pageEntry w
      = forEach (field pageEntry "messaging") onMessagingEvent w)
  /\ (looseEq_page (field data "object") = Normal true ->
      post_webhook data w
      = (forEach (field data "entry") onPageEntry ;;; res_sendStatus 200) w)
  /\ (field data "object" = VStr "page" ->
      isArray (field data "entry") = true ->
      (forall entry, In entry (elements (field data "entry")) ->
         nullish entry = false /\ isArray (field entry "messaging") = true) ->
      post_webhook data w
      = (forEachList onMessagingEvent (eventsOf data) ;;; res_sendStatus 200) w).
Proof.
  intros He.
  pose proof (onMessagingEvent_run event w He) as R.
  split; [exact R|]. split; [|split; [|split; [|split; [|split]]]].
  - intros k. unfold present. split.
    + intros props E. rewrite E. reflexivity.
    + intros E. rewrite E. reflexivity.
  - intros H1 H2 H3 H4 H5 H6.
    assert (forall w0, onMessagingEvent event w0
                       = (Normal tt, logged (unknownEventLine event) w0)) as U.
    { intros w0. rewrite (onMessagingEvent_run event w0 He).
      rewrite H1, H2, H3, H4, H5, H6. reflexivity. }
    assert (forall w0, forEachList onMessagingEvent (before ++ event :: after) w0
         = (forEachList onMessagingEvent before ;;;
            console_log [LVal (VStr "Webhook received unknown messagingEvent: ");
                         LVal event] ;;;
            forEachList onMessagingEvent after) w0) as S.
    { intros w0. rewrite forEachList_app. apply bind_ext. intros _ w1.
      simpl. unfold bind. rewrite U. reflexivity. }
    split; [apply U|]. split; [apply S|].
    intros Hp Hm. simpl. apply bind_cong.
    rewrite (onPageEntry_run pageEntry w Hp), Hm. simpl. apply S.
  - simpl. apply forEachList_app.
  - apply onPageEntry_run.
  - apply post_webhook_page.
  - apply post_webhook_events.
Qed.

(** *** Well-formed envelopes are processed to the end *)

Ltac returns :=
  eexists;
  cbv [sendReceiptMessage sendReadReceipt sendTypingOn sendTypingOff
       sendTextMessage getRandomFact ret bind Math_random_call console_log];
  reflexivity.

Lemma replyToText_returns (senderID messageText : Value) (w : World) :
  exists w', replyToText senderID messageText w = (Normal tt, w').
Proof.
  unfold replyToText.
  repeat match goal with
         | |- exists w', (if ?b then _ else _) _ = _ => destruct b; [returns|]
         end.
  returns.
Qed.

Lemma receivedMessage_returns (event : Value) (w : World) :
  nullish (field event "sender") = false ->
  nullish (field event "recipient") = false ->
  nullish (field event "message") = false ->
  exists w', receivedMessage event w = (Normal tt, w').
Proof.
  intros Hs Hr Hm. rewrite (receivedMessage_run event w Hs Hr Hm). cbv zeta.
  destruct (truthy (field (field event "message") "is_echo")); [returns|].
  destruct (truthy (field (field event "message") "quick_reply")); [returns|].
  destruct (truthy (field (field event "message") "text"));
    [apply replyToText_returns|].
  destruct (truthy (field (field event "message") "attachments")); returns.
Qed.

Lemma onMessagingEvent_returns (event : Value) (w : World) :
  wf_event event = true ->
  exists w', onMessagingEvent event w = (Normal tt, w').
Proof.
  unfold wf_event. intros H.
  apply andb_true_iff in H. destruct H as [H Hmids].
  apply andb_true_iff in H. destruct H as [He Hsr].
  apply negb_true_iff in He.
  rewrite (onMessagingEvent_run event w He).
  unfold present in *.
  destruct (truthy (field event "optin")) eqn:H1.
  { simpl in Hsr. apply andb_true_iff in Hsr. destruct Hsr as [Hs Hr].
    apply negb_true_iff in Hs, Hr. eexists.
    apply receivedAuthentication_run; auto using truthy_not_nullish. }
  destruct (truthy (field event "message")) eqn:H2.
  { simpl in Hsr. apply andb_true_iff in Hsr. destruct Hsr as [Hs Hr].
    apply negb_true_iff in Hs, Hr.
    apply receivedMessage_returns; auto using truthy_not_nullish. }
  destruct (truthy (field event "delivery")) eqn:H3.
  { simpl in Hsr, Hmids. apply andb_true_iff in Hsr. destruct Hsr as [Hs Hr].
    apply negb_true_iff in Hs, Hr. eexists.
    apply receivedDeliveryConfirmation_run; auto using truthy_not_nullish.
    apply orb_true_iff in Hmids. destruct Hmids as [Hm|Hm]; [left|right; exact Hm].
    apply negb_true_iff in Hm. exact Hm. }
  destruct (truthy (field event "postback")) eqn:H4.
  { simpl in Hsr. apply andb_true_iff in Hsr. destruct Hsr as [Hs Hr].
    apply negb_true_iff in Hs, Hr. eexists.
    apply receivedPostback_run; auto using truthy_not_nullish. }
  destruct (truthy (field event "read")) eqn:H5.
  { simpl in Hsr. apply andb_true_iff in Hsr. destruct Hsr as [Hs Hr].
    apply negb_true_iff in Hs, Hr. eexists.
    apply receivedMessageRead_run; auto using truthy_not_nullish. }
  destruct (truthy (field event "account_linking")) eqn:H6.
  { simpl in Hsr. apply andb_true_iff in Hsr. destruct Hsr as [Hs Hr].
    apply negb_true_iff in Hs, Hr. eexists.
    apply receivedAccountLink_run; auto using truthy_not_nullish. }
  eexists; reflexivity.
Qed.

Lemma forEachList_returns {A} (f : A -> M unit) (ok : A -> bool) (l : list A) :
  (forall x w, ok x = true -> exists w', f x w = (Normal tt, w')) ->
  forallb ok l = true ->
  forall w, exists w', forEachList f l w = (Normal tt, w').
Proof.
  intros Hf. induction l as [|x l IH]; simpl; intros Hl w.
  - eexists; reflexivity.
  - apply andb_true_iff in Hl. destruct Hl as [Hx Hl].
    destruct (Hf x w Hx) as [w1 E1]. unfold bind. rewrite E1.
    apply (IH Hl).
Qed.

Lemma onPageEntry_returns (pageEntry : Value) (w : World) :
  wf_entry pageEntry = true ->
  exists w', onPageEntry pageEntry w = (Normal tt, w').
Proof.
  unfold wf_entry. intros H.
  apply andb_true_iff in H. destruct H as [H Hall].
  apply andb_true_iff in H. destruct H as [Hp Harr].
  apply negb_true_iff in Hp. rewrite (onPageEntry_run pageEntry w Hp).
  destruct (field pageEntry "messaging"); try discriminate.
  simpl in *. apply (forEachList_returns onMessagingEvent wf_event); [|exact Hall].
  intros x w0 Hx. apply onMessagingEvent_returns. exact Hx.
Qed.

Lemma post_webhook_not_page (data : Value) (w : World) :
  looseEq_page (field data "object") <> Normal true ->
  sent (snd (post_webhook data w)) = sent w
  /\ status (snd (post_webhook data w)) = status w
  /\ snd (post_webhook data w) = w.
Proof.
  intros H. unfold post_webhook.
  destruct (nullish data) eqn:Hd.
  - rewrite bind_get_throw by exact Hd. auto.
  - reads. unfold bind, lift.
    destruct (looseEq_page (field data "object")) as [[|]|e]; try congruence; auto.
Qed.

(** C6. When the [object] field of the body is not ["page"] the handler
    issues no Send API call and writes no status: the world is unchanged.
    This holds for every string other than ["page"], and for every value
    that the comparison [data.object == 'page'] does not accept (a missing
    field, [null], a boolean, a number).  When the field is ["page"] and the
    envelope is shaped as the platform sends it, every entry is processed
    and the status 200 is written after the iteration. *)
Theorem post_webhook_page_gate (data : Value) (w : World) :
  (forall s, field data "object" = VStr s -> s <> "page" ->
     post_webhook data w = (Normal tt, w))
  /\ (looseEq_page (field data "object") <> Normal true ->
      sent (snd (post_webhook data w)) = sent w
      /\ status (snd (post_webhook data w)) = status w
      /\ snd (post_webhook data w) = w)
  /\ (field data "object" = VStr "page" ->
      wf_envelope data = true ->
      exists w',
        forEach (field data "entry") onPageEntry w = (Normal tt, w')
        /\ post_webhook data w
           = (Normal tt, mkWorld (sent w') (console w') (draws w') (Some 200%Z))).
Proof.
  split; [|split; [apply post_webhook_not_page|]].
  - intros s E Hne. unfold post_webhook.
    assert (nullish data = false) as Hd.
    { destruct data; try reflexivity; discriminate. }
    reads. rewrite E. unfold bind, lift. simpl.
    apply String.eqb_neq in Hne. rewrite Hne. reflexivity.
  - intros Hp Hwf. unfold wf_envelope in Hwf.
    apply andb_true_iff in Hwf. destruct Hwf as [Harr Hall].
    assert (exists w', forEach (field data "entry") onPageEntry w = (Normal tt, w'))
      as [w' E].
    { destruct (field data "entry"); try discriminate. simpl in *.
      apply (forEachList_returns onPageEntry wf_entry); [|exact Hall].
      intros x w0 Hx. apply onPageEntry_returns. exact Hx. }
    exists w'. split; [exact E|].
    assert (looseEq_page (field data "object") = Normal true) as L
      by (rewrite Hp; reflexivity).
    rewrite (post_webhook_page data w L). unfold bind. rewrite E. reflexivity.
Qed.

(** ** The other routes, the Send API callback and the start-up *)

Lemma bind_ret {A B} (a : A) (k : A -> M B) (w : World) :
  bind (ret a) k w = k a w.
Proof. reflexivity. Qed.

Lemma bind_assoc {A B C} (m : M A) (f : A -> M B) (g : B -> M C) (w : World) :
  bind (bind m f) g w = bind m (fun x => bind (f x) g) w.
Proof. unfold bind. destruct (m w) as [[a|e] w1]; reflexivity. Qed.

Lemma quiet_console_error (args : list LogArg) : quiet (console_error args).
Proof. intros w. simpl. auto. Qed.

Lemma strictEqStr_true (v : Value) (s : string) :
  strictEqStr v s = true <-> v = VStr s.
Proof.
  destruct v; simpl; split; intros H; try discriminate.
  - apply String.eqb_eq in H. subst. reflexivity.
  - injection H as ->. apply String.eqb_refl.
Qed.

(** X1. GET /webhook answers 200 with the challenge of the query exactly
    when [hub.mode] is the string ["subscribe"] and [hub.verify_token] is
    the string equal to the validation token; in every other case (a
    missing parameter, another token, a parameter that is a list) it
    answers 403 and the challenge is not sent.  Either way it writes one
    console line and issues no Send API call. *)
Theorem get_webhook_validates_exactly (query : Value) (w : World) :
  nullish query = false ->
  let matching :=
    field query "hub.mode" = VStr "subscribe"
    /\ field query "hub.verify_token" = VStr VALIDATION_TOKEN in
  (matching ->
     get_webhook query w
     = (Normal (StatusSend 200 (field query "hub.challenge")),
        mkWorld (sent w)
                (console w ++ [ConsoleLog [LVal (VStr "Validating webhook")]])
                (draws w) (Some 200%Z)))
  /\ (~ matching ->
     get_webhook query w
     = (Normal (SendStatus 403),
        mkWorld (sent w)
                (console w ++
                 [ConsoleError
                    [LVal (VStr "Failed validation. Make sure the validation tokens match.")]])
                (draws w) (Some 403%Z))).
Proof.
  intros Hq matching. unfold get_webhook. reads.
  destruct (strictEqStr (field query "hub.mode") "subscribe") eqn:Em.
  - rewrite bind_assoc. reads. rewrite bind_ret.
    destruct (strictEqStr (field query "hub.verify_token") VALIDATION_TOKEN) eqn:Et.
    + split.
      * intros _. rewrite bind_console_log. reads. reflexivity.
      * intros N. exfalso. apply N. split; apply strictEqStr_true; assumption.
    + split.
      * intros [_ T]. apply strictEqStr_true in T. congruence.
      * intros _. reflexivity.
  - rewrite bind_ret. split.
    + intros [T _]. apply strictEqStr_true in T. congruence.
    + intros _. reflexivity.
Qed.

Lemma append_assoc (a b c : string) : (a ++ b) ++ c = a ++ (b ++ c).
Proof. induction a as [|x a IH]; simpl; [reflexivity|]. rewrite IH. reflexivity. Qed.

(** X2. GET /authorize renders the view [authorize] with the linking token
    and the redirect URI of the query handed through, and a success URI
    that is the redirect URI followed by the fixed authorization code
    ["1234567890"], whatever the linking token; without a [redirect_uri]
    the success URI starts with ["undefined"].  It writes no console line
    and issues no call. *)
Theorem authorize_success_uri (query : Value) (w : World) :
  nullish query = false ->
  let locals success :=
    VObj [("accountLinkingToken", field query "account_linking_token");
          ("redirectURI", field query "redirect_uri");
          ("redirectURISuccess", VStr success)] in
  (forall redirect, field query "redirect_uri" = VStr redirect ->
     authorize query w
     = (Normal (Render "authorize"
                       (locals (redirect ++ "&authorization_code=1234567890"))), w))
  /\ (field query "redirect_uri" = VUndefined ->
     authorize query w
     = (Normal (Render "authorize"
                       (locals "undefined&authorization_code=1234567890")), w)).
Proof.
  intros Hq locals. subst locals. cbv beta. unfold authorize. split.
  - intros redirect E. reads. rewrite !E. unfold bind, lift, ToString, res_render.
    rewrite append_assoc. reflexivity.
  - intros E. reads. rewrite !E. reflexivity.
Qed.

Lemma js_and_truthy (a b : Value) :
  truthy (js_and a b) = truthy a && truthy b.
Proof. unfold js_and. destruct (truthy a) eqn:E; [reflexivity | exact E]. Qed.

(** X3. The process goes on past the configuration check exactly when the
    four values resolve and are all truthy; when they resolve and one is
    falsy it writes ["Missing config values"] and exits with code 1; when
    [config.get] throws for one of them the start-up ends with the exception
    of the first that throws, nothing written.  A non-empty environment
    variable wins over the configuration file (which is then not consulted),
    an empty one counts as unset. *)
Theorem startup_requires_all_config
    (env : string -> option string) (config_get : string -> Completion Value) :
  let secret := configValue env config_get "MESSENGER_APP_SECRET" "appSecret" in
  let token :=
    configValue env config_get "MESSENGER_VALIDATION_TOKEN" "validationToken" in
  let page :=
    configValue env config_get "MESSENGER_PAGE_ACCESS_TOKEN" "pageAccessToken" in
  let url := configValue env config_get "SERVER_URL" "serverURL" in
  (forall logs c,
     startup env config_get = (logs, Configured c) <->
     logs = []
     /\ secret = Normal (appSecret c) /\ token = Normal (validationToken c)
     /\ page = Normal (pageAccessToken c) /\ url = Normal (serverURL c)
     /\ truthy (appSecret c) = true /\ truthy (validationToken c) = true
     /\ truthy (pageAccessToken c) = true /\ truthy (serverURL c) = true)
  /\ (forall a v p u,
        secret = Normal a -> token = Normal v -> page = Normal p -> url = Normal u ->
        startup env config_get
        = if truthy a && truthy v && truthy p && truthy u
          then ([], Configured (mkConfig a v p u))
          else ([ConsoleError [LVal (VStr "Missing config values")]], Exited 1))
  /\ (forall e, secret = Throw e -> startup env config_get = ([], ConfigThrew e))
  /\ (forall a e, secret = Normal a -> token = Throw e ->
        startup env config_get = ([], ConfigThrew e))
  /\ (forall a v e, secret = Normal a -> token = Normal v -> page = Throw e ->
        startup env config_get = ([], ConfigThrew e))
  /\ (forall a v p e,
        secret = Normal a -> token = Normal v -> page = Normal p -> url = Throw e ->
        startup env config_get = ([], ConfigThrew e))
  /\ (forall name key s, env name = Some s -> s <> EmptyString ->
        configValue env config_get name key = Normal (VStr s))
  /\ (forall name key, env name = Some EmptyString \/ env name = None ->
        configValue env config_get name key = config_get key).
Proof.
  intros secret token page url.
  assert (forall a v p u,
            secret = Normal a -> token = Normal v -> page = Normal p ->
            url = Normal u ->
            startup env config_get
            = if truthy a && truthy v && truthy p && truthy u
              then ([], Configured (mkConfig a v p u))
              else ([ConsoleError [LVal (VStr "Missing config values")]], Exited 1))
    as R.
  { intros a v p u Ha Hv Hp Hu. unfold startup.
    fold secret token page url. rewrite Ha, Hv, Hp, Hu.
    rewrite !js_and_truthy.
    destruct (truthy a && truthy v && truthy p && truthy u); reflexivity. }
  split; [|split; [exact R|]].
  - intros logs c. split.
    + intros H. unfold startup in H. fold secret token page url in H.
      destruct secret as [a|]; [|discriminate].
      destruct token as [v|]; [|discriminate].
      destruct page as [p|]; [|discriminate].
      destruct url as [u|]; [|discriminate].
      rewrite !js_and_truthy in H.
      destruct (truthy a && truthy v && truthy p && truthy u) eqn:T;
        simpl in H; [|discriminate].
      injection H as <- <-. simpl.
      repeat (apply andb_true_iff in T; destruct T as [T ?]).
      repeat split; auto.
    + intros (-> & Ha & Hv & Hp & Hu & Ta & Tv & Tp & Tu).
      rewrite (R _ _ _ _ Ha Hv Hp Hu), Ta, Tv, Tp, Tu.
      destruct c; reflexivity.
  - split; [|split; [|split; [|split; [|split]]]].
    + intros e He. unfold startup. fold secret. rewrite He. reflexivity.
    + intros a e Ha He. unfold startup. fold secret token.
      rewrite Ha, He. reflexivity.
    + intros a v e Ha Hv He. unfold startup. fold secret token page.
      rewrite Ha, Hv, He. reflexivity.
    + intros a v p e Ha Hv Hp He. unfold startup. fold secret token page url.
      rewrite Ha, Hv, Hp, He. reflexivity.
    + intros name key s E Hne. unfold configValue. rewrite E. simpl.
      apply String.eqb_neq in Hne. rewrite Hne. reflexivity.
    + intros name key [E|E]; unfold configValue; rewrite E; reflexivity.
Qed.

(** X4. The callback of [callSendAPI] never issues a Send API call (there
    is no retry), draws no random number and writes no status, whatever the
    error, the response and the body it is given. *)
Theorem callSendAPI_callback_never_sends
    (error : Value) (response : option IncomingMessage) (body : Value) :
  quiet (callSendAPI_callback error response body).
Proof.
  unfold callSendAPI_callback.
  apply quiet_bind.
  - destruct (negb (truthy error)); [destruct response|]; quiet_steps.
  - intros [|]; [quiet_steps|]. destruct response; quiet_steps.
    apply quiet_console_error.
Qed.

(** X5. When [request] hands the callback no response (a failed transport)
    or no body, the callback throws a TypeError on reading [statusCode],
    [recipient_id] or [error], and nothing is written to the console. *)
Theorem callSendAPI_callback_throws_without_response
    (error : Value) (response : option IncomingMessage) (body : Value) (w : World) :
  response = None \/ nullish body = true ->
  callSendAPI_callback error response body w = (Throw TypeError, w).
Proof.
  intros H. unfold callSendAPI_callback, bind.
  destruct response as [r|].
  - destruct H as [H|H]; [discriminate|].
    destruct (negb (truthy error)); simpl;
      [destruct (statusCode r =? 200)%Z|]; destruct body; try discriminate;
      reflexivity.
  - destruct (negb (truthy error)); reflexivity.
Qed.

(** X6. With a response and a body the callback returns and writes exactly
    one console line: on the standard stream when there is no error and the
    status code is 200, on the error stream (with the status code and
    message) otherwise. *)
Theorem callSendAPI_callback_logs_once
    (error : Value) (r : IncomingMessage) (body : Value) (w : World) :
  nullish body = false ->
  exists line,
    callSendAPI_callback error (Some r) body w = (Normal tt, logged line w)
    /\ ((truthy error = false /\ statusCode r = 200%Z) ->
        exists args, line = ConsoleLog args)
    /\ (~ (truthy error = false /\ statusCode r = 200%Z) ->
        line = ConsoleError
                 [LVal (VStr "Failed calling Send API");
                  LVal (VNum (inject_Z (statusCode r)));
                  LVal (VStr (statusMessage r)); LVal (field body "error")]).
Proof.
  intros Hb. unfold callSendAPI_callback.
  destruct (truthy error) eqn:Ee; simpl negb; cbv iota.
  - rewrite bind_ret. reads. eexists. split; [reflexivity|]. split.
    + intros [E _]. discriminate.
    + intros _. reflexivity.
  - rewrite bind_ret.
    destruct (Z.eqb_spec (statusCode r) 200) as [E|E].
    + reads. destruct (truthy (field body "message_id"));
        (eexists; split; [reflexivity|]; split;
         [intros _; eexists; reflexivity | intros N; exfalso; apply N; auto]).
    + reads. eexists. split; [reflexivity|]. split.
      * intros [_ E']. contradiction.
      * intros _. reflexivity.
Qed.

(** ** Replies: how many, and to whom *)

Ltac one_call :=
  intros w; do 2 eexists;
  split;
  [ cbv [bind ret callSendAPI console_log Math_random_call getRandomFact];
    reflexivity
  | split; [reflexivity|];
    split; [repeat split; reflexivity|];
    split; [reflexivity | simpl; lia] ].

Lemma sendTextMessage_sendsOne (recipientId messageText : Value) :
  sendsOne recipientId (sendTextMessage recipientId messageText).
Proof. unfold sendTextMessage. one_call. Qed.

Lemma keyword_builder_sendsOne
    (kw : string) (builder : Value -> M unit) (recipientId : Value) :
  In (kw, builder) keyword_builders -> sendsOne recipientId (builder recipientId).
Proof.
  unfold keyword_builders. simpl. intros H.
  repeat (destruct H as [H|H]; [injection H as <- <-|]); try contradiction.
  - unfold sendImageMessage. one_call.
  - unfold sendGifMessage. one_call.
  - unfold sendAudioMessage. one_call.
  - unfold sendVideoMessage. one_call.
  - unfold sendFileMessage. one_call.
  - unfold sendButtonMessage. one_call.
  - unfold sendGenericMessage. one_call.
  - unfold sendReceiptMessage. one_call.
  - unfold sendQuickReply. one_call.
  - unfold sendReadReceipt. one_call.
  - unfold sendTypingOn. one_call.
  - unfold sendTypingOff. one_call.
  - unfold sendAccountLinking. one_call.
Qed.

(** X7. Each of the thirteen keyword builders, and [sendTextMessage], ends
    normally having issued exactly one Send API call: a POST to the Graph
    endpoint with the page access token, whose [recipient.id] is the id the
    builder was given.  It writes no status and draws at most one random
    number. *)
Theorem builders_send_one_call_to_recipient
    (kw : string) (builder : Value -> M unit) (recipientId messageText : Value) :
  In (kw, builder) keyword_builders ->
  sendsOne recipientId (builder recipientId)
  /\ sendsOne recipientId (sendTextMessage recipientId messageText).
Proof.
  intros H. split.
  - apply (keyword_builder_sendsOne kw builder recipientId H).
  - apply sendTextMessage_sendsOne.
Qed.

Lemma rw_sendsOne (recipientId : Value) (m : M unit) :
  sendsOne recipientId m -> repliesWithin 1 (addressed recipientId) m.
Proof.
  intros H w. destruct (H w) as (c & w' & E & S & A & T & _).
  exists [c]. rewrite E. simpl. repeat split; auto.
Qed.

Lemma rw_quiet (n : nat) (ok : OutboundCall -> Prop) (m : M unit) :
  quiet m -> repliesWithin n ok m.
Proof.
  intros H w. destruct (H w) as (S & _ & T). exists []. rewrite S, app_nil_r.
  repeat split; auto. simpl. lia.
Qed.

Lemma rw_bind_get (n : nat) (ok : OutboundCall -> Prop)
    (o : Value) (k : string) (K : Value -> M unit) :
  repliesWithin n ok (K (field o k)) -> repliesWithin n ok (bind (get o k) K).
Proof.
  intros H w. destruct (nullish o) eqn:E.
  - rewrite bind_get_throw by exact E. exists []. simpl. rewrite app_nil_r.
    repeat split; auto. lia.
  - rewrite bind_get by exact E. apply H.
Qed.

Lemma rw_bind_log (n : nat) (ok : OutboundCall -> Prop)
    (args : list LogArg) (K : unit -> M unit) :
  repliesWithin n ok (K tt) -> repliesWithin n ok (bind (console_log args) K).
Proof. intros H w. rewrite bind_console_log. apply (H (logged _ w)). Qed.

Lemma rw_weaken (n n' : nat) (ok ok' : OutboundCall -> Prop) (m : M unit) :
  repliesWithin n ok m -> (n <= n')%nat -> (forall c, ok c -> ok' c) ->
  repliesWithin n' ok' m.
Proof.
  intros H Hn Hok w. destruct (H w) as (extra & S & L & F & T).
  exists extra. repeat split; auto; [lia|].
  eapply Forall_impl; [exact Hok | exact F].
Qed.

Lemma rw_bind (n1 n2 : nat) (ok : OutboundCall -> Prop)
    (m : M unit) (k : unit -> M unit) :
  repliesWithin n1 ok m -> (forall a, repliesWithin n2 ok (k a)) ->
  repliesWithin (n1 + n2) ok (bind m k).
Proof.
  intros Hm Hk w. unfold bind.
  destruct (Hm w) as (e1 & S1 & L1 & F1 & T1).
  destruct (m w) as [[a|e] w1]; simpl in *.
  - destruct (Hk a w1) as (e2 & S2 & L2 & F2 & T2).
    exists (e1 ++ e2)%list. rewrite S2, S1, T2, T1, app_assoc.
    repeat split; auto.
    + rewrite length_app. lia.
    + apply Forall_app. auto.
  - exists e1. repeat split; auto. lia.
Qed.

(** Steps along a handler that keeps the bound of one reply to [rid]. *)
Ltac reply_steps :=
  repeat match goal with
    | |- repliesWithin _ _ (bind (get _ _) _) => apply rw_bind_get; cbv beta
    | |- repliesWithin _ _ (bind (console_log _) _) => apply rw_bind_log
    | |- repliesWithin _ _ (if ?b then _ else _) => destruct b
    | |- repliesWithin _ _ (sendTextMessage _ _) =>
        apply rw_sendsOne, sendTextMessage_sendsOne
    | |- repliesWithin _ _ (?builder ?rid) =>
        apply rw_sendsOne; unfold builder; one_call
    | |- repliesWithin _ _ _ => solve [apply rw_quiet; quiet_steps]
    end.

Lemma receivedMessage_replies (event : Value) :
  repliesWithin 1 (addressed (senderOf event)) (receivedMessage event).
Proof. unfold receivedMessage, senderOf. reply_steps. Qed.

Lemma receivedAuthentication_replies (event : Value) :
  repliesWithin 1 (addressed (senderOf event)) (receivedAuthentication event).
Proof. unfold receivedAuthentication, senderOf. reply_steps. Qed.

Lemma receivedPostback_replies (event : Value) :
  repliesWithin 1 (addressed (senderOf event)) (receivedPostback event).
Proof. unfold receivedPostback, senderOf. reply_steps. Qed.

Lemma onMessagingEvent_replies (event : Value) :
  repliesWithin 1 (addressed (senderOf event)) (onMessagingEvent event).
Proof.
  unfold onMessagingEvent.
  repeat match goal with
    | |- repliesWithin _ _ (bind (get _ _) _) => apply rw_bind_get; cbv beta
    | |- repliesWithin _ _ (if ?b then _ else _) => destruct b
    end.
  - apply receivedAuthentication_replies.
  - apply receivedMessage_replies.
  - apply rw_quiet, receivedDeliveryConfirmation_quiet.
  - apply receivedPostback_replies.
  - apply rw_quiet, receivedMessageRead_quiet.
  - apply rw_quiet, receivedAccountLink_quiet.
  - apply rw_quiet, quiet_console_log.
Qed.

(** X8. Whatever the event (well formed or not, and whether its handler
    returns or throws), the dispatcher issues at most one Send API call for
    it, and that call is addressed to the [sender.id] of the event; it
    never writes a status. *)
Theorem onMessagingEvent_replies_at_most_once_to_sender (event : Value) (w : World) :
  exists extra,
    sent (snd (onMessagingEvent event w)) = (sent w ++ extra)%list
    /\ (length extra <= 1)%nat
    /\ Forall (addressed (senderOf event)) extra
    /\ status (snd (onMessagingEvent event w)) = status w.
Proof. apply onMessagingEvent_replies. Qed.

Lemma toSenderOf_app_l (l1 l2 : list Value) (c : OutboundCall) :
  toSenderOf l1 c -> toSenderOf (l1 ++ l2) c.
Proof. intros (e & I & A). exists e. split; [apply in_or_app; auto | exact A]. Qed.

Lemma toSenderOf_app_r (l1 l2 : list Value) (c : OutboundCall) :
  toSenderOf l2 c -> toSenderOf (l1 ++ l2) c.
Proof. intros (e & I & A). exists e. split; [apply in_or_app; auto | exact A]. Qed.

Lemma forEach_events_replies (events : list Value) :
  repliesWithin (length events) (toSenderOf events)
                (forEachList onMessagingEvent events).
Proof.
  induction events as [|e l IH]; simpl forEachList.
  - apply rw_quiet, quiet_ret.
  - change (length (e :: l)) with (1 + length l)%nat.
    apply rw_bind.
    + apply (rw_weaken 1 1 (addressed (senderOf e))).
      * apply onMessagingEvent_replies.
      * lia.
      * intros c A. exists e. split; [left; reflexivity | exact A].
    + intros _. apply (rw_weaken (length l) (length l) (toSenderOf l));
        [exact IH | lia |].
      intros c. apply (toSenderOf_app_r [e] l).
Qed.

Lemma onPageEntry_replies (pageEntry : Value) :
  repliesWithin (length (elements (field pageEntry "messaging")))
                (toSenderOf (elements (field pageEntry "messaging")))
                (onPageEntry pageEntry).
Proof.
  unfold onPageEntry. do 3 (apply rw_bind_get; cbv beta).
  destruct (field pageEntry "messaging"); simpl;
    try (apply rw_quiet, quiet_throw).
  apply forEach_events_replies.
Qed.

Lemma forEach_entries_replies (entries : list Value) :
  repliesWithin (length (eventsOf (VObj [("entry", VArr entries)])))
                (toSenderOf (eventsOf (VObj [("entry", VArr entries)])))
                (forEachList onPageEntry entries).
Proof.
  unfold eventsOf. change (elements (field (VObj [("entry", VArr entries)]) "entry"))
    with entries.
  induction entries as [|e l IH]; simpl forEachList.
  - apply rw_quiet, quiet_ret.
  - simpl flat_map. rewrite length_app. apply rw_bind.
    + eapply rw_weaken; [apply onPageEntry_replies | lia |].
      intros c. apply toSenderOf_app_l.
    + intros _. eapply rw_weaken; [exact IH | lia |].
      intros c. apply toSenderOf_app_r.
Qed.

Lemma forEach_entry_replies (data : Value) :
  repliesWithin (length (eventsOf data)) (toSenderOf (eventsOf data))
                (forEach (field data "entry") onPageEntry).
Proof.
  unfold eventsOf. destruct (field data "entry") eqn:E; simpl;
    try (apply rw_quiet, quiet_throw).
  apply (forEach_entries_replies elems).
Qed.

(** X9. Whatever the body, POST /webhook issues at most as many Send API
    calls as the envelope has messaging events, and each call is addressed
    to the [sender.id] of one of those events: no event is answered twice
    and nobody but a sender is written to. *)
Theorem post_webhook_replies_bounded_by_events (data : Value) (w : World) :
  exists extra,
    sent (snd (post_webhook data w)) = (sent w ++ extra)%list
    /\ (length extra <= length (eventsOf data))%nat
    /\ Forall (toSenderOf (eventsOf data)) extra.
Proof.
  assert (exists extra,
            sent w = (sent w ++ extra)%list
            /\ (length extra <= length (eventsOf data))%nat
            /\ Forall (toSenderOf (eventsOf data)) extra) as Nil.
  { exists []. rewrite app_nil_r. repeat split; auto. simpl. lia. }
  unfold post_webhook.
  destruct (nullish data) eqn:Hd; [rewrite bind_get_throw by exact Hd; exact Nil|].
  reads. unfold bind at 1, lift.
  destruct (looseEq_page (field data "object")) as [[|]|e]; simpl; try exact Nil.
  reads. unfold bind.
  destruct (forEach_entry_replies data w) as (extra & S & L & F & _).
  destruct (forEach (field data "entry") onPageEntry w) as [[[]|e] w1];
    simpl in *; exists extra; auto.
Qed.

(** X10. POST /webhook writes a status, and then 200, exactly when the
    comparison with ['page'] is true and the iteration over the entries
    returns.  A body that is [null] or for which the comparison throws ends
    the request with that exception, a body for which the comparison is
    false returns, both with the world as it was.  The iteration itself
    never writes a status, and an exception of it, so of any handler, is the
    exception of the request: the world is the one the handler left and no
    status is written. *)
Theorem post_webhook_status_iff_completed (data : Value) (w : World) :
  let iteration := forEach (field data "entry") onPageEntry w in
  (nullish data = true -> post_webhook data w = (Throw TypeError, w))
  /\ (nullish data = false ->
      match looseEq_page (field data "object") with
      | Throw e => post_webhook data w = (Throw e, w)
      | Normal false => post_webhook data w = (Normal tt, w)
      | Normal true =>
          match iteration with
          | (Normal _, w') =>
              post_webhook data w
              = (Normal tt, mkWorld (sent w') (console w') (draws w') (Some 200%Z))
          | (Throw e, w') => post_webhook data w = (Throw e, w')
          end
      end)
  /\ status (snd iteration) = status w
  /\ status (snd (post_webhook data w))
     = match looseEq_page (field data "object"), fst iteration with
       | Normal true, Normal _ => Some 200%Z
       | _, _ => status w
       end
  /\ (forall before event after e w1 w2,
        field data "object" = VStr "page" ->
        isArray (field data "entry") = true ->
        (forall entry, In entry (elements (field data "entry")) ->
           nullish entry = false /\ isArray (field entry "messaging") = true) ->
        eventsOf data = (before ++ event :: after)%list ->
        forEachList onMessagingEvent before w = (Normal tt, w1) ->
        onMessagingEvent event w1 = (Throw e, w2) ->
        post_webhook data w = (Throw e, w2) /\ status w2 = status w).
Proof.
  intros iteration.
  destruct (forEach_entry_replies data w) as (extra & _ & _ & _ & T).
  fold iteration in T.
  assert (nullish data = false ->
      match looseEq_page (field data "object") with
      | Throw e => post_webhook data w = (Throw e, w)
      | Normal false => post_webhook data w = (Normal tt, w)
      | Normal true =>
          match iteration with
          | (Normal _, w') =>
              post_webhook data w
              = (Normal tt, mkWorld (sent w') (console w') (draws w') (Some 200%Z))
          | (Throw e, w') => post_webhook data w = (Throw e, w')
          end
      end) as Cases.
  { intros Hd.
    destruct (looseEq_page (field data "object")) as [[|]|e] eqn:L.
    - rewrite (post_webhook_page data w L). unfold bind. fold iteration.
      destruct iteration as [[[]|e] w']; reflexivity.
    - unfold post_webhook. reads. unfold bind, lift. rewrite L. reflexivity.
    - unfold post_webhook. reads. unfold bind, lift. rewrite L. reflexivity. }
  split; [|split; [exact Cases|split; [exact T|split]]].
  - intros Hd. unfold post_webhook. apply bind_get_throw. exact Hd.
  - destruct (nullish data) eqn:Hd.
    + unfold post_webhook. rewrite bind_get_throw by exact Hd.
      destruct data; try discriminate; reflexivity.
    + specialize (Cases eq_refl).
      destruct (looseEq_page (field data "object")) as [[|]|e];
        try (rewrite Cases; reflexivity).
      destruct iteration as [[[]|e] w']; rewrite Cases; simpl in *;
        [reflexivity | exact T].
  - intros before event after e w1 w2 Hp Ha He Hev H1 H2.
    rewrite (post_webhook_events data w Hp Ha He), Hev.
    unfold bind. rewrite forEachList_app.
    unfold bind. rewrite H1. simpl. unfold bind. rewrite H2.
    split; [reflexivity|].
    destruct (forEach_events_replies before w) as (x1 & _ & _ & _ & T1).
    destruct (onMessagingEvent_replies event w1) as (x2 & _ & _ & _ & T2).
    rewrite H1 in T1. rewrite H2 in T2. simpl in *. congruence.
Qed.

(** X11. A page envelope whose [entry] is not a list, or whose first entry
    has a [messaging] that is not a list, makes the handler throw a
    TypeError before anything is dispatched: nothing is logged or sent and
    no status is written. *)
Theorem page_envelope_without_lists_throws (data : Value) (w : World) :
  field data "object" = VStr "page" ->
  (isArray (field data "entry") = false ->
     post_webhook data w = (Throw TypeError, w))
  /\ (forall pageEntry rest,
        field data "entry" = VArr (pageEntry :: rest) ->
        isArray (field pageEntry "messaging") = false ->
        post_webhook data w = (Throw TypeError, w)).
Proof.
  intros Hp.
  assert (looseEq_page (field data "object") = Normal true) as L
    by (rewrite Hp; reflexivity).
  split.
  - intros Ha. rewrite (post_webhook_page data w L). unfold bind.
    destruct (field data "entry"); try discriminate; reflexivity.
  - intros pageEntry rest E Hm. rewrite (post_webhook_page data w L), E.
    simpl. unfold bind.
    assert (onPageEntry pageEntry w = (Throw TypeError, w)) as T.
    { unfold onPageEntry. destruct (nullish pageEntry) eqn:Hn;
        [apply bind_get_throw; exact Hn|].
      reads. destruct (field pageEntry "messaging"); try discriminate;
        reflexivity. }
    rewrite T. reflexivity.
Qed.

(** ** Events that lack a sender *)

Ltac throws_early event H :=
  let He := fresh "He" in
  let Hs := fresh "Hs" in
  destruct (nullish event) eqn:He; [apply bind_get_throw; exact He|];
  rewrite bind_get by exact He; cbv beta;
  destruct (nullish (field event "sender")) eqn:Hs;
    [apply bind_get_throw; exact Hs|];
  reads; simpl in H; apply bind_get_throw; exact H.

Lemma receivedAuthentication_throws (event : Value) (w : World) :
  nullish (field event "sender") || nullish (field event "recipient") = true ->
  receivedAuthentication event w = (Throw TypeError, w).
Proof. intros H. unfold receivedAuthentication. throws_early event H. Qed.

Lemma receivedDeliveryConfirmation_throws (event : Value) (w : World) :
  nullish (field event "sender") || nullish (field event "recipient") = true ->
  receivedDeliveryConfirmation event w = (Throw TypeError, w).
Proof. intros H. unfold receivedDeliveryConfirmation. throws_early event H. Qed.

Lemma receivedPostback_throws (event : Value) (w : World) :
  nullish (field event "sender") || nullish (field event "recipient") = true ->
  receivedPostback event w = (Throw TypeError, w).
Proof. intros H. unfold receivedPostback. throws_early event H. Qed.

Lemma receivedMessageRead_throws (event : Value) (w : World) :
  nullish (field event "sender") || nullish (field event "recipient") = true ->
  receivedMessageRead event w = (Throw TypeError, w).
Proof. intros H. unfold receivedMessageRead. throws_early event H. Qed.

Lemma receivedAccountLink_throws (event : Value) (w : World) :
  nullish (field event "sender") || nullish (field event "recipient") = true ->
  receivedAccountLink event w = (Throw TypeError, w).
Proof. intros H. unfold receivedAccountLink. throws_early event H. Qed.

Lemma handled_not_nullish (event : Value) :
  handled event = true -> nullish event = false.
Proof. destruct event; simpl; intros H; try discriminate; reflexivity. Qed.

Lemma onMessagingEvent_throws (event : Value) (w : World) :
  handled event = true ->
  nullish (field event "sender") || nullish (field event "recipient") = true ->
  onMessagingEvent event w = (Throw TypeError, w).
Proof.
  intros Hh Hs.
  rewrite (onMessagingEvent_run event w (handled_not_nullish event Hh)).
  unfold handled in Hh.
  destruct (present event "optin"); [apply receivedAuthentication_throws, Hs|].
  destruct (present event "message"); [apply receivedMessage_throws, Hs|].
  destruct (present event "delivery");
    [apply receivedDeliveryConfirmation_throws, Hs|].
  destruct (present event "postback"); [apply receivedPostback_throws, Hs|].
  destruct (present event "read"); [apply receivedMessageRead_throws, Hs|].
  destruct (present event "account_linking");
    [apply receivedAccountLink_throws, Hs|].
  discriminate.
Qed.

(** X12. An event that selects a handler but has no [sender] or no
    [recipient] object makes the dispatcher throw a TypeError before
    anything is logged or sent, and the exception ends the batch: the
    events before it keep their effects, the events after it are never
    dispatched. *)
Theorem event_without_sender_aborts_batch
    (event : Value) (before rest : list Value) (w w1 : World) :
  handled event = true ->
  nullish (field event "sender") || nullish (field event "recipient") = true ->
  onMessagingEvent event w = (Throw TypeError, w)
  /\ (forEachList onMessagingEvent before w = (Normal tt, w1) ->
      forEachList onMessagingEvent (before ++ event :: rest) w
      = (Throw TypeError, w1)).
Proof.
  intros Hh Hs. split; [apply onMessagingEvent_throws; assumption|].
  intros B. rewrite forEachList_app. unfold bind at 1. rewrite B.
  simpl. unfold bind. rewrite (onMessagingEvent_throws event w1 Hh Hs).
  reflexivity.
Qed.

(** ** Console lines of a delivery, and messages without content *)

Lemma deliveryLogged_world (ids : list Value) (w : World) :
  deliveryLogged ids w
  = mkWorld (sent w) (console w ++ map deliveryLine ids) (draws w) (status w).
Proof.
  unfold deliveryLogged. revert w.
  induction ids as [|x l IH]; intros w; simpl.
  - rewrite app_nil_r. destruct w; reflexivity.
  - rewrite IH. unfold logged. simpl. rewrite <- app_assoc. reflexivity.
Qed.

(** X13. On a delivery event shaped as the platform sends it the handler
    writes one console line per message id, in the order of [mids], and
    then the watermark line; without [mids] it writes the watermark line
    alone.  It returns and sends nothing. *)
Theorem delivery_confirmation_console_lines (event : Value) (w : World) :
  nullish (field event "sender") = false ->
  nullish (field event "recipient") = false ->
  nullish (field event "delivery") = false ->
  let mids := field (field event "delivery") "mids" in
  truthy mids = false \/ isArray mids = true ->
  receivedDeliveryConfirmation event w
  = (Normal tt,
     mkWorld (sent w)
             (console w
              ++ map deliveryLine (if truthy mids then elements mids else [])
              ++ [ConsoleLog [LVal (VStr "All message before %d were delivered.");
                              LVal (field (field event "delivery") "watermark")]])
             (draws w) (status w)).
Proof.
  intros Hs Hr Hd mids Hm.
  rewrite (receivedDeliveryConfirmation_run event w Hs Hr Hd Hm).
  fold mids. rewrite deliveryLogged_world. unfold logged. simpl.
  rewrite <- app_assoc. reflexivity.
Qed.

(** X14. A message that is no echo and has no quick reply, no text (or the
    empty text) and no attachments gets no reply: the handler writes its two
    console lines and returns. *)
Theorem message_without_content_gets_no_reply (event : Value) (w : World) :
  nullish (field event "sender") = false ->
  nullish (field event "recipient") = false ->
  let message := field event "message" in
  nullish message = false ->
  truthy (field message "is_echo") = false ->
  truthy (field message "quick_reply") = false ->
  truthy (field message "text") = false ->
  truthy (field message "attachments") = false ->
  receivedMessage event w = (Normal tt, messageLogged event w).
Proof.
  intros Hs Hr message Hm He Hq Ht Ha.
  rewrite (receivedMessage_run event w Hs Hr Hm). cbv zeta.
  fold message. rewrite He, Hq, Ht, Ha. reflexivity.
Qed.

(** ** The receipt number *)

Lemma floor_thousand_range (r : Q) :
  0 <= r /\ r < 1 -> round_binary64 r == r ->
  (0 <= Math_floor (Number_mul r 1000) <= 999)%Z.
Proof.
  intros [H0 H1] Hd. unfold Math_floor.
  assert (0 <= Qfloor (Number_mul r (inject_Z 1000)) < 1000)%Z as B
    by (apply floor_product_range; [lia | assumption ..]).
  change (inject_Z 1000) with 1000 in B. lia.
Qed.

(** X15. [sendReceiptMessage] uses one random draw r and sends one receipt
    whose [order_number] is ["order"] followed by the printed integer
    [Math.floor(r * 1000)], the floor of the product as a double, a number
    from 0 to 999. *)
Theorem sendReceiptMessage_order_number_in_range (recipientId : Value) (w : World) :
  let n := Math_floor (Number_mul (Math_random (draws w)) 1000) in
  (0 <= n <= 999)%Z
  /\ exists c,
       sendReceiptMessage recipientId w
       = (Normal tt,
          mkWorld (sent w ++ [c])%list (console w) (S (draws w)) (status w))
       /\ field (field (field (field (json c) "message") "attachment") "payload")
                "order_number"
          = VStr ("order" ++ Number_toString (inject_Z n))
       /\ field (field (json c) "recipient") "id" = recipientId.
Proof.
  intros n.
  split; [apply floor_thousand_range;
          [apply Math_random_range | apply Math_random_double]|].
  eexists. split; [|split].
  - unfold sendReceiptMessage, bind, Math_random_call, callSendAPI. reflexivity.
  - reflexivity.
  - reflexivity.
Qed.

(** ** More on the signature check *)

Lemma verifyRequestSignature_quiet (req : Request) (buf : string) :
  quiet (verifyRequestSignature req buf).
Proof.
  intros w. unfold verifyRequestSignature.
  destruct (header (headers req) "x-hub-signature") as [sig|]; [|simpl; auto].
  destruct (String.eqb sig EmptyString); [simpl; auto|].
  match goal with |- context [if ?b then _ else _] => destruct b end;
    simpl; auto.
Qed.

(** X16. The method tag of the header is not looked at: two requests with
    the same body and the same digest are treated alike whatever stands
    before the ['='] (["sha1"], ["md5"], nothing). *)
Theorem signature_method_tag_is_ignored
    (req1 req2 : Request) (meth1 meth2 digest : string) (w : World) :
  header (headers req1) "x-hub-signature" = Some (meth1 ++ "=" ++ digest) ->
  header (headers req2) "x-hub-signature" = Some (meth2 ++ "=" ++ digest) ->
  occurs "=" meth1 = false ->
  occurs "=" meth2 = false ->
  occurs "=" digest = false ->
  rawBody req1 = rawBody req2 ->
  verifyRequestSignature req1 (rawBody req1) w
  = verifyRequestSignature req2 (rawBody req2) w.
Proof.
  intros H1 H2 M1 M2 D B.
  rewrite (verify_method_digest req1 meth1 digest w H1 M1 D).
  rewrite (verify_method_digest req2 meth2 digest w H2 M2 D).
  rewrite B. reflexivity.
Qed.

(** X17. The header outside the form [method=digest]: an empty value is
    treated as a missing header (one error line, the request goes on); a
    non-empty value without ['='] is rejected; and what follows a second
    ['='] takes no part in the comparison. *)
Theorem signature_header_edge_forms (req : Request) (w : World) :
  let hash := hmac_sha1_hex APP_SECRET (rawBody req) in
  let check := verifyRequestSignature req (rawBody req) w in
  let thrown := (Throw (Error "Couldn't validate the request signature."), w) in
  (header (headers req) "x-hub-signature" = Some EmptyString ->
     check = (Normal tt,
              logged (ConsoleError [LVal (VStr "Couldn't validate the signature.")]) w))
  /\ (forall sig, header (headers req) "x-hub-signature" = Some sig ->
        sig <> EmptyString -> occurs "=" sig = false ->
        check = thrown)
  /\ (forall meth digest rest,
        header (headers req) "x-hub-signature"
        = Some (meth ++ "=" ++ digest ++ "=" ++ rest) ->
        occurs "=" meth = false -> occurs "=" digest = false ->
        check = if String.eqb digest hash then (Normal tt, w) else thrown).
Proof.
  cbv zeta. split; [apply verify_empty_header|]. split.
  - intros sig. apply verify_header_without_separator.
  - intros meth digest rest. apply verify_ignores_third_element.
Qed.

(** X18. The check never issues a Send API call, draws no number and writes
    no status.  The only exception it throws is its own [Error], and then
    the world is as it was; when it returns it has written nothing or the
    one error line of the missing header. *)
Theorem verifyRequestSignature_effects (req : Request) (buf : string) (w : World) :
  quiet (verifyRequestSignature req buf)
  /\ match verifyRequestSignature req buf w with
     | (Throw e, w') =>
         e = Error "Couldn't validate the request signature." /\ w' = w
     | (Normal tt, w') =>
         w' = w
         \/ w' = logged (ConsoleError
                           [LVal (VStr "Couldn't validate the signature.")]) w
     end.
Proof.
  split; [apply verifyRequestSignature_quiet|].
  unfold verifyRequestSignature.
  destruct (header (headers req) "x-hub-signature") as [sig|]; [|simpl; auto].
  destruct (String.eqb sig EmptyString); [simpl; auto|].
  match goal with |- context [if ?b then _ else _] => destruct b end;
    simpl; auto.
Qed.

(** ** What the comparison with ['page'] accepts *)

Lemma occurs_append (c : ascii) (a b : string) :
  occurs c (a ++ String c b) = true.
Proof.
  induction a as [|d a IH]; simpl.
  - rewrite Ascii.eqb_refl. reflexivity.
  - rewrite IH. apply orb_true_r.
Qed.

Lemma joined_is_not_page (a b : string) :
  String.eqb (a ++ "," ++ b) "page" = false.
Proof.
  apply String.eqb_neq. intros E.
  pose proof (occurs_append "," a b) as O.
  change (a ++ String "," b) with (a ++ "," ++ b) in O.
  rewrite E in O. discriminate O.
Qed.

Lemma ToString_singleton (x : Value) :
  ToString (VArr [x])
  = match x with
    | VUndefined | VNull => Normal EmptyString
    | _ => ToString x
    end.
Proof.
  change (ToString (VArr [x])) with
    (match (match x with
            | VUndefined | VNull => Normal EmptyString
            | _ => ToString x
            end) with
     | Throw e => Throw e
     | Normal s => Normal s
     end).
  destruct (match x with
            | VUndefined | VNull => Normal EmptyString
            | _ => ToString x
            end); reflexivity.
Qed.

Lemma ToString_longer (x y : Value) (r : list Value) :
  ToString (VArr (x :: y :: r))
  = match (match x with
           | VUndefined | VNull => Normal EmptyString
           | _ => ToString x
           end) with
    | Throw e => Throw e
    | Normal s =>
        match ToString (VArr (y :: r)) with
        | Throw e => Throw e
        | Normal t => Normal (s ++ "," ++ t)
        end
    end.
Proof. reflexivity. Qed.

(** X20. The comparison [data.object == 'page'] accepts the string
    ["page"] and, besides it, only a one-element list whose element is
    itself accepted (the list prints as its element); no number, boolean,
    [null], missing field, object or longer list passes. *)
Theorem page_comparison_accepts_only_page (v : Value) :
  (forall q, Number_toString q <> "page") ->
  looseEq_page v = Normal true ->
  v = VStr "page"
  \/ exists x, v = VArr [x] /\ looseEq_page x = Normal true.
Proof.
  intros Hn H. unfold looseEq_page in H.
  destruct v as [| |b|q|s|l|props]; try discriminate.
  - injection H as H. apply String.eqb_eq in H. left. subst. reflexivity.
  - right. destruct l as [|x [|y r]].
    + discriminate.
    + exists x. split; [reflexivity|].
      rewrite ToString_singleton in H. unfold looseEq_page.
      destruct x as [| |b|q|s|l'|props]; try discriminate; try exact H.
      * destruct b; discriminate.
      * injection H as H. apply String.eqb_eq in H. destruct (Hn q H).
    + exfalso. rewrite ToString_longer in H.
      destruct (match x with
                | VUndefined | VNull => Normal EmptyString
                | _ => ToString x
                end) as [s|e]; [|discriminate].
      destruct (ToString (VArr (y :: r))) as [t|e]; [|discriminate].
      rewrite joined_is_not_page in H. discriminate.
  - simpl in H. destruct (own props "toString"); discriminate.
Qed.

End App.

(** ** The statements at sample inputs *)

Lemma constant_draw_range (q : Q) :
  0 <= q /\ q < 1 ->
  forall n, 0 <= Sample.constant_draw q n /\ Sample.constant_draw q n < 1.
Proof. intros H n. exact H. Qed.

Lemma alternating_draw_range (n : nat) :
  0 <= Sample.alternating_draw n /\ Sample.alternating_draw n < 1.
Proof.
  unfold Sample.alternating_draw. destruct (Nat.even n);
    unfold Qle, Qlt; simpl; lia.
Qed.

Lemma eighth_entry_draw_range (n : nat) :
  0 <= Sample.constant_draw (1 # 16) n /\ Sample.constant_draw (1 # 16) n < 1.
Proof. unfold Sample.constant_draw, Qle, Qlt; simpl; lia. Qed.

(** The sample draws are doubles. *)
Lemma constant_draw_double (q : Q) :
  round_binary64 q == q ->
  forall n, round_binary64 (Sample.constant_draw q n) == Sample.constant_draw q n.
Proof. intros H n. exact H. Qed.

Lemma alternating_draw_double (n : nat) :
  round_binary64 (Sample.alternating_draw n) == Sample.alternating_draw n.
Proof.
  unfold Sample.alternating_draw. destruct (Nat.even n); vm_compute; reflexivity.
Qed.

Lemma eighth_entry_draw_double (n : nat) :
  round_binary64 (Sample.constant_draw (1 # 16) n)
  == Sample.constant_draw (1 # 16) n.
Proof. vm_compute. reflexivity. Qed.

(** The products of [getRandomFact] and [sendReceiptMessage] are rounded:
    at these two doubles the exact products lie just below 8 and 119, and
    the doubles nearest to them are 8 and 119. *)
Example rounded_product_reaches_next_index :
  let r := 270893210668902 # 4503599627370496 in
  round_binary64 r == r
  /\ Qfloor (r * 133) = 7%Z
  /\ factIndex r = 8%Z.
Proof. vm_compute. repeat split; reflexivity. Qed.

Example rounded_product_reaches_next_order_number :
  let r := 535928355657089 # 4503599627370496 in
  round_binary64 r == r
  /\ Qfloor (r * 1000) = 118%Z
  /\ Math_floor (Number_mul r 1000) = 119%Z.
Proof. vm_compute. repeat split; reflexivity. Qed.

(** A number of [0, 1) that is no double can round up to the bound: the
    range of the index rests on the draw being a double. *)
Example range_needs_a_double :
  let r := 1 - (1 # 1152921504606846976) in
  0 <= r /\ r < 1 /\ ~ round_binary64 r == r /\ factIndex r = 133%Z.
Proof. vm_compute. repeat split; try reflexivity; discriminate. Qed.

(** A header with a wrong digest ends the request with the error and the
    world as it was; the header with the right digest lets the parsed body
    through to the route handler. *)
Lemma verifyRequestSignature_mismatch_aborts_witness :
  let bad := Sample.request [("x-hub-signature", "sha1=0000")] in
  let good := Sample.request [("x-hub-signature", "sha1=" ++ Sample.digest)] in
  let run :=
    handle_post_webhook Sample.secret Sample.pageToken Sample.serverURL
      Sample.hmac Sample.parse (Sample.constant_draw 0) Sample.integer_toString in
  (header (headers bad) "x-hub-signature" = Some ("sha1" ++ "=" ++ "0000")
   /\ occurs "=" "sha1" = false /\ occurs "=" "0000" = false
   /\ "0000" <> Sample.hmac Sample.secret (rawBody bad)
   /\ run bad Sample.world0
      = (Throw (Error "Couldn't validate the request signature."), Sample.world0))
  /\ (header (headers good) "x-hub-signature"
      = Some ("sha1" ++ "=" ++ Sample.digest)
      /\ occurs "=" Sample.digest = false
      /\ run good Sample.world0
         = match Sample.parse (rawBody good) with
           | Some body =>
               post_webhook Sample.pageToken Sample.serverURL
                 (Sample.constant_draw 0) Sample.integer_toString body Sample.world0
           | None => (Throw SyntaxError, Sample.world0)
           end).
Proof.
  intros bad good run.
  assert ("0000" <> Sample.hmac Sample.secret (rawBody bad)) as Hne
    by (vm_compute; discriminate).
  split.
  - split; [reflexivity|]. split; [reflexivity|]. split; [reflexivity|].
    split; [exact Hne|].
    exact (proj1 (proj2 (proj1
      (verifyRequestSignature_mismatch_aborts
         Sample.secret Sample.pageToken Sample.serverURL Sample.hmac Sample.parse
         (Sample.constant_draw 0) Sample.integer_toString
         bad "sha1" "0000" Sample.world0 eq_refl eq_refl eq_refl) Hne))).
  - split; [reflexivity|]. split; [reflexivity|].
    exact (proj2 (proj2
      (verifyRequestSignature_mismatch_aborts
         Sample.secret Sample.pageToken Sample.serverURL Sample.hmac Sample.parse
         (Sample.constant_draw 0) Sample.integer_toString
         good "sha1" Sample.digest Sample.world0 eq_refl eq_refl eq_refl)
      eq_refl)).
Defined.

(** A request without the header is logged and dispatched. *)
Lemma verifyRequestSignature_absent_header_witness :
  let req := Sample.request [("content-type", "application/json")] in
  let w1 :=
    logged (ConsoleError [LVal (VStr "Couldn't validate the signature.")])
           Sample.world0 in
  header (headers req) "x-hub-signature" = None
  /\ verifyRequestSignature Sample.secret Sample.hmac req (rawBody req) Sample.world0
     = (Normal tt, w1)
  /\ handle_post_webhook Sample.secret Sample.pageToken Sample.serverURL
       Sample.hmac Sample.parse (Sample.constant_draw 0) Sample.integer_toString
       req Sample.world0
     = match Sample.parse (rawBody req) with
       | Some body =>
           post_webhook Sample.pageToken Sample.serverURL
             (Sample.constant_draw 0) Sample.integer_toString body w1
       | None => (Throw SyntaxError, w1)
       end.
Proof.
  intros req w1. split; [reflexivity|].
  exact (verifyRequestSignature_absent_header_continues
           Sample.secret Sample.pageToken Sample.serverURL Sample.hmac Sample.parse
           (Sample.constant_draw 0) Sample.integer_toString
           req Sample.world0 eq_refl).
Defined.

(** The scenario of the omitted header: the ["button"] envelope still
    produces its one Send API call, and the status 200. *)
Example absent_header_still_dispatches :
  let req := Sample.request [] in
  let w' :=
    snd (handle_post_webhook Sample.secret Sample.pageToken Sample.serverURL
           Sample.hmac Sample.parse (Sample.constant_draw 0)
           Sample.integer_toString req Sample.world0) in
  map (fun c => field (field (field (field (json c) "message") "attachment")
                             "payload") "template_type") (sent w')
  = [VStr "button"]
  /\ status w' = Some 200%Z.
Proof. vm_compute. split; reflexivity. Qed.

(** The ["button"] event selects [sendButtonMessage]. *)
Lemma keyword_selects_named_builder_witness :
  let event := Sample.event (Sample.text "button") in
  let builder := sendButtonMessage Sample.pageToken in
  In ("button", builder)
     (keyword_builders Sample.pageToken Sample.serverURL (Sample.constant_draw 0)
                       Sample.integer_toString)
  /\ nullish (field event "sender") = false
  /\ nullish (field event "recipient") = false
  /\ truthy (field (field event "message") "is_echo") = false
  /\ truthy (field (field event "message") "quick_reply") = false
  /\ field (field event "message") "text" = VStr "button"
  /\ receivedMessage Sample.pageToken Sample.serverURL (Sample.constant_draw 0)
       Sample.integer_toString event Sample.world0
     = builder (field (field event "sender") "id")
               (messageLogged event Sample.world0).
Proof.
  intros event builder.
  assert (In ("button", builder)
            (keyword_builders Sample.pageToken Sample.serverURL
               (Sample.constant_draw 0) Sample.integer_toString)) as Hin
    by (simpl; tauto).
  split; [exact Hin|]. repeat (split; [reflexivity|]).
  exact (proj1
    (keyword_selects_named_builder
       Sample.pageToken Sample.serverURL (Sample.constant_draw 0)
       Sample.integer_toString event "button" builder Sample.world0
       Hin eq_refl eq_refl eq_refl eq_refl eq_refl)).
Defined.

(** The two keyword scenarios, through the route handler. *)
Example button_scenario :
  let data := Sample.envelope (VStr "page") [Sample.event (Sample.text "button")] in
  let w' :=
    snd (post_webhook Sample.pageToken Sample.serverURL (Sample.constant_draw 0)
           Sample.integer_toString data Sample.world0) in
  map (fun c => field (field (field (field (json c) "message") "attachment")
                             "payload") "template_type") (sent w')
  = [VStr "button"]
  /\ status w' = Some 200%Z.
Proof. vm_compute. split; reflexivity. Qed.

Example image_scenario :
  let data := Sample.envelope (VStr "page") [Sample.event (Sample.text "image")] in
  let w' :=
    snd (post_webhook Sample.pageToken Sample.serverURL (Sample.constant_draw 0)
           Sample.integer_toString data Sample.world0) in
  map (fun c => (field (field (field (json c) "message") "attachment") "type",
                 field (field (field (field (json c) "message") "attachment")
                              "payload") "url")) (sent w')
  = [(VStr "image", VStr (Sample.serverURL ++ "/assets/rift.png"))]
  /\ status w' = Some 200%Z.
Proof. vm_compute. split; reflexivity. Qed.

(** The match is case-sensitive: ["Button"] is no keyword and gets the
    default text reply. *)
Example keyword_match_is_case_sensitive :
  let event := Sample.event (Sample.text "Button") in
  let w' :=
    snd (receivedMessage Sample.pageToken Sample.serverURL (Sample.constant_draw 0)
           Sample.integer_toString event Sample.world0) in
  isKeyword Sample.pageToken Sample.serverURL (Sample.constant_draw 0)
            Sample.integer_toString (VStr "Button") = false
  /\ map (fun c => field (field (json c) "message") "metadata") (sent w')
     = [VStr "DEVELOPER_DEFINED_METADATA"].
Proof. vm_compute. split; reflexivity. Qed.

(** C2 as stated fails: the incoming text is no keyword, and with the draw
    1/16 (entry 8 of the table, as 133/16 = 8.3125) the reply is that very
    text. *)
Lemma default_reply_equals_incoming_text :
  let incoming := "Cats make about 100 different sounds" in
  let event := Sample.event (Sample.text incoming) in
  let w' :=
    snd (receivedMessage Sample.pageToken Sample.serverURL
           (Sample.constant_draw (1 # 16)) Sample.integer_toString
           event Sample.world0) in
  isKeyword Sample.pageToken Sample.serverURL (Sample.constant_draw (1 # 16))
            Sample.integer_toString (field (field event "message") "text") = false
  /\ truthy (field (field event "message") "is_echo") = false
  /\ truthy (field (field event "message") "quick_reply") = false
  /\ map (fun c => field (field (json c) "message") "text") (sent w')
     = [field (field event "message") "text"].
Proof. vm_compute. repeat split; reflexivity. Qed.

(** The input ["hello"], with the draw of the first entry. *)
Lemma default_text_reply_is_drawn_fact_witness :
  let event := Sample.event (Sample.text "hello") in
  let draw := Sample.constant_draw 0 in
  let senderID := field (field event "sender") "id" in
  (forall n, 0 <= draw n /\ draw n < 1)
  /\ (forall n, round_binary64 (draw n) == draw n)
  /\ nullish (field event "sender") = false
  /\ nullish (field event "recipient") = false
  /\ truthy (field (field event "message") "is_echo") = false
  /\ truthy (field (field event "message") "quick_reply") = false
  /\ truthy (field (field event "message") "text") = true
  /\ isKeyword Sample.pageToken Sample.serverURL draw Sample.integer_toString
       (field (field event "message") "text") = false
  /\ (forall f, In f facts -> field (field event "message") "text" <> VStr f)
  /\ receivedMessage Sample.pageToken Sample.serverURL draw
       Sample.integer_toString event Sample.world0
     = (Normal tt,
        afterText Sample.pageToken draw senderID (messageLogged event Sample.world0))
  /\ field (field (textPayload draw senderID Sample.world0) "message") "text"
     <> VStr "hello".
Proof.
  intros event draw senderID.
  assert (forall n, 0 <= draw n /\ draw n < 1) as Hr
    by (apply constant_draw_range; unfold Qle, Qlt; simpl; lia).
  assert (forall n, round_binary64 (draw n) == draw n) as Hd
    by (apply constant_draw_double; vm_compute; reflexivity).
  assert (forall f, In f facts -> field (field event "message") "text" <> VStr f)
    as Hout.
  { intros f Hf E. injection E as E. subst f.
    assert (forallb (fun f => negb (String.eqb f "hello")) facts = true) as A
      by (vm_compute; reflexivity).
    rewrite forallb_forall in A. specialize (A _ Hf). discriminate A. }
  pose proof (default_text_reply_is_drawn_fact
                Sample.pageToken Sample.serverURL draw Hr Hd Sample.integer_toString
                event Sample.world0 eq_refl eq_refl eq_refl eq_refl eq_refl eq_refl)
    as T.
  split; [exact Hr|]. split; [exact Hd|]. repeat (split; [reflexivity|]).
  split; [exact Hout|]. split; [exact (proj1 T)|].
  exact (proj2 (proj2 (proj2 (proj2 (proj2 T)))) Hout).
Defined.

(** C4, at an attachment event handled twice.  The handler hands the
    acknowledgment ["Message with attachment received"] to
    [sendTextMessage], which drops it: the two replies are two different
    entries of the fact table, neither of them the acknowledgment. *)
Lemma attachment_replies_differ :
  let event :=
    Sample.event (VObj [("attachments", VArr [VObj [("type", VStr "image")]])]) in
  let handler :=
    receivedMessage Sample.pageToken Sample.serverURL Sample.alternating_draw
                    Sample.integer_toString in
  let w' := snd (forEachList handler [event; event] Sample.world0) in
  truthy (field (field event "message") "is_echo") = false
  /\ truthy (field (field event "message") "quick_reply") = false
  /\ truthy (field (field event "message") "text") = false
  /\ truthy (field (field event "message") "attachments") = true
  /\ map (fun c => field (field (json c) "message") "text") (sent w')
     = [VStr "Every year, nearly four million cats are eaten in Asia";
        VStr "Call them wide-eyes: cats are the mammals with the largest eyes"]
  /\ ~ In (VStr "Message with attachment received")
          (map (fun c => field (field (json c) "message") "text") (sent w'))
  /\ handler event Sample.world0
     = sendTextMessage Sample.pageToken Sample.alternating_draw (VStr "U")
         (VStr "Message with attachment received")
         (messageLogged event Sample.world0).
Proof.
  vm_compute. repeat (split; [reflexivity|]).
  split; [|reflexivity].
  intros [H|[H|[]]]; discriminate H.
Qed.

Lemma attachment_reply_is_drawn_fact_witness :
  let event :=
    Sample.event (VObj [("attachments", VArr [VObj [("type", VStr "image")]])]) in
  let senderID := field (field event "sender") "id" in
  (forall n, 0 <= Sample.alternating_draw n /\ Sample.alternating_draw n < 1)
  /\ (forall n, round_binary64 (Sample.alternating_draw n)
                == Sample.alternating_draw n)
  /\ nullish (field event "sender") = false
  /\ nullish (field event "recipient") = false
  /\ truthy (field (field event "message") "is_echo") = false
  /\ truthy (field (field event "message") "quick_reply") = false
  /\ truthy (field (field event "message") "text") = false
  /\ truthy (field (field event "message") "attachments") = true
  /\ receivedMessage Sample.pageToken Sample.serverURL Sample.alternating_draw
       Sample.integer_toString event Sample.world0
     = (Normal tt,
        afterText Sample.pageToken Sample.alternating_draw senderID
                  (messageLogged event Sample.world0)).
Proof.
  intros event senderID.
  split; [exact alternating_draw_range|].
  split; [exact alternating_draw_double|]. repeat (split; [reflexivity|]).
  exact (proj1 (proj2
    (attachment_reply_is_drawn_fact
       Sample.pageToken Sample.serverURL Sample.alternating_draw
       alternating_draw_range alternating_draw_double
       Sample.integer_toString event Sample.world0
       eq_refl eq_refl eq_refl eq_refl eq_refl eq_refl))).
Defined.

(** An echo that also carries a text, attachments and a quick reply. *)
Lemma echo_message_sends_nothing_witness :
  let event :=
    Sample.event (VObj [("is_echo", VBool true); ("text", VStr "button");
                        ("attachments", VArr [VNull]);
                        ("quick_reply", VObj [("payload", VStr "X")])]) in
  let run :=
    receivedMessage Sample.pageToken Sample.serverURL (Sample.constant_draw 0)
                    Sample.integer_toString event Sample.world0 in
  truthy (field (field event "message") "is_echo") = true
  /\ sent (snd run) = sent Sample.world0
  /\ draws (snd run) = draws Sample.world0.
Proof.
  intros event run. split; [reflexivity|].
  pose proof (echo_message_sends_nothing
                Sample.pageToken Sample.serverURL (Sample.constant_draw 0)
                Sample.integer_toString event Sample.world0 eq_refl) as T.
  split; [exact (proj1 T) | exact (proj1 (proj2 T))].
Defined.

(** C9 as stated fails: a text reply can be the supplied text.  With the
    draw 1/16 [sendTextMessage] sends entry 8 of the table whatever text it
    is given, so also when it is given that entry; the dispatcher reaches
    this on the default path, where the supplied text is the incoming one. *)
Lemma sendTextMessage_sends_supplied_text :
  let supplied := VStr "Cats make about 100 different sounds" in
  let draw := Sample.constant_draw (1 # 16) in
  let texts (w : World) :=
    map (fun c => field (field (json c) "message") "text") (sent w) in
  texts (snd (sendTextMessage Sample.pageToken draw (VStr "U") supplied
                Sample.world0))
  = [supplied]
  /\ texts (snd (onMessagingEvent Sample.pageToken Sample.serverURL draw
                   Sample.integer_toString
                   (Sample.event (VObj [("text", supplied)])) Sample.world0))
     = [supplied].
Proof. vm_compute. split; reflexivity. Qed.

(** Two texts, one payload; and the reply to a postback. *)
Lemma sendTextMessage_ignores_messageText_witness :
  let draw := Sample.constant_draw (1 # 16) in
  let event :=
    VObj [("sender", VObj [("id", VStr "U")]);
          ("recipient", VObj [("id", VStr "P")]);
          ("postback", VObj [("payload", VStr "DEVELOPER_DEFINED_PAYLOAD")])] in
  (forall n, 0 <= draw n /\ draw n < 1)
  /\ (forall n, round_binary64 (draw n) == draw n)
  /\ sendTextMessage Sample.pageToken draw (VStr "U") (VStr "hello") Sample.world0
     = sendTextMessage Sample.pageToken draw (VStr "U") (VStr "Postback called")
                       Sample.world0
  /\ nullish (field event "sender") = false
  /\ nullish (field event "recipient") = false
  /\ nullish (field event "postback") = false
  /\ repliesWithFact Sample.pageToken draw
       (receivedPostback Sample.pageToken draw event)
       (field (field event "sender") "id") Sample.world0.
Proof.
  intros draw event.
  pose proof (sendTextMessage_ignores_messageText
                Sample.pageToken Sample.serverURL draw eighth_entry_draw_range
                eighth_entry_draw_double Sample.integer_toString
                (VStr "U") (VStr "hello") (VStr "Postback called") event
                Sample.world0) as T.
  split; [exact eighth_entry_draw_range|].
  split; [exact eighth_entry_draw_double|]. split; [exact (proj1 T)|].
  repeat (split; [reflexivity|]).
  exact (proj1 (proj2 (proj2 (proj2 (proj2 (proj2 T))) eq_refl eq_refl)) eq_refl).
Defined.

(** A delivery with two message ids, and an optin. *)
Lemma handlers_send_zero_or_one_witness :
  let delivery :=
    VObj [("sender", VObj [("id", VStr "U")]);
          ("recipient", VObj [("id", VStr "P")]);
          ("delivery", VObj [("mids", VArr [VStr "mid.1"; VStr "mid.2"]);
                             ("watermark", VNum 1458668856253);
                             ("seq", VNum 37)])] in
  let optin :=
    VObj [("sender", VObj [("id", VStr "U")]);
          ("recipient", VObj [("id", VStr "P")]);
          ("optin", VObj [("ref", VStr "PASS_THROUGH_PARAM")])] in
  let draw := Sample.constant_draw 0 in
  (nullish (field delivery "sender") = false
   /\ nullish (field delivery "recipient") = false
   /\ nullish (field delivery "delivery") = false
   /\ isArray (field (field delivery "delivery") "mids") = true
   /\ sent (snd (receivedDeliveryConfirmation delivery Sample.world0))
      = sent Sample.world0
   /\ exists w', receivedDeliveryConfirmation delivery Sample.world0 = (Normal tt, w'))
  /\ (nullish (field optin "sender") = false
      /\ nullish (field optin "recipient") = false
      /\ nullish (field optin "optin") = false
      /\ sent (snd (receivedAuthentication Sample.pageToken draw optin Sample.world0))
         = (sent Sample.world0
            ++ [sendAPI Sample.pageToken (textPayload draw (VStr "U") Sample.world0)])%list).
Proof.
  intros delivery optin draw.
  pose proof (handlers_send_zero_or_one Sample.pageToken draw delivery Sample.world0)
    as [[Q _] D].
  pose proof (handlers_send_zero_or_one Sample.pageToken draw optin Sample.world0)
    as [_ O].
  split.
  - do 4 (split; [reflexivity|]). split; [exact (proj1 (Q Sample.world0))|].
    exact (proj1 (D eq_refl eq_refl) eq_refl (or_intror eq_refl)).
  - repeat (split; [reflexivity|]).
    destruct (proj1 (proj2 (proj2 (proj2 (O eq_refl eq_refl)))) eq_refl)
      as (line & _ & S & _).
    exact S.
Defined.

(** An event with [optin] and [message] goes to the optin handler; an event
    with none of the six fields is logged between its siblings; and the
    route handler, on the page envelope of the three events, runs the
    dispatcher on them in order and answers 200. *)
Lemma events_dispatched_in_priority_order_witness :
  let both :=
    VObj [("sender", VObj [("id", VStr "U")]);
          ("recipient", VObj [("id", VStr "P")]);
          ("message", Sample.text "image");
          ("optin", VObj [("ref", VStr "PASS_THROUGH_PARAM")])] in
  let unknown := VObj [("sender", VObj [("id", VStr "U")])] in
  let data := Sample.envelope (VStr "page") [both; unknown; both] in
  let draw := Sample.constant_draw 0 in
  let dispatch :=
    onMessagingEvent Sample.pageToken Sample.serverURL draw Sample.integer_toString in
  nullish both = false
  /\ nullish unknown = false
  /\ dispatch both Sample.world0
     = receivedAuthentication Sample.pageToken draw both Sample.world0
  /\ dispatch unknown Sample.world0
     = (Normal tt, logged (unknownEventLine unknown) Sample.world0)
  /\ forEachList dispatch ([both] ++ unknown :: [both]) Sample.world0
     = (forEachList dispatch [both] ;;;
        console_log [LVal (VStr "Webhook received unknown messagingEvent: ");
                     LVal unknown] ;;;
        forEachList dispatch [both]) Sample.world0
  /\ post_webhook Sample.pageToken Sample.serverURL draw Sample.integer_toString
       data Sample.world0
     = (forEachList dispatch [both; unknown; both] ;;; res_sendStatus 200)
         Sample.world0.
Proof.
  intros both unknown data draw dispatch.
  pose proof (events_dispatched_in_priority_order
                Sample.pageToken Sample.serverURL draw Sample.integer_toString
                both [] [] [] [] VNull data Sample.world0 eq_refl) as B.
  pose proof (events_dispatched_in_priority_order
                Sample.pageToken Sample.serverURL draw Sample.integer_toString
                unknown [both] [both] [] [] VNull data Sample.world0 eq_refl) as U.
  split; [reflexivity|]. split; [reflexivity|].
  split; [exact (proj1 B)|].
  destruct (proj1 (proj2 (proj2 U)) eq_refl eq_refl eq_refl eq_refl eq_refl eq_refl)
    as (U1 & U2 & _).
  split; [exact U1|]. split; [exact U2|].
  refine (proj2 (proj2 (proj2 (proj2 (proj2 (proj2 U))))) eq_refl eq_refl _).
  simpl. intros entry [<-|[]]. split; reflexivity.
Defined.

(** The comparison is the loose one: outside the envelopes the platform
    sends, a discriminator that is the array [["page"]] prints as ["page"]
    and passes it. *)
Remark array_discriminator_passes_the_comparison :
  let data :=
    Sample.envelope (VArr [VStr "page"]) [Sample.event (Sample.text "image")] in
  let w' :=
    snd (post_webhook Sample.pageToken Sample.serverURL (Sample.constant_draw 0)
           Sample.integer_toString data Sample.world0) in
  looseEq_page Sample.integer_toString (field data "object") = Normal true
  /\ length (sent w') = 1%nat
  /\ status w' = Some 200%Z.
Proof. vm_compute. repeat split; reflexivity. Qed.

(** The discriminator ["user"] stops the handler; ["page"] leads to 200. *)
Lemma post_webhook_page_gate_witness :
  let other := Sample.envelope (VStr "user") [Sample.event (Sample.text "image")] in
  let page := Sample.envelope (VStr "page") [Sample.event (Sample.text "image")] in
  let run :=
    post_webhook Sample.pageToken Sample.serverURL (Sample.constant_draw 0)
                 Sample.integer_toString in
  (field other "object" = VStr "user"
   /\ "user" <> "page"
   /\ run other Sample.world0 = (Normal tt, Sample.world0))
  /\ (field page "object" = VStr "page"
      /\ wf_envelope page = true
      /\ exists w', run page Sample.world0
                    = (Normal tt, mkWorld (sent w') (console w') (draws w')
                                          (Some 200%Z))).
Proof.
  intros other page run.
  assert ("user" <> "page") as Hne by discriminate.
  pose proof (post_webhook_page_gate
                Sample.pageToken Sample.serverURL (Sample.constant_draw 0)
                Sample.integer_toString other Sample.world0) as [O _].
  pose proof (post_webhook_page_gate
                Sample.pageToken Sample.serverURL (Sample.constant_draw 0)
                Sample.integer_toString page Sample.world0) as [_ [_ P]].
  split.
  - split; [reflexivity|]. split; [exact Hne|]. exact (O "user" eq_refl Hne).
  - split; [reflexivity|]. split; [reflexivity|].
    destruct (P eq_refl eq_refl) as (w' & _ & E). exists w'. exact E.
Defined.

(** ** The further properties at sample inputs *)

(** A start-up without environment variables whose configuration file
    lacks [serverURL]: the exception of [config.get] ends it; and one whose
    [validationToken] is empty: the check fails. *)
Lemma startup_requires_all_config_witness :
  let env : string -> option string := fun _ => None in
  let missing := Error "Configuration property is not defined" in
  let without_url (key : string) : Completion Value :=
    if String.eqb key "serverURL" then Throw missing else Normal (VStr key) in
  let empty_token (key : string) : Completion Value :=
    if String.eqb key "validationToken" then Normal (VStr EmptyString)
    else Normal (VStr key) in
  startup env without_url = ([], ConfigThrew missing)
  /\ startup env empty_token
     = ([ConsoleError [LVal (VStr "Missing config values")]], Exited 1).
Proof.
  intros env missing without_url empty_token. split.
  - exact (proj1 (proj2 (proj2 (proj2 (proj2 (proj2
             (startup_requires_all_config env without_url))))))
             (VStr "appSecret") (VStr "validationToken") (VStr "pageAccessToken")
             missing eq_refl eq_refl eq_refl eq_refl).
  - exact (proj1 (proj2 (startup_requires_all_config env empty_token))
             (VStr "appSecret") (VStr EmptyString) (VStr "pageAccessToken")
             (VStr "serverURL") eq_refl eq_refl eq_refl eq_refl).
Defined.

(** A page envelope whose second event has no sender: the first event is
    answered, the exception of the second ends the request without a
    status.  A discriminator with an own [toString] makes the comparison
    throw; another string returns. *)
Lemma post_webhook_status_iff_completed_witness :
  let image := Sample.event (Sample.text "image") in
  let data :=
    Sample.envelope (VStr "page") [image; Sample.senderless "message"; image] in
  let post :=
    post_webhook Sample.pageToken Sample.serverURL (Sample.constant_draw 0)
                 Sample.integer_toString in
  (fst (post data Sample.world0) = Throw TypeError
   /\ status (snd (post data Sample.world0)) = None
   /\ length (sent (snd (post data Sample.world0))) = 1%nat)
  /\ post (VObj [("object", VObj [("toString", VStr "page")])]) Sample.world0
     = (Throw TypeError, Sample.world0)
  /\ post (VObj [("object", VStr "user")]) Sample.world0
     = (Normal tt, Sample.world0).
Proof.
  intros image data post.
  pose proof (fun d => post_webhook_status_iff_completed
                Sample.pageToken Sample.serverURL (Sample.constant_draw 0)
                Sample.integer_toString d Sample.world0) as T.
  split; [|split].
  - destruct (T data) as (_ & _ & _ & _ & H).
    assert (forall entry, In entry (elements (field data "entry")) ->
              nullish entry = false /\ isArray (field entry "messaging") = true)
      as He by (simpl; intros entry [<-|[]]; split; reflexivity).
    destruct (H [image] (Sample.senderless "message") [image] TypeError _ _
                eq_refl eq_refl He eq_refl eq_refl eq_refl) as [E S].
    fold post in E. rewrite E. split; [reflexivity|]. split; reflexivity.
  - exact (proj1 (proj2 (T (VObj [("object", VObj [("toString", VStr "page")])])))
             eq_refl).
  - exact (proj1 (proj2 (T (VObj [("object", VStr "user")]))) eq_refl).
Defined.

Lemma get_webhook_validates_exactly_witness :
  let good := Sample.query "subscribe" Sample.verifyToken "1158201444" in
  let bad := Sample.query "subscribe" "another-token" "1158201444" in
  (nullish good = false
   /\ fst (get_webhook Sample.verifyToken good Sample.world0)
      = Normal (StatusSend 200 (VStr "1158201444")))
  /\ (nullish bad = false
      /\ fst (get_webhook Sample.verifyToken bad Sample.world0)
         = Normal (SendStatus 403)).
Proof.
  intros good bad.
  pose proof (get_webhook_validates_exactly Sample.verifyToken good Sample.world0
                eq_refl) as [G _].
  pose proof (get_webhook_validates_exactly Sample.verifyToken bad Sample.world0
                eq_refl) as [_ B].
  split; (split; [reflexivity|]).
  - rewrite (G (conj eq_refl eq_refl)). reflexivity.
  - rewrite B; [reflexivity|]. intros [_ E]. discriminate E.
Defined.

Lemma authorize_success_uri_witness :
  let query :=
    VObj [("account_linking_token", VStr "ARREDAZcQ");
          ("redirect_uri", VStr "https://facebook.com/messenger_platform/account_linking/?account_linking_token=ARREDAZcQ")] in
  nullish query = false
  /\ exists locals,
       authorize Sample.integer_toString query Sample.world0
       = (Normal (Render "authorize" locals), Sample.world0)
       /\ field locals "redirectURISuccess"
          = VStr "https://facebook.com/messenger_platform/account_linking/?account_linking_token=ARREDAZcQ&authorization_code=1234567890".
Proof.
  intros query. split; [reflexivity|].
  pose proof (authorize_success_uri Sample.integer_toString query Sample.world0
                eq_refl) as [A _].
  eexists. split; [exact (A _ eq_refl)|reflexivity].
Defined.

Lemma callSendAPI_callback_throws_without_response_witness :
  let error := VObj [("code", VStr "ECONNRESET")] in
  (@None IncomingMessage = None \/ nullish VUndefined = true)
  /\ callSendAPI_callback error None VUndefined Sample.world0
     = (Throw TypeError, Sample.world0).
Proof.
  intros error. split; [left; reflexivity|].
  exact (callSendAPI_callback_throws_without_response error None VUndefined
           Sample.world0 (or_introl eq_refl)).
Defined.

Lemma callSendAPI_callback_logs_once_witness :
  let r := mkIncoming 400 "Bad Request" in
  let body := VObj [("error", VObj [("message", VStr "Invalid OAuth access token.")])] in
  nullish body = false
  /\ exists line,
       callSendAPI_callback VNull (Some r) body Sample.world0
       = (Normal tt, logged line Sample.world0).
Proof.
  intros r body. split; [reflexivity|].
  destruct (callSendAPI_callback_logs_once VNull r body Sample.world0 eq_refl)
    as (line & E & _).
  exists line. exact E.
Defined.

Lemma builders_send_one_call_to_recipient_witness :
  In ("typing on", sendTypingOn Sample.pageToken)
     (keyword_builders Sample.pageToken Sample.serverURL (Sample.constant_draw 0)
                       Sample.integer_toString)
  /\ sendsOne Sample.pageToken (VStr "U") (sendTypingOn Sample.pageToken (VStr "U")).
Proof.
  assert (In ("typing on", sendTypingOn Sample.pageToken)
            (keyword_builders Sample.pageToken Sample.serverURL
               (Sample.constant_draw 0) Sample.integer_toString)) as Hin
    by (simpl; tauto).
  split; [exact Hin|].
  exact (proj1 (builders_send_one_call_to_recipient
                  Sample.pageToken Sample.serverURL (Sample.constant_draw 0)
                  Sample.integer_toString "typing on" (sendTypingOn Sample.pageToken)
                  (VStr "U") VUndefined Hin)).
Defined.

Lemma page_envelope_without_lists_throws_witness :
  let data := VObj [("object", VStr "page")] in
  field data "object" = VStr "page"
  /\ isArray (field data "entry") = false
  /\ post_webhook Sample.pageToken Sample.serverURL (Sample.constant_draw 0)
       Sample.integer_toString data Sample.world0
     = (Throw TypeError, Sample.world0).
Proof.
  intros data. split; [reflexivity|]. split; [reflexivity|].
  exact (proj1 (page_envelope_without_lists_throws
                  Sample.pageToken Sample.serverURL (Sample.constant_draw 0)
                  Sample.integer_toString data Sample.world0 eq_refl) eq_refl).
Defined.

Lemma event_without_sender_aborts_batch_witness :
  let bad := Sample.senderless "postback" in
  let good := Sample.event (Sample.text "image") in
  let dispatch :=
    onMessagingEvent Sample.pageToken Sample.serverURL (Sample.constant_draw 0)
                     Sample.integer_toString in
  handled bad = true
  /\ nullish (field bad "sender") || nullish (field bad "recipient") = true
  /\ dispatch bad Sample.world0 = (Throw TypeError, Sample.world0)
  /\ forEachList dispatch ([] ++ bad :: [good]) Sample.world0
     = (Throw TypeError, Sample.world0).
Proof.
  intros bad good dispatch.
  pose proof (event_without_sender_aborts_batch
                Sample.pageToken Sample.serverURL (Sample.constant_draw 0)
                Sample.integer_toString bad [] [good] Sample.world0 Sample.world0
                eq_refl eq_refl) as [T B].
  split; [reflexivity|]. split; [reflexivity|]. split; [exact T|].
  exact (B eq_refl).
Defined.

Lemma delivery_confirmation_console_lines_witness :
  let event := Sample.delivery (VArr [VStr "mid.1"; VStr "mid.2"]) in
  nullish (field event "sender") = false
  /\ nullish (field event "recipient") = false
  /\ nullish (field event "delivery") = false
  /\ isArray (field (field event "delivery") "mids") = true
  /\ console (snd (receivedDeliveryConfirmation event Sample.world0))
     = [deliveryLine (VStr "mid.1"); deliveryLine (VStr "mid.2");
        ConsoleLog [LVal (VStr "All message before %d were delivered.");
                    LVal (VNum 1458668856253)]].
Proof.
  intros event. do 4 (split; [reflexivity|]).
  rewrite (delivery_confirmation_console_lines event Sample.world0
             eq_refl eq_refl eq_refl (or_intror eq_refl)).
  reflexivity.
Defined.

Lemma message_without_content_gets_no_reply_witness :
  let event := Sample.event (VObj [("mid", VStr "mid.1"); ("text", VStr EmptyString)]) in
  nullish (field event "sender") = false
  /\ nullish (field event "recipient") = false
  /\ nullish (field event "message") = false
  /\ truthy (field (field event "message") "text") = false
  /\ receivedMessage Sample.pageToken Sample.serverURL (Sample.constant_draw 0)
       Sample.integer_toString event Sample.world0
     = (Normal tt, messageLogged event Sample.world0).
Proof.
  intros event. do 4 (split; [reflexivity|]).
  exact (message_without_content_gets_no_reply
           Sample.pageToken Sample.serverURL (Sample.constant_draw 0)
           Sample.integer_toString event Sample.world0
           eq_refl eq_refl eq_refl eq_refl eq_refl eq_refl eq_refl).
Defined.

Lemma receipt_draw_range (n : nat) :
  0 <= Sample.constant_draw (535928355657089 # 4503599627370496) n
  /\ Sample.constant_draw (535928355657089 # 4503599627370496) n < 1.
Proof. unfold Sample.constant_draw, Qle, Qlt; simpl; lia. Qed.

Lemma receipt_draw_double (n : nat) :
  round_binary64 (Sample.constant_draw (535928355657089 # 4503599627370496) n)
  == Sample.constant_draw (535928355657089 # 4503599627370496) n.
Proof. vm_compute. reflexivity. Qed.

(** The draw 0.119, whose product with 1000 is rounded to 119. *)
Lemma sendReceiptMessage_order_number_in_range_witness :
  let draw := Sample.constant_draw (535928355657089 # 4503599627370496) in
  (forall n, 0 <= draw n /\ draw n < 1)
  /\ (forall n, round_binary64 (draw n) == draw n)
  /\ exists c,
       sendReceiptMessage Sample.pageToken Sample.serverURL draw
         Sample.integer_toString (VStr "U") Sample.world0
       = (Normal tt, mkWorld [c] [] 1 None)
       /\ field (field (field (field (json c) "message") "attachment") "payload")
                "order_number" = VStr "order119".
Proof.
  intros draw.
  split; [exact receipt_draw_range|]. split; [exact receipt_draw_double|].
  destruct (sendReceiptMessage_order_number_in_range
              Sample.pageToken Sample.serverURL draw
              receipt_draw_range receipt_draw_double
              Sample.integer_toString (VStr "U") Sample.world0)
    as (_ & c & E & O & _).
  exists c. split; [exact E|]. rewrite O. vm_compute. reflexivity.
Defined.

Lemma signature_method_tag_is_ignored_witness :
  let sha := Sample.request [("x-hub-signature", "sha1=" ++ Sample.digest)] in
  let md5 := Sample.request [("x-hub-signature", "md5=" ++ Sample.digest)] in
  header (headers sha) "x-hub-signature" = Some ("sha1" ++ "=" ++ Sample.digest)
  /\ header (headers md5) "x-hub-signature" = Some ("md5" ++ "=" ++ Sample.digest)
  /\ occurs "=" Sample.digest = false
  /\ rawBody sha = rawBody md5
  /\ verifyRequestSignature Sample.secret Sample.hmac sha (rawBody sha) Sample.world0
     = verifyRequestSignature Sample.secret Sample.hmac md5 (rawBody md5)
                              Sample.world0.
Proof.
  intros sha md5. do 4 (split; [reflexivity|]).
  exact (signature_method_tag_is_ignored Sample.secret Sample.hmac sha md5
           "sha1" "md5" Sample.digest Sample.world0
           eq_refl eq_refl eq_refl eq_refl eq_refl eq_refl).
Defined.

Lemma integer_toString_is_not_page (q : Q) : Sample.integer_toString q <> "page".
Proof.
  unfold Sample.integer_toString.
  destruct (Z.to_int (Qfloor q)) as [d|d]; destruct d; discriminate.
Qed.

Lemma page_comparison_accepts_only_page_witness :
  let v := VArr [VArr [VStr "page"]] in
  (forall q, Sample.integer_toString q <> "page")
  /\ looseEq_page Sample.integer_toString v = Normal true
  /\ (v = VStr "page"
      \/ exists x, v = VArr [x]
                   /\ looseEq_page Sample.integer_toString x = Normal true).
Proof.
  intros v. split; [exact integer_toString_is_not_page|]. split; [reflexivity|].
  exact (page_comparison_accepts_only_page Sample.integer_toString v
           integer_toString_is_not_page eq_refl).
Defined.
